(** * Order-to-CRM synchronisation: the Zoho router and the register route

    A shallow embedding of
    [vintel-integration/src/server/api/routers/checkout.ts] (the [zohoRouter]
    procedures and the adapter functions they call) and of the registration
    route handler, together with the properties the specification states
    about them.

    Asynchronous procedures are functions in a state-and-exception monad over
    a [World]: the Prisma tables, and the log of the requests sent to the
    remote CRM.  What the JavaScript runtime and the remote service decide
    (the answer to a [fetch], the clock, [Math.random], generated row ids) is
    collected in a [Runtime] record the procedures read from. *)

From Stdlib Require Import ZArith QArith List Bool Ascii String Lia.
From Stdlib Require Import SpecFloat.
From stdpp Require Import base option gmap strings list fin_maps.

Local Open Scope string_scope.
Local Open Scope Z_scope.

(** ** JavaScript values *)

Module JS.

#[local] Set Warnings "-register-all".

(** A value produced by [JSON.parse].  The members of an object are kept
    in an association list; [JSON.parse] leaves one member per key. *)
Inductive JSON : Type :=
| JNull
| JBool (b : bool)
| JNum (q : Q)
| JStr (s : string)
| JArr (items : list JSON)
| JObj (members : list (string * JSON)).

(** [!v] is false: JavaScript truthiness of a parsed value. *)
Definition truthy (v : JSON) : bool :=
  match v with
  | JNull => false
  | JBool b => b
  | JNum q => negb (Qeq_bool q 0)
  | JStr s => negb (String.eqb s "")
  | JArr _ => true
  | JObj _ => true
  end.

(** [typeof v === "object"]; note that [typeof null] is ["object"] too. *)
Definition typeof_object (v : JSON) : bool :=
  match v with
  | JNull | JArr _ | JObj _ => true
  | _ => false
  end.

Fixpoint assoc (k : string) (ms : list (string * JSON)) : option JSON :=
  match ms with
  | [] => None
  | (k', v) :: rest => if String.eqb k k' then Some v else assoc k rest
  end.

(** [v.k] on a value that is not [null]: [None] stands for [undefined]. *)
Definition get (k : string) (v : JSON) : option JSON :=
  match v with
  | JObj ms => assoc k ms
  | _ => None
  end.

(** [k in v] for the keys this code asks about (none of them is an array
    index or ["length"]). *)
Definition has_key (k : string) (v : JSON) : bool :=
  match get k v with
  | Some _ => true
  | None => false
  end.

(** Truthiness of a possibly-[undefined] property. *)
Definition truthy_opt (o : option JSON) : bool :=
  match o with
  | Some v => truthy v
  | None => false
  end.

(** Truthiness of a string: [""] is the only falsy string. *)
Definition truthy_str (s : string) : bool := negb (String.eqb s "").

End JS.

Import JS.

(** ** Numbers

    A JavaScript Number is an IEEE 754 binary64.  [Finite m e] stands for
    [m * 2^e]; the binary64 values are those with a mantissa below [2^53] in
    absolute value and an exponent from -1074 to 971.  [NaN] is left out: no
    input schema of the router admits it and no operation below produces
    it. *)

Inductive Number : Type :=
| Finite (m e : Z)
| Infinity (negative : bool).

Definition binary64 (x : Number) : Prop :=
  match x with
  | Finite m e => Z.abs m < 2 ^ 53 /\ -1074 <= e <= 971
  | Infinity _ => True
  end.

(** The integer nearest to [M / 2^s], the even one of the two when [M] lies
    half-way, for [M >= 0]. *)
Definition round_half_even (M s : Z) : Z :=
  if s <=? 0 then M
  else
    let q := M / 2 ^ s in
    let r := M mod 2 ^ s in
    let half := 2 ^ (s - 1) in
    if r <? half then q
    else if half <? r then q + 1
    else if Z.even q then q else q + 1.

(** The Number nearest to the exact value [M * 2^e] (round to nearest, ties
    to even), for an exponent [e] of at least -1074: the exact value when [M]
    has at most 53 bits, otherwise [M] with the bits beyond the 53rd rounded
    away; an infinity when the rounded value reaches [2^1024]. *)
Definition Number_round (M e : Z) : Number :=
  let s := Z.max 0 (Z.log2 (Z.abs M) - 52) in
  let m := round_half_even (Z.abs M) s in
  if 1024 <=? Z.log2 m + (e + s) then Infinity (M <? 0)
  else Finite (Z.sgn M * m) (e + s).

(** [x * n] for a positive integer [n] below [2^53] *)
Definition Number_times (x : Number) (n : Z) : Number :=
  match x with
  | Finite m e => Number_round (m * n) e
  | Infinity s => Infinity s
  end.

(** [d + x] for an integer [d] below [2^53] in absolute value *)
Definition Number_plus (d : Z) (x : Number) : Number :=
  match x with
  | Finite m e =>
      if 0 <=? e then Number_round (d + m * 2 ^ e) 0
      else Number_round (d * 2 ^ (- e) + m) e
  | Infinity s => Infinity s
  end.

(** [Math.floor(x)] *)
Definition Math_floor (x : Number) : Number :=
  match x with
  | Finite m e => if 0 <=? e then x else Finite (m / 2 ^ (- e)) 0
  | Infinity s => Infinity s
  end.

(** [ToIntegerOrInfinity(x)]: the fraction is cut off towards zero; [None]
    stands for the two infinities. *)
Definition ToIntegerOrInfinity (x : Number) : option Z :=
  match x with
  | Finite m e => Some (if 0 <=? e then m * 2 ^ e else Z.quot m (2 ^ (- e)))
  | Infinity _ => None
  end.

(** [x] is the whole number [n]. *)
Definition whole (x : Number) (n : Z) : Prop :=
  match x with
  | Finite m e => if 0 <=? e then n = m * 2 ^ e else m = n * 2 ^ (- e)
  | Infinity _ => False
  end.

(** What [Math.random()] may return: a Number that is at least 0 and less
    than 1. *)
Definition unit_draw (x : Number) : Prop :=
  binary64 x /\ match x with
                | Finite m e => 0 <= m < 2 ^ (- e)
                | Infinity _ => False
                end.

(** ** Dates

    A time value is a number of milliseconds since the epoch; a [Date] is an
    [option Z], [None] being [Invalid Date]. *)

Definition msPerDay : Z := 86400000.

Definition Day (t : Z) : Z := t / msPerDay.

(** [DateFromTime(t)], the day of the month, in the proleptic Gregorian
    calendar: [doe] is the day within the 400-year cycle that starts on a
    1 March, [yoe] the year of the cycle, [doy] the day of that year and [mp]
    its month, both counted from March. *)
Definition DateFromTime (t : Z) : Z :=
  let doe := (Day t + 719468) mod 146097 in
  let yoe := (doe - doe / 1460 + doe / 36524 - doe / 146096) / 365 in
  let doy := doe - (365 * yoe + yoe / 4 - yoe / 100) in
  let mp := (5 * doy + 2) / 153 in
  doy - (153 * mp + 2) / 5 + 1.

(** [TimeClip(t)] *)
Definition TimeClip (t : Z) : option Z :=
  if Z.abs t <=? 8640000000000000 then Some t else None.

(** ** Errors *)

Inductive TRPCCode : Type :=
| NOT_FOUND
| BAD_REQUEST
| INTERNAL_SERVER_ERROR.

(** What a procedure can throw: a [TRPCError], or any other [Error]
    (a [TypeError] from [fetch], a [SyntaxError] from [response.json()],
    a Prisma error), of which only the message is ever read. *)
Inductive exn : Type :=
| TRPCError (code : TRPCCode) (message : string)
| JsError (message : string).

Definition instanceof_TRPCError (e : exn) : bool :=
  match e with
  | TRPCError _ _ => true
  | JsError _ => false
  end.

Definition PreconditionFailed (e : exn) : Prop := exists m, e = TRPCError BAD_REQUEST m.
Definition UpstreamError (msg : string) : exn :=
  TRPCError INTERNAL_SERVER_ERROR ("Zoho API error: " ++ msg).
Definition InvalidResponse : exn :=
  TRPCError INTERNAL_SERVER_ERROR "Invalid response format from Zoho API".
Definition Expired : exn := TRPCError BAD_REQUEST "Signup link has expired".
Definition LimitExceeded : exn :=
  TRPCError BAD_REQUEST "Signup link has exceeded usage limit".

Inductive Outcome (A : Type) : Type :=
| Ok (a : A)
| Throw (e : exn).
Arguments Ok {A} a.
Arguments Throw {A} e.

(** ** The data model *)

(** The rows of the Prisma tables, with the fields the router reads or
    writes.  A nullable column is an [option]. *)

Record CompanyInfo : Type := {
  contactName : option string;
  ci_email : option string;
  phone : option string;
  companyName : option string;
  address : option string;
  city : option string;
  state : option string;
  zipCode : option string;
  country : option string;
  industry : option string
}.

Record Agreement : Type := { ag_status : string }.

Record User : Type := { u_email : option string }.

(** A checkout session as [findFirst] returns it with
    [include: { companyInfo, agreement, user }]: each relation is the related
    row, or [null]. *)
Record CheckoutSession : Type := {
  cs_id : string;
  cs_userId : string;
  cs_module : option string;
  cs_status : string;
  cs_companyInfo : option CompanyInfo;
  cs_agreement : option Agreement;
  cs_user : option User
}.

(** The identity link: one row per local user ([userId] is unique). *)
Record ZohoAccountLink : Type := {
  zal_userId : string;
  zohoUserId : string;
  zal_updatedAt : Z
}.

Record SalesOrder : Type := {
  so_checkoutSessionId : string;
  zohoSalesOrderId : option string;
  amount : Q;
  currency : string
}.

Record SignupLink : Type := {
  sl_id : string;
  zoho_id : string;
  login_code : string;
  expires_at : Z;
  usage_limit : Z;
  usage_count : Z;
  is_active : bool;
  created_at : Z;
  updated_at : Z
}.

(** The tables.  [checkoutSession] is keyed by its primary key [id],
    [zohoAccountLink] by its unique [userId], [salesOrder] by its unique
    [checkoutSessionId]; [signupLink] keeps its rows in insertion order, which
    is the order [findFirst] scans them in. *)
Record Db : Type := {
  checkoutSession : gmap string CheckoutSession;
  zohoAccountLink : gmap string ZohoAccountLink;
  salesOrder : gmap string SalesOrder;
  signupLink : list SignupLink
}.

(** ** Requests to the remote CRM *)

Record ZohoContactFields : Type := {
  Last_Name : string;
  First_Name : string;
  Email : string;
  Phone : string;
  Company : string;
  Mailing_Street : string;
  Mailing_City : string;
  Mailing_State : string;
  Mailing_Zip : string;
  Mailing_Country : string;
  Industry : string;
  Description : string;
  Lead_Source : string
}.

Record ZohoContactData : Type := {
  cd_data : list ZohoContactFields;
  cd_trigger : list string
}.

Record ZohoSalesOrderFields : Type := {
  Contact_Name : string;
  Subject : string;
  Deal_Name : string;
  Grand_Total : Q;
  Sub_Total : Q;
  Tax_Amount : Q;
  Discount : Q;
  Adjustment : Q;
  Status : string;
  so_Description : string;
  Terms_and_Conditions : string
}.

Record ZohoSalesOrderData : Type := {
  sod_data : list ZohoSalesOrderFields;
  sod_trigger : list string
}.

(** One constructor per call the adapter makes: the method, the resource
    path and the body of the [fetch].  A search carries the value of its
    [criteria] parameter, as the service reads it once the percent-escapes
    of [encodeURIComponent] are undone. *)
Inductive Request : Type :=
| POST_Contacts (contactData : ZohoContactData)
| PUT_Contacts (contactId : string) (contactData : ZohoContactData)
| POST_Sales_Orders (salesOrderData : ZohoSalesOrderData)
| GET_Contacts (contactId : string)
| GET_Contacts_search (criteria : string)
| GET_Sales_Orders_search (criteria : string)
| GET_Deals_search (criteria : string)
| GET_Tasks_search (criteria : string)
| GET_Notes_search (criteria : string).

(** A [Response]: [ok] is [status] in the range 200-299; [body] is what
    [response.json()] resolves to, [None] when it rejects because the body
    is not JSON. *)
Record Response : Type := {
  status : Z;
  statusText : string;
  body : option JSON
}.

(** [fetch] resolves to a response, or rejects (the network is down). *)
Inductive FetchOutcome : Type :=
| Resolve (response : Response)
| Reject (message : string).

(** ** The runtime *)

Record Runtime : Type := {
  (** the answer to a request, given the requests sent before it *)
  fetch : list Request -> Request -> FetchOutcome;
  (** [env.ZOHO_ACCESS_TOKEN] *)
  ZOHO_ACCESS_TOKEN : option string;
  (** [new Date()], in milliseconds since the epoch *)
  now : Z;
  (** [LocalTZA(t, isUTC)]: the offset of the local time zone, in
      milliseconds (less than a day either way), at the time value [t],
      which is a UTC time when [isUTC] and a local time otherwise *)
  LocalTZA : Z -> bool -> Z;
  (** the [n]-th number [Math.random()] returns *)
  Math_random : nat -> Number;
  (** the time the store puts into [created_at] of a row it inserts
      ([DEFAULT CURRENT_TIMESTAMP]) *)
  CURRENT_TIMESTAMP : Z;
  (** the time Prisma puts into [updated_at] of a row it creates or
      updates *)
  updatedAt : Z;
  (** whether Prisma and the store take the valid date [t] for a
      [TIMESTAMP(3)] column; their range is not the program's *)
  stores_DateTime : Z -> bool;
  (** the id Prisma gives the [n]-th row it creates *)
  cuid : nat -> string;
  (** [String(v)], the conversion a template literal applies *)
  String_ : JSON -> string
}.

(** ** The monad of the procedures *)

Record World : Type := {
  db : Db;
  (** every request sent to the remote service so far, oldest first *)
  sent : list Request;
  (** how many numbers [Math.random()] has handed out *)
  drawn : nat;
  (** how many rows Prisma has created *)
  created : nat
}.

Definition M (A : Type) : Type := World -> Outcome A * World.

Definition ret {A} (a : A) : M A := fun w => (Ok a, w).

Definition throw {A} (e : exn) : M A := fun w => (Throw e, w).

Definition bind {A B} (m : M A) (k : A -> M B) : M B :=
  fun w =>
    match m w with
    | (Ok a, w') => k a w'
    | (Throw e, w') => (Throw e, w')
    end.

(** [try { m } catch (error) { h error }] *)
Definition try_catch {A} (m : M A) (h : exn -> M A) : M A :=
  fun w =>
    match m w with
    | (Ok a, w') => (Ok a, w')
    | (Throw e, w') => h e w'
    end.

Definition lift {A} (o : Outcome A) : M A := fun w => (o, w).

Definition get_db : M Db := fun w => (Ok (db w), w).

Definition put_db (d : Db) : M unit :=
  fun w => (Ok tt, {| db := d; sent := sent w; drawn := drawn w; created := created w |}).

Declare Scope proc_scope.
Delimit Scope proc_scope with proc.
Notation "'do' x <- m ; k" := (bind m (fun x => k))
  (at level 10, x name, m at level 100, k at level 200) : proc_scope.
Local Open Scope proc_scope.

(** ** The External Service Adapter *)

Definition ok (r : Response) : bool := (200 <=? status r) && (status r <=? 299).

(** The error [response.json()] rejects with on a body that does not parse. *)
Definition json_SyntaxError : exn := JsError "Unexpected token in JSON".

Definition response_json (r : Response) : Outcome JSON :=
  match body r with
  | Some v => Ok v
  | None => Throw json_SyntaxError
  end.

Definition isZohoErrorResponse (error : JSON) : bool :=
  typeof_object error
  && match error with JNull => false | _ => true end
  && has_key "code" error
  && has_key "message" error
  && has_key "status" error.

Section Procedures.

Variable rt : Runtime.

(** [`${v}`] for a property [v] that may be [undefined]. *)
Definition template (o : option JSON) : string :=
  match o with
  | Some (JStr s) => s
  | Some v => String_ rt v
  | None => "undefined"
  end.

Definition handleZohoApiResponse (response : Response) : Outcome JSON :=
  if negb (ok response) then
    let errorMessage :=
      match response_json response with
      | Ok errorData =>
          if isZohoErrorResponse errorData
          then template (get "message" errorData)
          else statusText response
      | Throw _ => statusText response
      end in
    Throw (TRPCError INTERNAL_SERVER_ERROR ("Zoho API error: " ++ errorMessage))
  else
    match response_json response with
    | Throw e => Throw e
    | Ok data =>
        if negb (truthy data) || negb (typeof_object data)
        then Throw (TRPCError INTERNAL_SERVER_ERROR
                      "Invalid response format from Zoho API")
        else Ok data
    end.

(** [await fetch(...)]: the request is logged, and answered from the log. *)
Definition do_fetch (rq : Request) : M Response :=
  fun w =>
    let w' := {| db := db w; sent := sent w ++ [rq];
                 drawn := drawn w; created := created w |} in
    match fetch rt (sent w) rq with
    | Resolve r => (Ok r, w')
    | Reject m => (Throw (JsError m), w')
    end.

Definition createZohoContact (contactData : ZohoContactData) : M JSON :=
  do response <- do_fetch (POST_Contacts contactData);
  lift (handleZohoApiResponse response).

Definition updateZohoContact (contactId : string) (contactData : ZohoContactData)
  : M JSON :=
  do response <- do_fetch (PUT_Contacts contactId contactData);
  lift (handleZohoApiResponse response).

Definition createZohoSalesOrder (salesOrderData : ZohoSalesOrderData) : M JSON :=
  do response <- do_fetch (POST_Sales_Orders salesOrderData);
  lift (handleZohoApiResponse response).

(** The [catch] clause shared by the read-style lookups: a [TRPCError] is
    thrown again, anything else is logged and replaced by [fallback]. *)
Definition rethrow_TRPCError_or {A} (fallback : A) (error : exn) : M A :=
  if instanceof_TRPCError error then throw error else ret fallback.

(** [getZohoContact]: [None] is [null]. *)
Definition getZohoContact (contactId : string) : M (option JSON) :=
  try_catch
    (do response <- do_fetch (GET_Contacts contactId);
     do data <- lift (handleZohoApiResponse response);
     ret (Some data))
    (rethrow_TRPCError_or None).

(** [searchZohoContacts] puts whatever it is handed into an [Email]
    criterion: [criteria=(Email:equals:${encodeURIComponent(searchQuery)})]. *)
Definition searchZohoContacts (searchQuery : string) : M JSON :=
  try_catch
    (do response <- do_fetch (GET_Contacts_search
                                ("(Email:equals:" ++ searchQuery ++ ")"));
     lift (handleZohoApiResponse response))
    (rethrow_TRPCError_or (JArr [])).

(** [!ZOHO_ACCESS_TOKEN] *)
Definition token_missing : bool :=
  match ZOHO_ACCESS_TOKEN rt with
  | Some t => negb (truthy_str t)
  | None => true
  end.

(** The four entity searches differ in the resource path only. *)
Definition searchZoho (endpoint : string -> Request) (searchQuery : string)
  : M JSON :=
  try_catch
    (do _ <- (if token_missing
              then throw (TRPCError INTERNAL_SERVER_ERROR
                            "Zoho access token not configured")
              else ret tt);
     do response <- do_fetch (endpoint searchQuery);
     lift (handleZohoApiResponse response))
    (rethrow_TRPCError_or (JArr [])).

Definition searchZohoSalesOrders := searchZoho GET_Sales_Orders_search.
Definition searchZohoDeals := searchZoho GET_Deals_search.
Definition searchZohoTasks := searchZoho GET_Tasks_search.
Definition searchZohoNotes := searchZoho GET_Notes_search.

(** *** [generateSecureLoginCode] *)

Definition chars : string := "ABCDEFGHIJKLMNOPQRSTUVWXYZ0123456789".

(** [s.charAt(pos)]: the empty string when the position is out of range. *)
Definition charAt (s : string) (pos : Number) : string :=
  match ToIntegerOrInfinity pos with
  | Some i =>
      if i <? 0 then ""
      else match String.get (Z.to_nat i) s with
           | Some c => String c ""
           | None => ""
           end
  | None => ""
  end.

(** [Math.random()] *)
Definition Math_random_next : M Number :=
  fun w => (Ok (Math_random rt (drawn w)),
            {| db := db w; sent := sent w;
               drawn := S (drawn w); created := created w |}).

(** [Math.floor(Math.random() * chars.length)]: the product is the Number
    nearest to the exact one. *)
Definition random_index (r : Number) : Number :=
  Math_floor (Number_times r (Z.of_nat (String.length chars))).

(** The [for] loop, with [n] iterations left. *)
Fixpoint generateSecureLoginCode_loop (n : nat) (result : string) : M string :=
  match n with
  | O => ret result
  | S n' =>
      do r <- Math_random_next;
      generateSecureLoginCode_loop n' (result ++ charAt chars (random_index r))
  end.

Definition generateSecureLoginCode : M string :=
  generateSecureLoginCode_loop 12 "".

(** ** Prisma operations *)

Definition with_checkoutSession (d : Db) (t : gmap string CheckoutSession) : Db :=
  {| checkoutSession := t; zohoAccountLink := zohoAccountLink d;
     salesOrder := salesOrder d; signupLink := signupLink d |}.

Definition with_zohoAccountLink (d : Db) (t : gmap string ZohoAccountLink) : Db :=
  {| checkoutSession := checkoutSession d; zohoAccountLink := t;
     salesOrder := salesOrder d; signupLink := signupLink d |}.

Definition with_salesOrder (d : Db) (t : gmap string SalesOrder) : Db :=
  {| checkoutSession := checkoutSession d; zohoAccountLink := zohoAccountLink d;
     salesOrder := t; signupLink := signupLink d |}.

Definition with_signupLink (d : Db) (t : list SignupLink) : Db :=
  {| checkoutSession := checkoutSession d; zohoAccountLink := zohoAccountLink d;
     salesOrder := salesOrder d; signupLink := t |}.

(** [checkoutSession.findFirst({ where: { id, userId } })] *)
Definition checkoutSession_findFirst (id userId : string)
  : M (option CheckoutSession) :=
  do d <- get_db;
  ret (match checkoutSession d !! id with
       | Some cs => if String.eqb (cs_userId cs) userId then Some cs else None
       | None => None
       end).

Definition set_status (st : string) (cs : CheckoutSession) : CheckoutSession :=
  {| cs_id := cs_id cs; cs_userId := cs_userId cs; cs_module := cs_module cs;
     cs_status := st; cs_companyInfo := cs_companyInfo cs;
     cs_agreement := cs_agreement cs; cs_user := cs_user cs |}.

Definition prisma_RecordNotFound : exn :=
  JsError "An operation failed because it depends on one or more records that were required but not found.".

(** [checkoutSession.update({ where: { id }, data: { status } })] *)
Definition checkoutSession_update_status (id st : string) : M unit :=
  do d <- get_db;
  match checkoutSession d !! id with
  | Some cs => put_db (with_checkoutSession d (<[id := set_status st cs]> (checkoutSession d)))
  | None => throw prisma_RecordNotFound
  end.

(** [zohoAccountLink.findUnique({ where: { userId } })] *)
Definition zohoAccountLink_findUnique (userId : string)
  : M (option ZohoAccountLink) :=
  do d <- get_db; ret (zohoAccountLink d !! userId).

(** A value handed to Prisma for a [String] column must be a string. *)
Definition prisma_String (v : JSON) : M string :=
  match v with
  | JStr s => ret s
  | _ => throw (JsError "Invalid value provided. Expected String.")
  end.

(** [zohoAccountLink.upsert({ where: { userId }, update: { zohoUserId,
    updatedAt: new Date() }, create: { userId, zohoUserId } })] *)
Definition zohoAccountLink_upsert (userId : string) (zohoContactId : JSON)
  : M ZohoAccountLink :=
  do id <- prisma_String zohoContactId;
  do d <- get_db;
  let row := {| zal_userId := userId; zohoUserId := id; zal_updatedAt := now rt |} in
  do _ <- put_db (with_zohoAccountLink d (<[userId := row]> (zohoAccountLink d)));
  ret row.

(** [salesOrder.findUnique({ where: { checkoutSessionId } })] *)
Definition salesOrder_findUnique (checkoutSessionId : string)
  : M (option SalesOrder) :=
  do d <- get_db; ret (salesOrder d !! checkoutSessionId).

(** [salesOrder.update({ where: { checkoutSessionId }, data: { zohoSalesOrderId } })] *)
Definition salesOrder_update (checkoutSessionId : string) (id : JSON) : M unit :=
  do zid <- prisma_String id;
  do d <- get_db;
  match salesOrder d !! checkoutSessionId with
  | Some so =>
      put_db (with_salesOrder d
                (<[checkoutSessionId :=
                     {| so_checkoutSessionId := so_checkoutSessionId so;
                        zohoSalesOrderId := Some zid;
                        amount := amount so; currency := currency so |}]>
                   (salesOrder d)))
  | None => throw prisma_RecordNotFound
  end.

Definition prisma_UniqueConstraint (field : string) : exn :=
  JsError ("Unique constraint failed on the fields: (`" ++ field ++ "`)").

(** [salesOrder.create({ data: { checkoutSessionId, zohoSalesOrderId, amount,
    currency: "USD" } })] *)
Definition salesOrder_create (checkoutSessionId : string) (id : JSON) (amt : Q)
  : M unit :=
  do zid <- prisma_String id;
  do d <- get_db;
  match salesOrder d !! checkoutSessionId with
  | Some _ => throw (prisma_UniqueConstraint "checkoutSessionId")
  | None =>
      put_db (with_salesOrder d
                (<[checkoutSessionId :=
                     {| so_checkoutSessionId := checkoutSessionId;
                        zohoSalesOrderId := Some zid;
                        amount := amt; currency := "USD" |}]>
                   (salesOrder d)))
  end.

(** [signupLink.findFirst({ where: { zoho_id, login_code } })] *)
Definition signupLink_findFirst (zid code : string) : M (option SignupLink) :=
  do d <- get_db;
  ret (List.find (fun l => String.eqb (zoho_id l) zid && String.eqb (login_code l) code)
         (signupLink d)).

(** The row after [data: { is_active: false }]: Prisma writes the time of
    the update into [updated_at]. *)
Definition deactivate (l : SignupLink) : SignupLink :=
  {| sl_id := sl_id l; zoho_id := zoho_id l; login_code := login_code l;
     expires_at := expires_at l; usage_limit := usage_limit l;
     usage_count := usage_count l; is_active := false;
     created_at := created_at l; updated_at := updatedAt rt |}.

(** [signupLink.update({ where: { id }, data: { is_active: false } })] *)
Definition signupLink_update_inactive (id : string) : M unit :=
  do d <- get_db;
  if existsb (fun l => String.eqb (sl_id l) id) (signupLink d)
  then put_db (with_signupLink d
                 (List.map (fun l => if String.eqb (sl_id l) id then deactivate l else l)
                    (signupLink d)))
  else throw prisma_RecordNotFound.

Definition prisma_ValidationError (field : string) : exn :=
  JsError ("Invalid value provided for argument `" ++ field ++ "`.").

(** The value of an [Int] column (a 32-bit [INTEGER]): the Number has to be
    a whole number from [-2^31] to [2^31 - 1]. *)
Definition Int_column (x : Number) : option Z :=
  match x with
  | Finite m e =>
      if (0 <=? e) || (m mod 2 ^ (- e) =? 0) then
        let n := if 0 <=? e then m * 2 ^ e else m / 2 ^ (- e) in
        if (- 2 ^ 31 <=? n) && (n <? 2 ^ 31) then Some n else None
      else None
  | Infinity _ => None
  end.

(** The value of a [DateTime] column ([TIMESTAMP(3)]): a valid date that
    Prisma and the store take. *)
Definition DateTime_column (d : option Z) : option Z :=
  match d with
  | Some t => if stores_DateTime rt t then Some t else None
  | None => None
  end.

(** [signupLink.create({ data })]: the values have to fit their columns;
    [login_code] carries a unique index, so a row whose code is already
    stored is refused; the new row gets its id from Prisma, [created_at] from
    the column default and [updated_at] from Prisma. *)
Definition signupLink_create (zid code : string) (expires : option Z)
  (limit : Number) : M SignupLink :=
  fun w =>
    let d := db w in
    match DateTime_column expires, Int_column limit with
    | None, _ => (Throw (prisma_ValidationError "expires_at"), w)
    | Some _, None => (Throw (prisma_ValidationError "usage_limit"), w)
    | Some expires_at, Some usage_limit =>
        if existsb (fun l => String.eqb (login_code l) code) (signupLink d)
        then (Throw (prisma_UniqueConstraint "login_code"), w)
        else
          let row := {| sl_id := cuid rt (created w); zoho_id := zid;
                        login_code := code; expires_at := expires_at;
                        usage_limit := usage_limit; usage_count := 0;
                        is_active := true;
                        created_at := CURRENT_TIMESTAMP rt;
                        updated_at := updatedAt rt |} in
          (Ok row, {| db := with_signupLink d (signupLink d ++ [row]);
                      sent := sent w; drawn := drawn w; created := S (created w) |})
    end.

(** ** Dates in the local time zone *)

(** [LocalTime(t)] and [UTC(t)] *)
Definition LocalTime (t : Z) : Z := t + LocalTZA rt t true.

Definition UTC (t : Z) : Z := t - LocalTZA rt t false.

(** [d.getDate()] of the date with time value [t] *)
Definition Date_getDate (t : Z) : Z := DateFromTime (LocalTime t).

(** [d.setDate(date)] on the date with time value [t]: the day [dt] of the
    month of [t], in local time and at the same time of day
    ([MakeDate(MakeDay(YearFromTime, MonthFromTime, dt), TimeWithinDay)], which
    is [dt - DateFromTime] days away), taken back to UTC and clipped. *)
Definition Date_setDate (t : Z) (date : Number) : option Z :=
  match ToIntegerOrInfinity date with
  | Some dt =>
      TimeClip (UTC (LocalTime t + (dt - DateFromTime (LocalTime t)) * msPerDay))
  | None => None
  end.

(** ** String and array helpers of the runtime *)

(** [s.split(sep)] for a one-character separator. *)
Fixpoint split (sep : ascii) (s : string) : list string :=
  match s with
  | EmptyString => [""]
  | String c rest =>
      if Ascii.eqb c sep then "" :: split sep rest
      else match split sep rest with
           | w :: ws => String c w :: ws
           | [] => [String c ""]
           end
  end.

(** [parts.join(sep)] *)
Fixpoint join (sep : string) (parts : list string) : string :=
  match parts with
  | [] => ""
  | [w] => w
  | w :: ws => w ++ sep ++ join sep ws
  end.

(** A relative index of [Array.prototype.slice], clamped to the array. *)
Definition slice_index (len k : Z) : Z :=
  if k <? 0 then Z.max (len + k) 0 else Z.min k len.

(** [l.slice(start, stop)] *)
Definition slice {A} (l : list A) (start stop : Z) : list A :=
  let len := Z.of_nat (length l) in
  let from := slice_index len start in
  let to := slice_index len stop in
  take (Z.to_nat (to - from)) (drop (Z.to_nat from) l).

(** [l.slice(start)] *)
Definition slice_from {A} (l : list A) (start : Z) : list A :=
  slice l start (Z.of_nat (length l)).

(** ** The router *)

(** [ctx.session.user.id] *)
Record Ctx : Type := { session_user_id : string }.

(** *** [createOrUpdateContact] *)

Record ContactInput : Type := {
  in_userId : option string;
  in_checkoutSessionId : string;
  requireAgreementSigned : bool
}.

Record ContactResult : Type := {
  zohoContactId : string;
  isUpdate : bool;
  zohoLink : ZohoAccountLink;
  cr_message : string
}.

(** [input.userId ?? ctx.session.user.id]: the user the procedure acts for. *)
Definition principal (ctx : Ctx) (input : ContactInput) : string :=
  default (session_user_id ctx) (in_userId input).

Definition make_contactData (checkoutSession : CheckoutSession)
  (companyInfo : CompanyInfo) (user : User) : ZohoContactData :=
  let contactName := default "" (contactName companyInfo) in
  let nameParts := split " " contactName in
  let lastName := join " " (slice_from nameParts (-1)) in
  let firstName := join " " (slice nameParts 0 (-1)) in
  {| cd_data :=
       [ {| Last_Name := lastName;
            First_Name := firstName;
            Email := default (default "" (u_email user)) (ci_email companyInfo);
            Phone := default "" (phone companyInfo);
            Company := default "" (companyName companyInfo);
            Mailing_Street := default "" (address companyInfo);
            Mailing_City := default "" (city companyInfo);
            Mailing_State := default "" (state companyInfo);
            Mailing_Zip := default "" (zipCode companyInfo);
            Mailing_Country := default "US" (country companyInfo);
            Industry := default "" (industry companyInfo);
            Description := "Created via checkout session: " ++ cs_id checkoutSession;
            Lead_Source := "Website Checkout" |} ];
     cd_trigger := ["approval"; "workflow"] |}.

(** [!checkoutSession.agreement || checkoutSession.agreement.status !== "completed"] *)
Definition agreement_not_completed (cs : CheckoutSession) : bool :=
  match cs_agreement cs with
  | None => true
  | Some a => negb (String.eqb (ag_status a) "completed")
  end.

(** [link?.zohoUserId] when it is truthy: the remote id of a link that
    exists and holds a non-empty id. *)
Definition linked_zohoUserId (link : option ZohoAccountLink) : option string :=
  match link with
  | Some l => if truthy_str (zohoUserId l) then Some (zohoUserId l) else None
  | None => None
  end.

(** The [try] block of [createOrUpdateContact]. *)
Definition createOrUpdateContact_body (ctx : Ctx) (input : ContactInput)
  : M ContactResult :=
  (* 1. Fetch checkout session with company info and agreement status *)
  do found <- checkoutSession_findFirst (in_checkoutSessionId input) (principal ctx input);
  match found with
  | None => throw (TRPCError NOT_FOUND "Checkout session not found")
  | Some checkoutSession =>
  match cs_companyInfo checkoutSession with
  | None => throw (TRPCError BAD_REQUEST "Company information not found")
  | Some companyInfo =>
  (* 2. Check if agreement is signed (if required) *)
  if requireAgreementSigned input && agreement_not_completed checkoutSession
  then throw (TRPCError BAD_REQUEST
                "Agreement must be signed before creating Zoho contact")
  else
  (* 3. Check if Zoho contact already exists for this user *)
  do existingZohoLink <- zohoAccountLink_findUnique (principal ctx input);
  match cs_user checkoutSession with
  | None => throw (TRPCError INTERNAL_SERVER_ERROR "User data not found")
  | Some user =>
  (* 4. Prepare contact data for Zoho API *)
  let contactData := make_contactData checkoutSession companyInfo user in
  do r <-
    match linked_zohoUserId existingZohoLink with
    | Some linkedId =>
        (* 5a. Update existing contact *)
        do updateResponse <- updateZohoContact linkedId contactData;
        if negb (truthy_opt (get "id" updateResponse))
        then throw (TRPCError INTERNAL_SERVER_ERROR "Failed to update Zoho contact")
        else ret (JStr linkedId, true)
    | None =>
        (* 5b. Create new contact *)
        do createResponse <- createZohoContact contactData;
        match get "id" createResponse with
        | Some id =>
            if truthy id then ret (id, false)
            else throw (TRPCError INTERNAL_SERVER_ERROR
                          "Failed to get contact ID from Zoho response")
        | None => throw (TRPCError INTERNAL_SERVER_ERROR
                           "Failed to get contact ID from Zoho response")
        end
    end;
  let '(id, isUpd) := r in
  (* 6. Update or create ZohoAccountLink record *)
  do link <- zohoAccountLink_upsert (principal ctx input) id;
  (* 7. Update checkout session status *)
  do _ <- checkoutSession_update_status (in_checkoutSessionId input) "contact_created";
  ret {| zohoContactId := zohoUserId link;
         isUpdate := isUpd;
         zohoLink := link;
         cr_message := if isUpd then "Zoho contact updated successfully"
                       else "Zoho contact created successfully" |}
  end end end.

(** Its [catch] clause: "Always throw TRPCError". *)
Definition createOrUpdateContact_catch {A} (err : exn) : M A :=
  match err with
  | TRPCError _ _ => throw err
  | JsError message => throw (TRPCError INTERNAL_SERVER_ERROR message)
  end.

Definition createOrUpdateContact (ctx : Ctx) (input : ContactInput)
  : M ContactResult :=
  try_catch (createOrUpdateContact_body ctx input) createOrUpdateContact_catch.

(** *** [createSalesOrder] *)

Record SalesOrderInput : Type := {
  so_in_checkoutSessionId : string;
  requirePaymentConfirmed : bool;
  requireContactCreated : bool
}.

Record SalesOrderResult : Type := {
  res_zohoSalesOrderId : JSON;
  res_zohoContactId : string;
  res_checkoutSessionId : string
}.

Definition make_salesOrderData (checkoutSession : CheckoutSession)
  (contactId : string) (orderAmount : Q) : ZohoSalesOrderData :=
  let module := default "Zoho Integration" (cs_module checkoutSession) in
  {| sod_data :=
       [ {| Contact_Name := contactId;
            Subject := module ++ " - " ++ cs_id checkoutSession;
            Deal_Name := module ++ " Deal";
            Grand_Total := orderAmount;
            Sub_Total := orderAmount;
            Tax_Amount := 0;
            Discount := 0;
            Adjustment := 0;
            Status := "Draft";
            so_Description :=
              "Sales order created from checkout session: " ++ cs_id checkoutSession;
            Terms_and_Conditions :=
              "Payment processed via Stripe. Agreement signed via DocuSign." |} ];
     sod_trigger := ["approval"; "workflow"] |}.

(** [status !== "payment_completed" && status !== "contact_created"] *)
Definition payment_not_confirmed (cs : CheckoutSession) : bool :=
  negb (String.eqb (cs_status cs) "payment_completed")
  && negb (String.eqb (cs_status cs) "contact_created").

(** The [try] block of [createSalesOrder]. *)
Definition createSalesOrder_body (ctx : Ctx) (input : SalesOrderInput)
  : M SalesOrderResult :=
  (* 1. Fetch checkout session with all related data *)
  do found <- checkoutSession_findFirst (so_in_checkoutSessionId input) (session_user_id ctx);
  match found with
  | None => throw (TRPCError NOT_FOUND "Checkout session not found")
  | Some checkoutSession =>
  (* 2. Check if payment is confirmed (if required) *)
  if requirePaymentConfirmed input && payment_not_confirmed checkoutSession
  then throw (TRPCError BAD_REQUEST
                "Payment must be confirmed before creating sales order")
  else
  (* 3. Check if contact is created (if required) *)
  if requireContactCreated input
     && negb (String.eqb (cs_status checkoutSession) "contact_created")
  then throw (TRPCError BAD_REQUEST
                "Contact must be created before creating sales order")
  else
  (* 4. Get Zoho contact ID *)
  do zohoLink <- zohoAccountLink_findUnique (session_user_id ctx);
  match linked_zohoUserId zohoLink with
  | None => throw (TRPCError NOT_FOUND "Zoho contact not found")
  | Some contactId =>
  (* 5. Get existing sales order amount from database *)
  do existingSalesOrder <- salesOrder_findUnique (so_in_checkoutSessionId input);
  let orderAmount :=
    match existingSalesOrder with Some so => amount so | None => 0%Q end in
  (* 6. Prepare sales order data *)
  let salesOrderData := make_salesOrderData checkoutSession contactId orderAmount in
  (* 7. Create sales order in Zoho *)
  do createResponse <- createZohoSalesOrder salesOrderData;
  match get "id" createResponse with
  | None => throw (TRPCError INTERNAL_SERVER_ERROR
                     "Failed to get sales order ID from Zoho response")
  | Some id =>
  if negb (truthy id)
  then throw (TRPCError INTERNAL_SERVER_ERROR
                "Failed to get sales order ID from Zoho response")
  else
  (* 8. Update checkout session status *)
  do _ <- checkoutSession_update_status (so_in_checkoutSessionId input) "sales_order_created";
  (* 9. Update existing sales order with Zoho ID *)
  do _ <- match existingSalesOrder with
          | Some _ => salesOrder_update (so_in_checkoutSessionId input) id
          | None => salesOrder_create (so_in_checkoutSessionId input) id orderAmount
          end;
  ret {| res_zohoSalesOrderId := id;
         res_zohoContactId := contactId;
         res_checkoutSessionId := so_in_checkoutSessionId input |}
  end end end.

(** The [catch] clause of the other procedures: a [TRPCError] is thrown
    again, anything else becomes an [INTERNAL_SERVER_ERROR] with a fixed
    message. *)
Definition rethrow_or_internal {A} (message : string) (error : exn) : M A :=
  match error with
  | TRPCError _ _ => throw error
  | JsError _ => throw (TRPCError INTERNAL_SERVER_ERROR message)
  end.

Definition createSalesOrder (ctx : Ctx) (input : SalesOrderInput)
  : M SalesOrderResult :=
  try_catch (createSalesOrder_body ctx input)
    (rethrow_or_internal "Failed to create Zoho sales order").

(** *** [generateSignupLink] and [createSignupLink] *)

Record SignupLinkInput : Type := {
  gen_zoho_id : string;
  expiresInDays : Number
}.

Definition generateSignupLink (input : SignupLinkInput) : M SignupLink :=
  try_catch
    ((* 1. Check if Zoho contact exists *)
     do contact <- getZohoContact (gen_zoho_id input);
     match contact with
     | None => throw (TRPCError NOT_FOUND "Zoho contact not found")
     | Some _ =>
         (* 2. Generate secure login code and expiration date *)
         do loginCode <- generateSecureLoginCode;
         let expiresAt :=
           Date_setDate (now rt)
             (Number_plus (Date_getDate (now rt)) (expiresInDays input)) in
         (* 3. Create signup link record *)
         signupLink_create (gen_zoho_id input) loginCode expiresAt (Finite 1 0)
     end)
    (rethrow_or_internal "Failed to generate signup link").

Record CreateSignupLinkInput : Type := {
  new_zoho_id : string;
  new_usage_limit : option Number
}.

Definition createSignupLink (input : CreateSignupLinkInput) : M SignupLink :=
  try_catch
    (do loginCode <- generateSecureLoginCode;
     signupLink_create (new_zoho_id input) loginCode
       (TimeClip (now rt + 7 * 24 * 60 * 60 * 1000))
       (default (Finite 1 0) (new_usage_limit input)))
    (rethrow_or_internal "Failed to create signup link").

(** *** [validateSignupLink] *)

Record ValidateInput : Type := {
  val_zoho_id : string;
  val_login_code : string
}.

Record ValidateResult : Type := {
  vr_signupLink : SignupLink;
  vr_contact : JSON
}.

Definition validateSignupLink (input : ValidateInput) : M ValidateResult :=
  try_catch
    (do found <- signupLink_findFirst (val_zoho_id input) (val_login_code input);
     match found with
     | None => throw (TRPCError NOT_FOUND "Signup link not found")
     | Some signupLink =>
         (* Check if link is expired *)
         if expires_at signupLink <? now rt then
           do _ <- signupLink_update_inactive (sl_id signupLink);
           throw (TRPCError BAD_REQUEST "Signup link has expired")
         else
         (* Check if link has exceeded usage limit *)
         if usage_count signupLink >=? usage_limit signupLink then
           throw (TRPCError BAD_REQUEST "Signup link has exceeded usage limit")
         else
         (* Get Zoho contact details *)
         do contact <- getZohoContact (zoho_id signupLink);
         match contact with
         | None => throw (TRPCError NOT_FOUND "Zoho contact not found")
         | Some c => ret {| vr_signupLink := signupLink; vr_contact := c |}
         end
     end)
    (rethrow_or_internal "Failed to validate signup link").

(** *** [getCRMData] *)

Record CRMDataInput : Type := {
  crm_zohoContactId : string;
  includeSalesOrders : bool;
  includeDeals : bool;
  includeTasks : bool;
  includeNotes : bool
}.

Record CRMData : Type := {
  contact : option JSON;
  salesOrders : JSON;
  deals : JSON;
  tasks : JSON;
  notes : JSON
}.

(** [try { field = await m } catch (error) { console.error(...) }] on a
    field initialised to [initial]: any error leaves the field as it was. *)
Definition best_effort {A} (initial : A) (m : M A) : M A :=
  try_catch m (fun _ => ret initial).

(** A sub-fetch that runs only when the caller asked for it. *)
Definition if_requested (flag : bool) (m : M JSON) : M JSON :=
  if flag then best_effort (JArr []) m else ret (JArr []).

Definition criteria (field zohoContactId : string) : string :=
  "(" ++ field ++ ":equals:" ++ zohoContactId ++ ")".

(** The result is [None] for [data: null]. *)
Definition getCRMData (ctx : Ctx) (input : CRMDataInput) : M (option CRMData) :=
  try_catch
    ((* 1. Get Zoho contact ID from user or input *)
     do resolved <-
       (if truthy_str (crm_zohoContactId input)
        then ret (Some (crm_zohoContactId input))
        else do zohoLink <- zohoAccountLink_findUnique (session_user_id ctx);
             ret (linked_zohoUserId zohoLink));
     match resolved with
     | None => ret None
     | Some zohoContactId =>
         (* 3. Fetch contact details *)
         do c <- best_effort None (getZohoContact zohoContactId);
         (* 4. Fetch sales orders (if requested) *)
         do so <- if_requested (includeSalesOrders input)
                    (searchZohoSalesOrders (criteria "Contact_Name" zohoContactId));
         (* 5. Fetch deals (if requested) *)
         do ds <- if_requested (includeDeals input)
                    (searchZohoDeals (criteria "Contact_Name" zohoContactId));
         (* 6. Fetch tasks (if requested) *)
         do ts <- if_requested (includeTasks input)
                    (searchZohoTasks (criteria "Who_Id" zohoContactId));
         (* 7. Fetch notes (if requested) *)
         do ns <- if_requested (includeNotes input)
                    (searchZohoNotes (criteria "Parent_Id" zohoContactId));
         ret (Some {| contact := c; salesOrders := so; deals := ds;
                      tasks := ts; notes := ns |})
     end)
    (fun _ => throw (TRPCError INTERNAL_SERVER_ERROR "Failed to fetch CRM data")).

End Procedures.

(** ** The registration route *)

Module Register.

Record UserRow : Type := {
  id : string;
  email : string;
  password : string;
  name : option string
}.

Record RegistrationData : Type := {
  reg_email : string;
  reg_password : string;
  reg_name : option string
}.

(** What the libraries the route calls decide. *)
Record Env : Type := {
  (** zod's [z.string().email()] check *)
  is_email : string -> bool;
  (** bcryptjs' [hash(password, rounds)] *)
  hash : string -> Z -> string;
  (** the id Prisma gives a new row of a table that holds [n] rows *)
  new_id : nat -> string
}.

(** The payload of a [NextResponse.json]. *)
Inductive Payload : Type :=
| ErrorPayload (error : string)
| UserPayload (uid email : string) (uname : option string).

Record HttpResponse : Type := {
  http_status : Z;
  payload : Payload
}.

Section Route.

Variable env : Env.

(** [registrationSchema.safeParse(body)]: [None] when [success] is false. *)
Definition safeParse (body : JSON) : option RegistrationData :=
  match get "email" body, get "password" body with
  | Some (JStr e), Some (JStr p) =>
      if is_email env e && (8 <=? Z.of_nat (String.length p)) then
        match get "name" body with
        | None => Some {| reg_email := e; reg_password := p; reg_name := None |}
        | Some (JStr n) =>
            Some {| reg_email := e; reg_password := p; reg_name := Some n |}
        | Some _ => None
        end
      else None
  | _, _ => None
  end.

(** [db.user.findUnique({ where: { email } })] *)
Definition user_findUnique (e : string) (users : list UserRow) : option UserRow :=
  List.find (fun u => String.eqb (email u) e) users.

(** [POST]: [body] is what [req.json()] resolved to, [None] when it threw. *)
Definition POST (body : option JSON) (users : list UserRow)
  : HttpResponse * list UserRow :=
  match body with
  | None => ({| http_status := 500; payload := ErrorPayload "Failed to create user" |}, users)
  | Some b =>
      (* Validate input *)
      match safeParse b with
      | None => ({| http_status := 400; payload := ErrorPayload "Invalid input" |}, users)
      | Some data =>
          (* Check if user exists *)
          match user_findUnique (reg_email data) users with
          | Some _ =>
              ({| http_status := 400; payload := ErrorPayload "User already exists" |},
               users)
          | None =>
              (* Hash password *)
              let hashedPassword := hash env (reg_password data) 12 in
              (* Create user *)
              let user := {| id := new_id env (length users);
                             email := reg_email data;
                             password := hashedPassword;
                             name := reg_name data |} in
              ({| http_status := 200;
                  payload := UserPayload (id user) (email user) (name user) |},
               (users ++ [user])%list)
          end
      end
  end.

End Route.

End Register.

(** * Vocabulary of the properties *)

(** The world after one more request has been sent. *)
Definition logged (rq : Request) (w : World) : World :=
  {| db := db w; sent := sent w ++ [rq]; drawn := drawn w; created := created w |}.

(** What an adapter call obtains for the request [rq] sent after the
    requests [h]: the value [handleZohoApiResponse] returns on the response,
    or what [fetch] or the handler throws. *)
Definition fetched (rt : Runtime) (h : list Request) (rq : Request) : Outcome JSON :=
  match fetch rt h rq with
  | Resolve r => handleZohoApiResponse rt r
  | Reject m => Throw (JsError m)
  end.

(** The remote call for [rq] fails: [fetch] rejects, or the response handler
    throws on the response. *)
Definition remote_fails (rt : Runtime) (h : list Request) (rq : Request) : Prop :=
  exists e, fetched rt h rq = Throw e.


(** The response of a gateway that answers 200 with a body that is not
    JSON. *)
Definition html_200 : Response :=
  {| status := 200; statusText := "OK"; body := None |}.

(** The gates of [createOrUpdateContact] are open: the session [cs] exists
    and belongs to the principal, it has company info and a user, and its
    agreement is completed if that is required. *)
Definition contact_ready (d : Db) (ctx : Ctx) (input : ContactInput)
  (cs : CheckoutSession) (companyInfo : CompanyInfo) (user : User) : Prop :=
  checkoutSession d !! in_checkoutSessionId input = Some cs
  /\ cs_userId cs = principal ctx input
  /\ cs_companyInfo cs = Some companyInfo
  /\ cs_user cs = Some user
  /\ (requireAgreementSigned input = true ->
      exists a, cs_agreement cs = Some a /\ ag_status a = "completed").

(** Every identity link holds a remote id (the only writer of the table,
    [createOrUpdateContact], stores nothing else). *)
Definition links_wf (d : Db) : Prop :=
  forall u l, zohoAccountLink d !! u = Some l -> zohoUserId l <> "".

(** The remote service accepts every write and answers with the id of the
    record, whatever was sent before. *)
Definition remote_accepts (rt : Runtime) : Prop :=
  forall h rq, exists v s,
    fetched rt h rq = Ok v /\ get "id" v = Some (JStr s) /\ s <> "".

(** The world [createOrUpdateContact] leaves behind when it succeeds with
    the remote id [zid], having sent [rq]. *)
Definition contact_synced (rt : Runtime) (ctx : Ctx) (input : ContactInput)
  (cs : CheckoutSession) (zid : string) (rq : Request) (w : World) : World :=
  let row := {| zal_userId := principal ctx input; zohoUserId := zid;
                zal_updatedAt := now rt |} in
  {| db :=
       with_checkoutSession
         (with_zohoAccountLink (db w)
            (<[principal ctx input := row]> (zohoAccountLink (db w))))
         (<[in_checkoutSessionId input := set_status "contact_created" cs]>
            (checkoutSession (db w)));
     sent := sent w ++ [rq];
     drawn := drawn w;
     created := created w |}.

(** The link [validateSignupLink] finds for [input]: the first row with that
    remote id and that code. *)
Definition found_link (d : Db) (input : ValidateInput) : option SignupLink :=
  List.find (fun l => String.eqb (zoho_id l) (val_zoho_id input)
                      && String.eqb (login_code l) (val_login_code input))
    (signupLink d).

(** The table after [signupLink.update] has deactivated the row [id]. *)
Definition deactivated (rt : Runtime) (id : string) (links : list SignupLink)
  : list SignupLink :=
  List.map (fun l => if String.eqb (sl_id l) id then deactivate rt l else l) links.

Definition set_signupLink (w : World) (links : list SignupLink) : World :=
  {| db := with_signupLink (db w) links;
     sent := sent w; drawn := drawn w; created := created w |}.

(** The remote contact [id] can be fetched, whatever was sent before. *)
Definition contact_available (rt : Runtime) (id : string) : Prop :=
  forall h, exists c, fetched rt h (GET_Contacts id) = Ok c.

(** What [getZohoContact] makes of the outcome of its request. *)
Definition contact_or_null (o : Outcome JSON) : Outcome (option JSON) :=
  match o with
  | Ok c => Ok (Some c)
  | Throw (TRPCError code m) => Throw (TRPCError code m)
  | Throw (JsError _) => Ok None
  end.

(** The code [generateSecureLoginCode] builds from the draws number
    [k], [k+1], ..., [k+n-1], appended to [result]. *)
Fixpoint code_from (rt : Runtime) (k n : nat) (result : string) : string :=
  match n with
  | O => result
  | S n' => code_from rt (S k) n'
              (result ++ charAt chars (random_index (Math_random rt k)))
  end.

Definition next_code (rt : Runtime) (w : World) : string :=
  code_from rt (drawn w) 12 "".

(** Some stored link already carries the code. *)
Definition code_taken (d : Db) (code : string) : bool :=
  existsb (fun l => String.eqb (login_code l) code) (signupLink d).

Definition drew (n : nat) (w : World) : World :=
  {| db := db w; sent := sent w; drawn := n + drawn w; created := created w |}.

(** A database with no rows, and a world that has it. *)
Definition empty_db : Db :=
  {| checkoutSession := ∅; zohoAccountLink := ∅; salesOrder := ∅; signupLink := [] |}.

Definition initial_world : World :=
  {| db := empty_db; sent := []; drawn := 0; created := 0 |}.

(** ** A concrete runtime

    A remote service that answers every request with the contact ["zc_1"],
    a clock that stands at one second past the epoch, the time zone UTC, and
    a random generator that always returns 0 (so that every generated code
    is ["AAAAAAAAAAAA"]). *)

Definition contact_zc_1 : JSON :=
  JObj [("id", JStr "zc_1"); ("Email", JStr "ada@example.org");
        ("Last_Name", JStr "Lovelace")].

Definition steady_runtime : Runtime :=
  {| fetch := fun _ _ => Resolve {| status := 200; statusText := "OK";
                                    body := Some contact_zc_1 |};
     ZOHO_ACCESS_TOKEN := Some "token";
     now := 1000;
     LocalTZA := fun _ _ => 0;
     Math_random := fun _ => Finite 0 0;
     CURRENT_TIMESTAMP := 1000;
     updatedAt := 1000;
     stores_DateTime := fun _ => true;
     cuid := fun n => "link_" ++ String (ascii_of_nat (48 + n)) "";
     String_ := fun _ => "[object Object]" |}.

(** The same, with a remote service that is down. *)
Definition offline_runtime : Runtime :=
  {| fetch := fun _ _ => Reject "fetch failed";
     ZOHO_ACCESS_TOKEN := Some "token";
     now := 1000;
     LocalTZA := fun _ _ => 0;
     Math_random := fun _ => Finite 0 0;
     CURRENT_TIMESTAMP := 1000;
     updatedAt := 1000;
     stores_DateTime := fun _ => true;
     cuid := fun n => "link_" ++ String (ascii_of_nat (48 + n)) "";
     String_ := fun _ => "[object Object]" |}.

Definition issue_zc_1 : SignupLinkInput :=
  {| gen_zoho_id := "zc_1"; expiresInDays := Finite 7 0 |}.

Definition present_zc_1 : ValidateInput :=
  {| val_zoho_id := "zc_1"; val_login_code := "AAAAAAAAAAAA" |}.

(** The link [generateSignupLink] issues for [issue_zc_1] in the initial
    world under [steady_runtime]. *)
Definition link_0 : SignupLink :=
  {| sl_id := "link_0"; zoho_id := "zc_1"; login_code := "AAAAAAAAAAAA";
     expires_at := 1000 + 7 * 86400000; usage_limit := 1; usage_count := 0;
     is_active := true; created_at := 1000; updated_at := 1000 |}.

(** A world that holds [link_0] and nothing else. *)
Definition world_with_link_0 : World :=
  {| db := with_signupLink empty_db [link_0]; sent := []; drawn := 0; created := 1 |}.

(** The integer part of the exact value [m * 2^e], for [m >= 0]. *)
Definition floor_at (m e : Z) : Z :=
  if 0 <=? e then m * 2 ^ e else m / 2 ^ (- e).

(** The Number as a binary64 float of the Standard Library's specification,
    in normal form, and back. *)
Definition spec_of (x : Number) : spec_float :=
  match x with
  | Finite m e => binary_normalize 53 1024 m e false
  | Infinity s => S754_infinity s
  end.

Definition Number_of (f : spec_float) : Number :=
  match f with
  | S754_zero _ | S754_nan => Finite 0 0
  | S754_infinity s => Infinity s
  | S754_finite s m e => Finite (if s then Z.neg m else Z.pos m) e
  end.

(** The request [searchZohoContacts] sends for [searchQuery]: a search for
    the contacts whose [Email] equals it. *)
Definition Email_equals (searchQuery : string) : Request :=
  GET_Contacts_search ("(Email:equals:" ++ searchQuery ++ ")").

(** Every character of [s] is one of the symbols of [chars]. *)
Definition in_alphabet (s : string) : Prop :=
  Forall (fun c => In c (list_ascii_of_string chars)) (list_ascii_of_string s).

(** The expiry [generateSignupLink] computes: the current date with its day
    of the month moved by [expiresInDays]. *)
Definition requested_expiry (rt : Runtime) (input : SignupLinkInput) : option Z :=
  Date_setDate rt (now rt)
    (Number_plus (Date_getDate rt (now rt)) (expiresInDays input)).

(** The row [generateSignupLink] builds in the world [w] when the expiry it
    has computed is [t]. *)
Definition issued_link (rt : Runtime) (input : SignupLinkInput) (w : World) (t : Z)
  : SignupLink :=
  {| sl_id := cuid rt (created w);
     zoho_id := gen_zoho_id input;
     login_code := next_code rt w;
     expires_at := t;
     usage_limit := 1;
     usage_count := 0;
     is_active := true;
     created_at := CURRENT_TIMESTAMP rt;
     updated_at := updatedAt rt |}.



(** The world [generateSignupLink] leaves behind when it has stored [row]. *)
Definition issued (input : SignupLinkInput) (row : SignupLink) (w : World) : World :=
  {| db := with_signupLink (db w) (signupLink (db w) ++ [row]);
     sent := sent w ++ [GET_Contacts (gen_zoho_id input)];
     drawn := 12 + drawn w;
     created := S (created w) |}.

(** ** The aggregated read *)

(** The contact id [getCRMData] works with: the one of the input when it is
    not empty, the one linked to the user of the session otherwise. *)
Definition resolved_contact (d : Db) (ctx : Ctx) (input : CRMDataInput)
  : option string :=
  if truthy_str (crm_zohoContactId input) then Some (crm_zohoContactId input)
  else linked_zohoUserId (zohoAccountLink d !! session_user_id ctx).

Definition or_null (o : Outcome JSON) : option JSON :=
  match o with
  | Ok v => Some v
  | Throw _ => None
  end.

Definition or_empty (o : Outcome JSON) : JSON :=
  match o with
  | Ok v => v
  | Throw _ => JArr []
  end.

(** A sub-fetch is attempted when it is requested and the access token is
    configured. *)
Definition attempted (rt : Runtime) (flag : bool) : bool :=
  flag && negb (token_missing rt).

(** The collection a category ends up with, and the requests sent once its
    sub-fetch is over: the result of its own request if that was attempted
    and succeeded, the empty collection in every other case. *)
Definition collected (rt : Runtime) (flag : bool) (rq : Request)
  (h : list Request) : JSON :=
  if attempted rt flag then or_empty (fetched rt h rq) else JArr [].

Definition sent_after (rt : Runtime) (flag : bool) (rq : Request)
  (h : list Request) : list Request :=
  if attempted rt flag then h ++ [rq] else h.

Definition set_sent (w : World) (h : list Request) : World :=
  {| db := db w; sent := h; drawn := drawn w; created := created w |}.

(** ** A concrete registration environment *)

Definition plain_env : Register.Env :=
  {| Register.is_email := fun e => negb (String.eqb e "");
     Register.hash := fun p rounds => "$2a$12$" ++ p;
     Register.new_id := fun n => "user_" ++ String (ascii_of_nat (48 + n)) "" |}.

Definition ada : Register.UserRow :=
  {| Register.id := "user_0"; Register.email := "ada@example.org";
     Register.password := "$2a$12$difference"; Register.name := Some "Ada" |}.

Definition register_ada_again : JSON :=
  JObj [("email", JStr "ada@example.org"); ("password", JStr "analytical")].

(** ** A concrete checkout *)

Definition acme : CompanyInfo :=
  {| contactName := Some "Ada King Lovelace";
     ci_email := Some "ada@example.org";
     phone := None;
     companyName := Some "Analytical Engines";
     address := None; city := Some "London"; state := None; zipCode := None;
     country := None; industry := Some "Computing" |}.

Definition user_1 : User := {| u_email := Some "ada@example.org" |}.

Definition session_1 (st : string) (companyInfo : option CompanyInfo)
  (agreement : option Agreement) : CheckoutSession :=
  {| cs_id := "cs_1"; cs_userId := "user_1"; cs_module := Some "OBD";
     cs_status := st; cs_companyInfo := companyInfo;
     cs_agreement := agreement; cs_user := Some user_1 |}.

Definition signed : option Agreement := Some {| ag_status := "completed" |}.

(** A world whose only rows are the session [cs] and the links [links]. *)
Definition world_of (cs : CheckoutSession) (links : gmap string ZohoAccountLink)
  : World :=
  {| db := {| checkoutSession := {[ "cs_1" := cs ]}; zohoAccountLink := links;
              salesOrder := ∅; signupLink := [] |};
     sent := []; drawn := 0; created := 0 |}.

Definition ctx_1 : Ctx := {| session_user_id := "user_1" |}.

Definition contact_cs_1 : ContactInput :=
  {| in_userId := None; in_checkoutSessionId := "cs_1";
     requireAgreementSigned := true |}.



Definition order_cs_1 : SalesOrderInput :=
  {| so_in_checkoutSessionId := "cs_1"; requirePaymentConfirmed := true;
     requireContactCreated := true |}.

Definition link_user_1 : ZohoAccountLink :=
  {| zal_userId := "user_1"; zohoUserId := "zc_1"; zal_updatedAt := 500 |}.

(** A link that has been used up, and a world that holds it. *)
Definition link_used : SignupLink :=
  {| sl_id := "link_0"; zoho_id := "zc_1"; login_code := "AAAAAAAAAAAA";
     expires_at := 1000 + 7 * 86400000; usage_limit := 1; usage_count := 1;
     is_active := true; created_at := 1000; updated_at := 1000 |}.

Definition world_with_link_used : World :=
  {| db := with_signupLink empty_db [link_used]; sent := []; drawn := 0; created := 1 |}.

(** [steady_runtime] eight days later. *)
Definition late_runtime : Runtime :=
  {| fetch := fetch steady_runtime;
     ZOHO_ACCESS_TOKEN := Some "token";
     now := 1000 + 8 * 86400000;
     LocalTZA := LocalTZA steady_runtime;
     Math_random := Math_random steady_runtime;
     CURRENT_TIMESTAMP := 1000 + 8 * 86400000;
     updatedAt := 1000 + 8 * 86400000;
     stores_DateTime := stores_DateTime steady_runtime;
     cuid := cuid steady_runtime;
     String_ := String_ steady_runtime |}.

(** A remote service on which the search for sales orders is unreachable
    and the search for deals answers 500, while everything else works. *)
Definition flaky_runtime : Runtime :=
  {| fetch := fun _ rq =>
       match rq with
       | GET_Sales_Orders_search _ => Reject "fetch failed"
       | GET_Deals_search _ =>
           Resolve {| status := 500; statusText := "Internal Server Error";
                      body := Some (JObj [("code", JStr "INTERNAL_ERROR");
                                          ("message", JStr "try again later");
                                          ("status", JStr "error")]) |}
       | GET_Contacts _ =>
           Resolve {| status := 200; statusText := "OK"; body := Some contact_zc_1 |}
       | _ =>
           Resolve {| status := 200; statusText := "OK";
                      body := Some (JArr [JObj [("id", JStr "t_1")]]) |}
       end;
     ZOHO_ACCESS_TOKEN := Some "token";
     now := 1000;
     LocalTZA := LocalTZA steady_runtime;
     Math_random := Math_random steady_runtime;
     CURRENT_TIMESTAMP := CURRENT_TIMESTAMP steady_runtime;
     updatedAt := updatedAt steady_runtime;
     stores_DateTime := stores_DateTime steady_runtime;
     cuid := cuid steady_runtime;
     String_ := String_ steady_runtime |}.

Definition everything_of_zc_1 : CRMDataInput :=
  {| crm_zohoContactId := "zc_1"; includeSalesOrders := true;
     includeDeals := true; includeTasks := true; includeNotes := true |}.

Definition world_unpaid : World :=
  world_of (session_1 "created" (Some acme) signed) {[ "user_1" := link_user_1 ]}.

Definition world_paid : World :=
  world_of (session_1 "payment_completed" (Some acme) signed) ∅.



Definition world_contact_created : World :=
  world_of (session_1 "contact_created" (Some acme) signed)
    {[ "user_1" := link_user_1 ]}.

Definition contact_data_1 : ZohoContactData :=
  make_contactData (session_1 "payment_completed" (Some acme) signed) acme user_1.

Definition order_data_1 : ZohoSalesOrderData :=
  make_salesOrderData (session_1 "contact_created" (Some acme) signed) "zc_1" 0.

(** * The remaining procedures of the router *)

Section MoreProcedures.

Variable rt : Runtime.

(** [ctx.db.$transaction(async (tx) => ...)]: the callback runs on the
    database; when it throws, what it wrote is rolled back. *)
Definition transaction {A} (m : M A) : M A :=
  fun w =>
    match m w with
    | (Ok a, w') => (Ok a, w')
    | (Throw e, w') =>
        (Throw e, {| db := db w; sent := sent w';
                     drawn := drawn w'; created := created w' |})
    end.

(** *** [createContactAndSalesOrder] *)

Record CombinedInput : Type := {
  both_checkoutSessionId : string;
  both_requireAgreementSigned : bool;
  both_requirePaymentConfirmed : bool
}.

Record CombinedResult : Type := {
  contactResult_contactId : string;
  salesOrderResult_salesOrderId : string
}.

Definition createContactAndSalesOrder (ctx : Ctx) (input : CombinedInput)
  : M CombinedResult :=
  try_catch
    ((* 1. First create/update the contact *)
     do contactResult <- transaction
       (do found <- checkoutSession_findFirst (both_checkoutSessionId input)
                      (session_user_id ctx);
        match found with
        | None => throw (TRPCError NOT_FOUND "Checkout session not found")
        | Some checkoutSession =>
            match cs_companyInfo checkoutSession with
            | None => throw (TRPCError BAD_REQUEST "Company information not found")
            | Some _ =>
                (* Check agreement if required *)
                if both_requireAgreementSigned input
                   && agreement_not_completed checkoutSession
                then throw (TRPCError BAD_REQUEST
                              "Agreement must be signed before creating Zoho contact")
                else ret "temp_contact_id"
            end
        end);
     (* 2. Then create the sales order *)
     do salesOrderResult <- transaction
       (do found <- checkoutSession_findFirst (both_checkoutSessionId input)
                      (session_user_id ctx);
        match found with
        | None => throw (TRPCError NOT_FOUND "Checkout session not found")
        | Some checkoutSession =>
            (* Check payment if required *)
            if both_requirePaymentConfirmed input
               && payment_not_confirmed checkoutSession
            then throw (TRPCError BAD_REQUEST
                          "Payment must be confirmed before creating sales order")
            else ret "temp_sales_order_id"
        end);
     ret {| contactResult_contactId := contactResult;
            salesOrderResult_salesOrderId := salesOrderResult |})
    (rethrow_or_internal "Failed to create contact and sales order").

(** *** [getContactInfo] *)

Record ContactInfo : Type := {
  info_zohoLink : ZohoAccountLink;
  contactDetails : option JSON
}.

(** The result is [None] for [data: null]. *)
Definition getContactInfo (ctx : Ctx) (userId : option string)
  : M (option ContactInfo) :=
  try_catch
    (let userId := default (session_user_id ctx) userId in
     do zohoLink <- zohoAccountLink_findUnique userId;
     match zohoLink with
     | None => ret None
     | Some link =>
         (* Fetch contact details from Zoho API *)
         do details <- getZohoContact rt (zohoUserId link);
         ret (Some {| info_zohoLink := link; contactDetails := details |})
     end)
    (fun _ => throw (JsError "Failed to fetch Zoho contact info")).

(** *** [searchContacts] *)

(** The input schema takes [email] only when it is an email address, so
    never as the empty string; [phone] and [company] are any strings. *)
Record SearchContactsInput : Type := {
  search_email : option string;
  search_phone : option string;
  search_company : option string
}.

(** [if (value) searchCriteria.push(`(Field:equals:${value})`)] *)
Definition criterion (field : string) (value : option string) : list string :=
  match value with
  | Some v => if truthy_str v then ["(" ++ field ++ ":equals:" ++ v ++ ")"] else []
  | None => []
  end.

Definition searchCriteria (input : SearchContactsInput) : list string :=
  (criterion "Email" (search_email input)
   ++ criterion "Phone" (search_phone input)
   ++ criterion "Company" (search_company input))%list.

Definition searchContacts (input : SearchContactsInput) : M JSON :=
  try_catch
    (match searchCriteria input with
     | [] => throw (JsError "At least one search criteria is required")
     | _ :: _ =>
         let searchQuery := join " or " (searchCriteria input) in
         searchZohoContacts rt searchQuery
     end)
    (fun _ => throw (JsError "Failed to search Zoho contacts")).

End MoreProcedures.

(** [steady_runtime] without an access token. *)
Definition tokenless_runtime : Runtime :=
  {| fetch := fetch steady_runtime;
     ZOHO_ACCESS_TOKEN := None;
     now := now steady_runtime;
     LocalTZA := LocalTZA steady_runtime;
     Math_random := Math_random steady_runtime;
     CURRENT_TIMESTAMP := CURRENT_TIMESTAMP steady_runtime;
     updatedAt := updatedAt steady_runtime;
     stores_DateTime := stores_DateTime steady_runtime;
     cuid := cuid steady_runtime;
     String_ := String_ steady_runtime |}.

(** A remote service that answers every request with a 503 that carries a
    structured error body. *)
Definition failing_runtime : Runtime :=
  {| fetch := fun _ _ =>
       Resolve {| status := 503; statusText := "Service Unavailable";
                  body := Some (JObj [("code", JStr "UNAVAILABLE");
                                      ("message", JStr "maintenance");
                                      ("status", JStr "error")]) |};
     ZOHO_ACCESS_TOKEN := Some "token";
     now := now steady_runtime;
     LocalTZA := LocalTZA steady_runtime;
     Math_random := Math_random steady_runtime;
     CURRENT_TIMESTAMP := CURRENT_TIMESTAMP steady_runtime;
     updatedAt := updatedAt steady_runtime;
     stores_DateTime := stores_DateTime steady_runtime;
     cuid := cuid steady_runtime;
     String_ := String_ steady_runtime |}.

Definition nothing_of_nobody : CRMDataInput :=
  {| crm_zohoContactId := ""; includeSalesOrders := true;
     includeDeals := true; includeTasks := true; includeNotes := true |}.

(** The columns of a signup link other than [is_active] and [updated_at]. *)
Definition columns (l : SignupLink)
  : string * string * string * Z * Z * Z * Z :=
  (sl_id l, zoho_id l, login_code l, expires_at l, usage_limit l, usage_count l,
   created_at l).

(** The world [createSignupLink] leaves behind when it has stored [row]. *)
Definition created_link (row : SignupLink) (w : World) : World :=
  {| db := with_signupLink (db w) (signupLink (db w) ++ [row]);
     sent := sent w;
     drawn := 12 + drawn w;
     created := S (created w) |}.

(** [input.usage_limit ?? 1] *)
Definition requested_limit (input : CreateSignupLinkInput) : Number :=
  default (Finite 1 0) (new_usage_limit input).

(** The row [createSignupLink] builds in the world [w] for the usage limit
    [n]. *)
Definition created_row (rt : Runtime) (input : CreateSignupLinkInput) (w : World)
  (n : Z) : SignupLink :=
  {| sl_id := cuid rt (created w);
     zoho_id := new_zoho_id input;
     login_code := next_code rt w;
     expires_at := now rt + 604800000;
     usage_limit := n;
     usage_count := 0;
     is_active := true;
     created_at := CURRENT_TIMESTAMP rt;
     updated_at := updatedAt rt |}.

(** Requests for a link with a limit of [2^31] uses, and of one use and a
    half. *)
Definition create_too_many : CreateSignupLinkInput :=
  {| new_zoho_id := "zc_1"; new_usage_limit := Some (Finite 1 31) |}.

Definition create_fraction : CreateSignupLinkInput :=
  {| new_zoho_id := "zc_1"; new_usage_limit := Some (Finite 3 (-1)) |}.

Definition create_for_zc_1 : CreateSignupLinkInput :=
  {| new_zoho_id := "zc_1"; new_usage_limit := Some (Finite 3 0) |}.

Definition present_zc_2 : ValidateInput :=
  {| val_zoho_id := "zc_2"; val_login_code := "AAAAAAAAAAAA" |}.

(** [link_0] after it has been deactivated, and a world that holds it. *)
Definition world_with_link_off : World :=
  {| db := with_signupLink empty_db [deactivate steady_runtime link_0];
     sent := []; drawn := 0; created := 1 |}.

(** The local amount [createSalesOrder] works with: the one of the stored
    sales order of the session, zero when there is none. *)
Definition orderAmount_of (d : Db) (checkoutSessionId : string) : Q :=
  match salesOrder d !! checkoutSessionId with
  | Some so => amount so
  | None => 0%Q
  end.

(** The row [createSalesOrder] leaves for the session: the stored row with
    the remote id added, or a new row in USD. *)
Definition synced_order (d : Db) (checkoutSessionId zid : string) : SalesOrder :=
  match salesOrder d !! checkoutSessionId with
  | Some so =>
      {| so_checkoutSessionId := so_checkoutSessionId so;
         zohoSalesOrderId := Some zid;
         amount := amount so; currency := currency so |}
  | None =>
      {| so_checkoutSessionId := checkoutSessionId;
         zohoSalesOrderId := Some zid;
         amount := 0%Q; currency := "USD" |}
  end.

Definition sales_order_json : JSON := JObj [("id", JStr "so_1")].

(** A remote service that answers every request with the sales order
    ["so_1"]. *)
Definition ordering_runtime : Runtime :=
  {| fetch := fun _ _ => Resolve {| status := 201; statusText := "Created";
                                    body := Some sales_order_json |};
     ZOHO_ACCESS_TOKEN := Some "token";
     now := now steady_runtime;
     LocalTZA := LocalTZA steady_runtime;
     Math_random := Math_random steady_runtime;
     CURRENT_TIMESTAMP := CURRENT_TIMESTAMP steady_runtime;
     updatedAt := updatedAt steady_runtime;
     stores_DateTime := stores_DateTime steady_runtime;
     cuid := cuid steady_runtime;
     String_ := String_ steady_runtime |}.

Definition both_cs_1 : CombinedInput :=
  {| both_checkoutSessionId := "cs_1"; both_requireAgreementSigned := true;
     both_requirePaymentConfirmed := true |}.

Definition search_ada : SearchContactsInput :=
  {| search_email := Some "ada@example.org"; search_phone := Some "";
     search_company := Some "Analytical Engines" |}.

Definition search_nothing : SearchContactsInput :=
  {| search_email := None; search_phone := Some ""; search_company := None |}.

Definition search_phone_only : SearchContactsInput :=
  {| search_email := None; search_phone := Some "+44 20 7946 0000";
     search_company := None |}.

(** The character [c] occurs in [s]. *)
Definition occurs (c : ascii) (s : string) : Prop := In c (list_ascii_of_string s).

Definition register_grace : JSON :=
  JObj [("email", JStr "grace@example.org"); ("password", JStr "compilers");
        ("name", JStr "Grace")].

(** * Properties *)

(** ** The monad *)

Lemma bind_ret_l {A B} (a : A) (k : A -> M B) (w : World) :
  bind (ret a) k w = k a w.
Proof. reflexivity. Qed.

Lemma bind_throw_l {A B} (e : exn) (k : A -> M B) (w : World) :
  bind (throw e) k w = (Throw e, w).
Proof. reflexivity. Qed.

Lemma bind_run {A B} (m : M A) (k : A -> M B) (w w' : World) (a : A) :
  m w = (Ok a, w') -> bind m k w = k a w'.
Proof. intros H. unfold bind. now rewrite H. Qed.

Lemma bind_fail {A B} (m : M A) (k : A -> M B) (w w' : World) (e : exn) :
  m w = (Throw e, w') -> bind m k w = (Throw e, w').
Proof. intros H. unfold bind. now rewrite H. Qed.

Lemma try_catch_run {A} (m : M A) (h : exn -> M A) (w w' : World) (a : A) :
  m w = (Ok a, w') -> try_catch m h w = (Ok a, w').
Proof. intros H. unfold try_catch. now rewrite H. Qed.


(** A [TRPCError] passes the [catch] clause of a procedure untouched. *)
Lemma rethrow_TRPCError {A} (m : M A) (message : string) (w w' : World)
  (code : TRPCCode) (s : string) :
  m w = (Throw (TRPCError code s), w') ->
  try_catch m (rethrow_or_internal message) w = (Throw (TRPCError code s), w').
Proof. intros H. unfold try_catch. now rewrite H. Qed.


(** A world is determined by its four components. *)
Lemma World_eta (w : World) :
  {| db := db w; sent := sent w; drawn := drawn w; created := created w |} = w.
Proof. now destruct w. Qed.

Lemma put_db_same (w : World) : put_db (db w) w = (Ok tt, w).
Proof. unfold put_db. now rewrite World_eta. Qed.

(** ** The response handler *)

Section Handler.

Variable rt : Runtime.

Lemma ok_2xx (r : Response) : ok r = true <-> 200 <= status r <= 299.
Proof. unfold ok. rewrite andb_true_iff, !Z.leb_le. tauto. Qed.

(** A non-2xx response whose body is a structured error: its message. *)
Lemma handleZohoApiResponse_error_body (r : Response) (errorData : JSON) (m : string) :
  ok r = false ->
  body r = Some errorData ->
  isZohoErrorResponse errorData = true ->
  get "message" errorData = Some (JStr m) ->
  handleZohoApiResponse rt r = Throw (UpstreamError m).
Proof.
  intros Hok Hb Hz Hm. unfold handleZohoApiResponse, response_json.
  now rewrite Hok, Hb, Hz, Hm.
Qed.

(** A non-2xx response whose body is absent, unparsable or not a structured
    error: the transport status text. *)
Lemma handleZohoApiResponse_error_statusText (r : Response) :
  ok r = false ->
  match body r with
  | Some errorData => isZohoErrorResponse errorData = false
  | None => True
  end ->
  handleZohoApiResponse rt r = Throw (UpstreamError (statusText r)).
Proof.
  intros Hok Hb. unfold handleZohoApiResponse, response_json. rewrite Hok.
  destruct (body r) as [v|]; [now rewrite Hb | reflexivity].
Qed.

(** A non-2xx response never yields a value: the handler always raises an
    [UpstreamError]. *)
Lemma handleZohoApiResponse_not_ok (r : Response) :
  ok r = false -> exists m, handleZohoApiResponse rt r = Throw (UpstreamError m).
Proof.
  intros Hok. unfold handleZohoApiResponse. rewrite Hok. simpl. eauto.
Qed.

(** A 2xx response whose body parses to something that is not an object. *)
Lemma handleZohoApiResponse_not_object (r : Response) (data : JSON) :
  ok r = true ->
  body r = Some data ->
  truthy data && typeof_object data = false ->
  handleZohoApiResponse rt r = Throw InvalidResponse.
Proof.
  intros Hok Hb Hd. unfold handleZohoApiResponse, response_json.
  rewrite Hok, Hb. simpl.
  apply andb_false_iff in Hd as [-> | ->]; simpl; [reflexivity|].
  now rewrite orb_true_r.
Qed.

(** A 2xx response whose body parses to an object (or an array) is returned
    as it is. *)
Lemma handleZohoApiResponse_object (r : Response) (data : JSON) :
  ok r = true ->
  body r = Some data ->
  truthy data && typeof_object data = true ->
  handleZohoApiResponse rt r = Ok data.
Proof.
  intros Hok Hb Hd. unfold handleZohoApiResponse, response_json.
  rewrite Hok, Hb. simpl.
  apply andb_true_iff in Hd as [-> ->]. reflexivity.
Qed.

(** Whatever the handler returns is the parsed body of a 2xx response, and
    an object. *)
Lemma handleZohoApiResponse_Ok_inv (r : Response) (data : JSON) :
  handleZohoApiResponse rt r = Ok data ->
  ok r = true /\ body r = Some data /\ truthy data = true /\ typeof_object data = true.
Proof.
  unfold handleZohoApiResponse, response_json.
  destruct (ok r); simpl; [|discriminate].
  destruct (body r) as [v|]; [|discriminate].
  destruct (truthy v) eqn:Ht; simpl; [|discriminate].
  destruct (typeof_object v) eqn:Hty; simpl; [|discriminate].
  intros [= <-]. auto.
Qed.

(** Every [TRPCError] of the handler is an [INTERNAL_SERVER_ERROR]. *)
Lemma handleZohoApiResponse_Throw_code (r : Response) (code : TRPCCode) (m : string) :
  handleZohoApiResponse rt r = Throw (TRPCError code m) ->
  code = INTERNAL_SERVER_ERROR.
Proof.
  unfold handleZohoApiResponse, response_json, json_SyntaxError.
  destruct (ok r); simpl; [|congruence].
  destruct (body r) as [v|]; [|discriminate].
  destruct (negb (truthy v) || negb (typeof_object v)); congruence.
Qed.

Lemma fetched_Throw_code (h : list Request) (rq : Request) (code : TRPCCode)
  (m : string) :
  fetched rt h rq = Throw (TRPCError code m) -> code = INTERNAL_SERVER_ERROR.
Proof.
  unfold fetched. destruct (fetch rt h rq) as [r|]; [|discriminate].
  apply handleZohoApiResponse_Throw_code.
Qed.

End Handler.

(** C7 (evaluation at the failing input): on a 2xx response whose body does
    not parse as JSON, [handleZohoApiResponse] lets the parser's
    [SyntaxError] escape; it raises neither [InvalidResponse] nor any other
    [TRPCError], although the non-2xx branch next to it catches the same
    parse failure. *)
Theorem handleZohoApiResponse_unparsable_2xx (rt : Runtime) :
  ok html_200 = true
  /\ handleZohoApiResponse rt html_200 = Throw json_SyntaxError
  /\ handleZohoApiResponse rt html_200 <> Throw InvalidResponse
  /\ instanceof_TRPCError json_SyntaxError = false.
Proof.
  repeat split; try reflexivity. discriminate.
Qed.

(** ** Precondition gates of the checkout state machine *)

Ltac unfold_proc :=
  unfold try_catch, bind, ret, throw, lift, get_db in *.

Section Gates.

Variable rt : Runtime.

Lemma checkoutSession_findFirst_run (id userId : string) (w : World) :
  checkoutSession_findFirst id userId w =
  (Ok (match checkoutSession (db w) !! id with
       | Some cs => if String.eqb (cs_userId cs) userId then Some cs else None
       | None => None
       end), w).
Proof. reflexivity. Qed.

Lemma checkoutSession_findFirst_owned (id userId : string) (w : World)
  (cs : CheckoutSession) :
  checkoutSession (db w) !! id = Some cs ->
  cs_userId cs = userId ->
  checkoutSession_findFirst id userId w = (Ok (Some cs), w).
Proof.
  intros Hcs Hu. rewrite checkoutSession_findFirst_run, Hcs, Hu.
  now rewrite String.eqb_refl.
Qed.



(** C3: [createSalesOrder] on a session of the caller whose status is
    ["created"], with [requirePaymentConfirmed] set, fails with
    [PreconditionFailed] (a [BAD_REQUEST]); it sends nothing to the remote
    service and writes nothing, so no [SalesOrder] row of the session
    carries a remote sales-order id afterwards unless one did before. *)
Theorem createSalesOrder_unpaid (ctx : Ctx) (input : SalesOrderInput) (w : World)
  (cs : CheckoutSession) :
  checkoutSession (db w) !! so_in_checkoutSessionId input = Some cs ->
  cs_userId cs = session_user_id ctx ->
  cs_status cs = "created" ->
  requirePaymentConfirmed input = true ->
  exists e w',
    createSalesOrder rt ctx input w = (Throw e, w')
    /\ PreconditionFailed e
    /\ e = TRPCError BAD_REQUEST "Payment must be confirmed before creating sales order"
    /\ w' = w
    /\ (forall so,
          salesOrder (db w') !! so_in_checkoutSessionId input = Some so ->
          zohoSalesOrderId so <> None ->
          salesOrder (db w) !! so_in_checkoutSessionId input = Some so).
Proof.
  intros Hcs Hu Hst Hreq.
  exists (TRPCError BAD_REQUEST "Payment must be confirmed before creating sales order"), w.
  split.
  - unfold createSalesOrder. apply rethrow_TRPCError.
    unfold createSalesOrder_body.
    erewrite bind_run by (apply checkoutSession_findFirst_owned; eassumption).
    cbv beta iota.
    unfold payment_not_confirmed. rewrite Hreq, Hst. reflexivity.
  - repeat split; [eexists; reflexivity | auto].
Qed.


End Gates.


(** ** Remote calls come before local writes *)

Section RemoteFirst.

Variable rt : Runtime.

Lemma do_fetch_run (rq : Request) (w : World) :
  do_fetch rt rq w =
  (match fetch rt (sent w) rq with
   | Resolve r => Ok r
   | Reject m => Throw (JsError m)
   end, logged rq w).
Proof. unfold do_fetch, logged. now destruct (fetch rt (sent w) rq). Qed.

(** Every write-style adapter call sends its one request and returns what
    the remote side answered to it. *)
Lemma adapter_call_run (rq : Request) (w : World) :
  bind (do_fetch rt rq) (fun response => lift (handleZohoApiResponse rt response)) w
  = (fetched rt (sent w) rq, logged rq w).
Proof.
  unfold bind, fetched. rewrite do_fetch_run.
  now destruct (fetch rt (sent w) rq).
Qed.

Lemma createZohoContact_run (d : ZohoContactData) (w : World) :
  createZohoContact rt d w = (fetched rt (sent w) (POST_Contacts d), logged (POST_Contacts d) w).
Proof. apply adapter_call_run. Qed.

Lemma updateZohoContact_run (id : string) (d : ZohoContactData) (w : World) :
  updateZohoContact rt id d w =
  (fetched rt (sent w) (PUT_Contacts id d), logged (PUT_Contacts id d) w).
Proof. apply adapter_call_run. Qed.

Lemma createZohoSalesOrder_run (d : ZohoSalesOrderData) (w : World) :
  createZohoSalesOrder rt d w =
  (fetched rt (sent w) (POST_Sales_Orders d), logged (POST_Sales_Orders d) w).
Proof. apply adapter_call_run. Qed.

Lemma sent_not_extended (h : list Request) (rq : Request) : h <> (h ++ [rq])%list.
Proof.
  intros H. apply (f_equal (@length _)) in H.
  rewrite length_app in H. simpl in H. lia.
Qed.

Lemma sent_extended_inj (h : list Request) (rq rq' : Request) :
  (h ++ [rq])%list = (h ++ [rq'])%list -> rq = rq'.
Proof. intros H. apply app_inv_head in H. congruence. Qed.

End RemoteFirst.

Ltac break_hyp H :=
  match type of H with
  | context [match ?x with _ => _ end] =>
      lazymatch x with
      | context [match _ with _ => _ end] => fail
      | _ => let E := fresh "E" in destruct x eqn:E; simpl in H
      end
  end.

Ltac reuse_eq H :=
  match goal with
  | E : ?x = _ |- _ =>
      tryif constr_eq E H then fail else (rewrite E in H; simpl in H)
  end.

#[local] Arguments updateZohoContact : simpl never.
#[local] Arguments createZohoContact : simpl never.
#[local] Arguments createZohoSalesOrder : simpl never.

Section RemoteFailure.

Variable rt : Runtime.

Lemma createOrUpdateContact_remote_failure (ctx : Ctx) (input : ContactInput)
  (w w' : World) (res : Outcome ContactResult) (rq : Request) :
  createOrUpdateContact rt ctx input w = (res, w') ->
  sent w' = (sent w ++ [rq])%list ->
  remote_fails rt (sent w) rq ->
  (exists e, res = Throw e) /\ db w' = db w.
Proof.
  intros Hrun Hsent [e He].
  unfold createOrUpdateContact, createOrUpdateContact_body in Hrun.
  unfold createOrUpdateContact_catch, zohoAccountLink_findUnique,
    checkoutSession_findFirst, zohoAccountLink_upsert, prisma_String,
    checkoutSession_update_status, put_db in Hrun.
  unfold_proc. simpl in Hrun.
  repeat first
    [ rewrite updateZohoContact_run in Hrun; simpl in Hrun
    | rewrite createZohoContact_run in Hrun; simpl in Hrun
    | reuse_eq Hrun
    | break_hyp Hrun ].
  all: try (injection Hrun as <- <-).
  all: try (exfalso; eapply sent_not_extended; eassumption).
  all: try (simpl in Hsent; apply sent_extended_inj in Hsent; subst rq).
  all: try (split; [eauto | reflexivity]).
  all: congruence.
Qed.

Lemma createSalesOrder_remote_failure (ctx : Ctx) (input : SalesOrderInput)
  (w w' : World) (res : Outcome SalesOrderResult) (rq : Request) :
  createSalesOrder rt ctx input w = (res, w') ->
  sent w' = (sent w ++ [rq])%list ->
  remote_fails rt (sent w) rq ->
  (exists e, res = Throw e) /\ db w' = db w.
Proof.
  intros Hrun Hsent [e He].
  unfold createSalesOrder, createSalesOrder_body in Hrun.
  unfold rethrow_or_internal, zohoAccountLink_findUnique,
    checkoutSession_findFirst, salesOrder_findUnique, salesOrder_update,
    salesOrder_create, prisma_String,
    checkoutSession_update_status, put_db in Hrun.
  unfold_proc. simpl in Hrun.
  repeat first
    [ rewrite createZohoSalesOrder_run in Hrun; simpl in Hrun
    | reuse_eq Hrun
    | break_hyp Hrun ].
  all: try (injection Hrun as <- <-).
  all: try (exfalso; eapply sent_not_extended; eassumption).
  all: try (simpl in Hsent; apply sent_extended_inj in Hsent; subst rq).
  all: try (split; [eauto | reflexivity]).
  all: congruence.
Qed.

(** C6: in both advance operations, when the request sent to the remote CRM
    fails ([fetch] rejects or the response handler throws), the operation
    throws and the database is as it was before the call, the status of
    the session included: the remote call comes before every local write.
    A retry therefore starts from the same local state. *)
Theorem remote_failure_leaves_status (ctx : Ctx) :
  (forall input w w' res rq,
      createOrUpdateContact rt ctx input w = (res, w') ->
      sent w' = (sent w ++ [rq])%list ->
      remote_fails rt (sent w) rq ->
      (exists e, res = Throw e)
      /\ db w' = db w
      /\ checkoutSession (db w') !! in_checkoutSessionId input
         = checkoutSession (db w) !! in_checkoutSessionId input)
  /\ (forall input w w' res rq,
      createSalesOrder rt ctx input w = (res, w') ->
      sent w' = (sent w ++ [rq])%list ->
      remote_fails rt (sent w) rq ->
      (exists e, res = Throw e)
      /\ db w' = db w
      /\ checkoutSession (db w') !! so_in_checkoutSessionId input
         = checkoutSession (db w) !! so_in_checkoutSessionId input).
Proof.
  split; intros input w w' res rq Hrun Hsent Hfail.
  - destruct (createOrUpdateContact_remote_failure _ _ _ _ _ _ Hrun Hsent Hfail)
      as [Hres Hdb].
    rewrite Hdb. auto.
  - destruct (createSalesOrder_remote_failure _ _ _ _ _ _ Hrun Hsent Hfail)
      as [Hres Hdb].
    rewrite Hdb. auto.
Qed.

End RemoteFailure.

(** ** Identity link sync *)

Section IdentityLink.

Variable rt : Runtime.

Lemma linked_zohoUserId_Some (l : ZohoAccountLink) :
  zohoUserId l <> "" -> linked_zohoUserId (Some l) = Some (zohoUserId l).
Proof.
  intros H. unfold linked_zohoUserId, truthy_str.
  apply String.eqb_neq in H. now rewrite H.
Qed.

Lemma agreement_gate_open (input : ContactInput) (cs : CheckoutSession) :
  (requireAgreementSigned input = true ->
   exists a, cs_agreement cs = Some a /\ ag_status a = "completed") ->
  requireAgreementSigned input && agreement_not_completed cs = false.
Proof.
  intros H. destruct (requireAgreementSigned input); [|reflexivity].
  destruct (H eq_refl) as (a & Ha & Hst).
  unfold agreement_not_completed. rewrite Ha, Hst. reflexivity.
Qed.

(** The update path: a link with a remote id exists, the [PUT] succeeds. *)
Lemma createOrUpdateContact_update (ctx : Ctx) (input : ContactInput) (w : World)
  (cs : CheckoutSession) (ci : CompanyInfo) (u : User) (zid : string)
  (v : JSON) :
  contact_ready (db w) ctx input cs ci u ->
  linked_zohoUserId (zohoAccountLink (db w) !! principal ctx input) = Some zid ->
  fetched rt (sent w) (PUT_Contacts zid (make_contactData cs ci u)) = Ok v ->
  truthy_opt (get "id" v) = true ->
  createOrUpdateContact rt ctx input w =
  (Ok {| zohoContactId := zid;
         isUpdate := true;
         zohoLink := {| zal_userId := principal ctx input; zohoUserId := zid;
                        zal_updatedAt := now rt |};
         cr_message := "Zoho contact updated successfully" |},
   contact_synced rt ctx input cs zid
     (PUT_Contacts zid (make_contactData cs ci u)) w).
Proof.
  intros (Hcs & Hu & Hci & Huser & Hag) Hlink Hput Hid.
  apply agreement_gate_open in Hag.
  unfold createOrUpdateContact, createOrUpdateContact_body.
  unfold createOrUpdateContact_catch, zohoAccountLink_findUnique,
    checkoutSession_findFirst, zohoAccountLink_upsert, prisma_String,
    checkoutSession_update_status, put_db.
  unfold_proc. simpl.
  rewrite Hcs, Hu, String.eqb_refl, Hci, Hag. simpl.
  rewrite Huser, Hlink. rewrite updateZohoContact_run, Hput, Hid. simpl.
  rewrite Hcs. reflexivity.
Qed.

(** The create path: no link with a remote id, the [POST] succeeds and
    answers with the id [zid]. *)
Lemma createOrUpdateContact_create (ctx : Ctx) (input : ContactInput) (w : World)
  (cs : CheckoutSession) (ci : CompanyInfo) (u : User) (zid : string)
  (v : JSON) :
  contact_ready (db w) ctx input cs ci u ->
  linked_zohoUserId (zohoAccountLink (db w) !! principal ctx input) = None ->
  fetched rt (sent w) (POST_Contacts (make_contactData cs ci u)) = Ok v ->
  get "id" v = Some (JStr zid) ->
  zid <> "" ->
  createOrUpdateContact rt ctx input w =
  (Ok {| zohoContactId := zid;
         isUpdate := false;
         zohoLink := {| zal_userId := principal ctx input; zohoUserId := zid;
                        zal_updatedAt := now rt |};
         cr_message := "Zoho contact created successfully" |},
   contact_synced rt ctx input cs zid
     (POST_Contacts (make_contactData cs ci u)) w).
Proof.
  intros (Hcs & Hu & Hci & Huser & Hag) Hlink Hpost Hid Hne.
  apply agreement_gate_open in Hag.
  apply String.eqb_neq in Hne.
  unfold createOrUpdateContact, createOrUpdateContact_body.
  unfold createOrUpdateContact_catch, zohoAccountLink_findUnique,
    checkoutSession_findFirst, zohoAccountLink_upsert, prisma_String,
    checkoutSession_update_status, put_db.
  unfold_proc. simpl.
  rewrite Hcs, Hu, String.eqb_refl, Hci, Hag. simpl.
  rewrite Huser, Hlink. rewrite createZohoContact_run, Hpost, Hid. simpl.
  rewrite Hne. simpl. rewrite Hcs. reflexivity.
Qed.

(** After a successful sync the gates are still open, for the session with
    its new status, and the link of the principal holds the remote id. *)
Lemma contact_synced_ready (rt' : Runtime) (ctx : Ctx) (input : ContactInput)
  (w : World) (cs : CheckoutSession) (ci : CompanyInfo) (u : User)
  (zid : string) (rq : Request) :
  contact_ready (db w) ctx input cs ci u ->
  contact_ready (db (contact_synced rt' ctx input cs zid rq w)) ctx input
    (set_status "contact_created" cs) ci u.
Proof.
  intros (Hcs & Hu & Hci & Huser & Hag).
  unfold contact_ready. simpl. rewrite lookup_insert_eq. auto.
Qed.

Lemma contact_synced_link (rt' : Runtime) (ctx : Ctx) (input : ContactInput)
  (w : World) (cs : CheckoutSession) (zid : string) (rq : Request) :
  zohoAccountLink (db (contact_synced rt' ctx input cs zid rq w))
    !! principal ctx input
  = Some {| zal_userId := principal ctx input; zohoUserId := zid;
            zal_updatedAt := now rt' |}.
Proof. simpl. apply lookup_insert_eq. Qed.

(** The procedure keeps the invariant of the link table. *)
Lemma contact_synced_links_wf (rt' : Runtime) (ctx : Ctx) (input : ContactInput)
  (w : World) (cs : CheckoutSession) (zid : string) (rq : Request) :
  zid <> "" -> links_wf (db w) ->
  links_wf (db (contact_synced rt' ctx input cs zid rq w)).
Proof.
  intros Hne Hwf p l. simpl. rewrite lookup_insert.
  case_decide; [intros [= <-]; exact Hne | apply Hwf].
Qed.

(** The contact data does not depend on the status of the session. *)
Lemma make_contactData_set_status (st : string) (cs : CheckoutSession)
  (ci : CompanyInfo) (u : User) :
  make_contactData (set_status st cs) ci u = make_contactData cs ci u.
Proof. reflexivity. Qed.

End IdentityLink.

(** *** The invariant of the link table *)

Lemma linked_zohoUserId_inv (o : option ZohoAccountLink) (s : string) :
  linked_zohoUserId o = Some s -> s <> "".
Proof.
  unfold linked_zohoUserId, truthy_str. destruct o as [l|]; [|discriminate].
  destruct (String.eqb (zohoUserId l) "") eqn:E; [discriminate|].
  intros [= <-]. now apply String.eqb_neq.
Qed.

Lemma links_wf_insert (d : Db) (p : string) (row : ZohoAccountLink)
  (t : gmap string CheckoutSession) :
  zohoUserId row <> "" -> links_wf d ->
  links_wf (with_checkoutSession
              (with_zohoAccountLink d (<[p := row]> (zohoAccountLink d))) t).
Proof.
  intros Hne Hwf u l. simpl. rewrite lookup_insert.
  case_decide; [intros [= <-]; exact Hne | apply Hwf].
Qed.

Lemma links_wf_empty : links_wf empty_db.
Proof. intros u l H. simpl in H. rewrite lookup_empty in H. discriminate. Qed.

(** Whatever its outcome, [createOrUpdateContact] leaves every identity
    link with a remote id: the invariant holds in every world the procedure
    can build from the empty table. *)
Lemma createOrUpdateContact_links_wf (rt : Runtime) (ctx : Ctx) (input : ContactInput)
  (w w' : World) (res : Outcome ContactResult) :
  createOrUpdateContact rt ctx input w = (res, w') ->
  links_wf (db w) -> links_wf (db w').
Proof.
  intros Hrun Hwf.
  unfold createOrUpdateContact, createOrUpdateContact_body in Hrun.
  unfold createOrUpdateContact_catch, zohoAccountLink_findUnique,
    checkoutSession_findFirst, zohoAccountLink_upsert, prisma_String,
    checkoutSession_update_status, put_db in Hrun.
  unfold_proc. simpl in Hrun.
  repeat first
    [ rewrite updateZohoContact_run in Hrun; simpl in Hrun
    | rewrite createZohoContact_run in Hrun; simpl in Hrun
    | reuse_eq Hrun
    | break_hyp Hrun ].
  all: injection Hrun as <- <-; try exact Hwf.
  all: apply links_wf_insert; [simpl | exact Hwf].
  - eapply linked_zohoUserId_inv; eassumption.
  - match goal with H : truthy (JStr _) = true |- _ =>
      simpl in H; now apply negb_true_iff, String.eqb_neq in H end.
Qed.

(** The sales order procedure does not write the link table at all. *)
Lemma createSalesOrder_links (rt : Runtime) (ctx : Ctx) (input : SalesOrderInput)
  (w w' : World) (res : Outcome SalesOrderResult) :
  createSalesOrder rt ctx input w = (res, w') ->
  zohoAccountLink (db w') = zohoAccountLink (db w).
Proof.
  intros Hrun.
  unfold createSalesOrder, createSalesOrder_body in Hrun.
  unfold rethrow_or_internal, zohoAccountLink_findUnique,
    checkoutSession_findFirst, salesOrder_findUnique, salesOrder_update,
    salesOrder_create, prisma_String,
    checkoutSession_update_status, put_db in Hrun.
  unfold_proc. simpl in Hrun.
  repeat first
    [ rewrite createZohoSalesOrder_run in Hrun; simpl in Hrun
    | reuse_eq Hrun
    | break_hyp Hrun ].
  all: injection Hrun as <- <-; reflexivity.
Qed.

(** C2: when the gates are open and the remote service accepts the writes,
    two calls of [createOrUpdateContact] for the same session both succeed
    and leave exactly one identity link for the principal: the first call
    updates through the stored remote id when a link exists and reports
    [isUpdate = true], otherwise it creates the contact, persists a new
    link and reports [isUpdate = false]; the second call finds that link,
    sends an update keyed by the same remote id, reports [isUpdate = true]
    and adds no row. *)
Theorem createOrUpdateContact_twice (rt rt' : Runtime) (ctx : Ctx)
  (input : ContactInput) (w : World)
  (cs : CheckoutSession) (ci : CompanyInfo) (u : User) :
  contact_ready (db w) ctx input cs ci u ->
  links_wf (db w) ->
  remote_accepts rt ->
  remote_accepts rt' ->
  exists c1 w1 c2 w2,
    createOrUpdateContact rt ctx input w = (Ok c1, w1)
    /\ createOrUpdateContact rt' ctx input w1 = (Ok c2, w2)
    /\ match zohoAccountLink (db w) !! principal ctx input with
       | Some l =>
           isUpdate c1 = true
           /\ zohoContactId c1 = zohoUserId l
           /\ sent w1 = (sent w ++ [PUT_Contacts (zohoUserId l)
                                      (make_contactData cs ci u)])%list
       | None =>
           isUpdate c1 = false
           /\ sent w1 = (sent w ++ [POST_Contacts (make_contactData cs ci u)])%list
       end
    /\ zohoAccountLink (db w1) =
         <[principal ctx input := zohoLink c1]> (zohoAccountLink (db w))
    /\ zohoUserId (zohoLink c1) = zohoContactId c1
    /\ isUpdate c2 = true
    /\ zohoContactId c2 = zohoContactId c1
    /\ sent w2 = (sent w1 ++ [PUT_Contacts (zohoContactId c1)
                                (make_contactData cs ci u)])%list
    /\ zohoAccountLink (db w2) !! principal ctx input = Some (zohoLink c2)
    /\ zohoUserId (zohoLink c2) = zohoContactId c1
    /\ dom (zohoAccountLink (db w2)) = dom (zohoAccountLink (db w1))
    /\ size (zohoAccountLink (db w2)) = size (zohoAccountLink (db w1)).
Proof.
  intros Hready Hwf Hrt Hrt'.
  (* the first call *)
  assert (exists zid rq,
             zid <> ""
             /\ createOrUpdateContact rt ctx input w =
                (Ok {| zohoContactId := zid;
                       isUpdate := bool_decide (is_Some (zohoAccountLink (db w)
                                                           !! principal ctx input));
                       zohoLink := {| zal_userId := principal ctx input;
                                      zohoUserId := zid;
                                      zal_updatedAt := now rt |};
                       cr_message :=
                         if bool_decide (is_Some (zohoAccountLink (db w)
                                                    !! principal ctx input))
                         then "Zoho contact updated successfully"
                         else "Zoho contact created successfully" |},
                 contact_synced rt ctx input cs zid rq w)
             /\ match zohoAccountLink (db w) !! principal ctx input with
                | Some l => zid = zohoUserId l
                            /\ rq = PUT_Contacts zid (make_contactData cs ci u)
                | None => rq = POST_Contacts (make_contactData cs ci u)
                end) as (zid & rq & Hzid & Hrun1 & Hfirst).
  { destruct (zohoAccountLink (db w) !! principal ctx input) as [l|] eqn:Hl.
    - pose proof (Hwf _ _ Hl) as Hne.
      destruct (Hrt (sent w)
                  (PUT_Contacts (zohoUserId l) (make_contactData cs ci u)))
        as (v & s & Hv & Hid & Hs).
      exists (zohoUserId l), (PUT_Contacts (zohoUserId l) (make_contactData cs ci u)).
      split; [exact Hne|]. split; [|auto].
      eapply createOrUpdateContact_update; eauto.
      + rewrite Hl. now apply linked_zohoUserId_Some.
      + rewrite Hid. simpl. now apply negb_true_iff, String.eqb_neq.
    - destruct (Hrt (sent w) (POST_Contacts (make_contactData cs ci u)))
        as (v & s & Hv & Hid & Hs).
      exists s, (POST_Contacts (make_contactData cs ci u)).
      split; [exact Hs|]. split; [|auto].
      eapply createOrUpdateContact_create; eauto. now rewrite Hl. }
  (* the second call finds the link the first one left *)
  pose proof (contact_synced_ready rt ctx input w cs ci u zid rq Hready) as Hready1.
  pose proof (contact_synced_link rt ctx input w cs zid rq) as Hlink1.
  set (w1 := contact_synced rt ctx input cs zid rq w) in *.
  destruct (Hrt' (sent w1) (PUT_Contacts zid (make_contactData cs ci u)))
    as (v' & s' & Hv' & Hid' & Hs').
  assert (Hrun2 := createOrUpdateContact_update rt' ctx input w1
                     (set_status "contact_created" cs) ci u zid v' Hready1).
  rewrite make_contactData_set_status in Hrun2.
  specialize (Hrun2 ltac:(rewrite Hlink1; now apply linked_zohoUserId_Some) Hv'
                ltac:(rewrite Hid'; simpl; now apply negb_true_iff, String.eqb_neq)).
  do 4 eexists. split; [exact Hrun1|]. split; [exact Hrun2|].
  split.
  { destruct (zohoAccountLink (db w) !! principal ctx input) as [l|] eqn:Hl; simpl.
    - destruct Hfirst as [-> ->]. auto.
    - subst rq. auto. }
  split; [reflexivity|].
  split; [reflexivity|].
  split; [reflexivity|].
  split; [reflexivity|].
  split; [reflexivity|].
  split; [simpl; now rewrite lookup_insert_eq|].
  split; [reflexivity|].
  assert (Hdom : dom (zohoAccountLink (db (contact_synced rt' ctx input
                    (set_status "contact_created" cs) zid
                    (PUT_Contacts zid (make_contactData cs ci u)) w1)))
                 = dom (zohoAccountLink (db w1))).
  { simpl. rewrite !dom_insert_L.
    now rewrite (assoc_L (∪)), (idemp_L (∪)). }
  split; [exact Hdom|].
  rewrite <- !size_dom. now rewrite Hdom.
Qed.

(** ** Signup links *)

Section SignupLinks.

Variable rt : Runtime.

Lemma getZohoContact_run (id : string) (w : World) :
  getZohoContact rt id w =
  (contact_or_null (fetched rt (sent w) (GET_Contacts id)), logged (GET_Contacts id) w).
Proof.
  unfold getZohoContact, try_catch, bind, fetched, contact_or_null.
  rewrite do_fetch_run.
  destruct (fetch rt (sent w) (GET_Contacts id)) as [r|m]; [|reflexivity].
  unfold lift. destruct (handleZohoApiResponse rt r) as [v|[c m|m]]; reflexivity.
Qed.

Lemma signupLink_findFirst_run (input : ValidateInput) (w : World) :
  signupLink_findFirst (val_zoho_id input) (val_login_code input) w
  = (Ok (found_link (db w) input), w).
Proof. reflexivity. Qed.

Lemma found_link_In (d : Db) (input : ValidateInput) (l : SignupLink) :
  found_link d input = Some l -> In l (signupLink d).
Proof. unfold found_link. intros H. now apply find_some in H. Qed.

Lemma found_link_matches (d : Db) (input : ValidateInput) (l : SignupLink) :
  found_link d input = Some l ->
  zoho_id l = val_zoho_id input /\ login_code l = val_login_code input.
Proof.
  unfold found_link. intros H. apply find_some in H as [_ H].
  apply andb_true_iff in H as [H1 H2].
  now apply String.eqb_eq in H1, H2.
Qed.

Lemma signupLink_update_inactive_run (l : SignupLink) (w : World) :
  In l (signupLink (db w)) ->
  signupLink_update_inactive rt (sl_id l) w
  = (Ok tt, set_signupLink w (deactivated rt (sl_id l) (signupLink (db w)))).
Proof.
  intros Hin. unfold signupLink_update_inactive, bind, get_db.
  replace (existsb _ (signupLink (db w))) with true; [reflexivity|].
  symmetry. apply existsb_exists. exists l. split; [exact Hin|].
  apply String.eqb_refl.
Qed.

Lemma deactivated_inactive (id : string) (links : list SignupLink) (l : SignupLink) :
  In l (deactivated rt id links) -> sl_id l = id -> is_active l = false.
Proof.
  unfold deactivated. intros Hin Hid. apply in_map_iff in Hin as (l0 & Hl0 & _).
  destruct (String.eqb (sl_id l0) id) eqn:E; subst l; [reflexivity|].
  apply String.eqb_neq in E. contradiction.
Qed.

Lemma deactivated_In (l : SignupLink) (links : list SignupLink) :
  In l links -> In (deactivate rt l) (deactivated rt (sl_id l) links).
Proof.
  intros Hin. unfold deactivated. apply in_map_iff. exists l.
  now rewrite String.eqb_refl.
Qed.

(** Rows with another id are left as they are. *)
Lemma deactivated_other (id : string) (links : list SignupLink) (l : SignupLink) :
  In l links -> sl_id l <> id -> In l (deactivated rt id links).
Proof.
  intros Hin Hne. unfold deactivated. apply in_map_iff. exists l.
  apply String.eqb_neq in Hne. now rewrite Hne.
Qed.

(** C4: a link whose expiry lies before the current time is deactivated by
    [validateSignupLink] (its [is_active] becomes false and Prisma stamps its
    [updated_at], nothing else changes) and the call fails with [Expired]; a link that is not expired
    but has reached its usage limit makes the call fail with
    [LimitExceeded], and the world, the active flag included, stays as it
    was. *)
Theorem validateSignupLink_expired_or_exhausted (input : ValidateInput)
  (w : World) (l : SignupLink) :
  found_link (db w) input = Some l ->
  (expires_at l < now rt ->
   validateSignupLink rt input w =
     (Throw Expired, set_signupLink w (deactivated rt (sl_id l) (signupLink (db w))))
   /\ In (deactivate rt l) (deactivated rt (sl_id l) (signupLink (db w)))
   /\ is_active (deactivate rt l) = false
   /\ (forall l', In l' (deactivated rt (sl_id l) (signupLink (db w))) ->
                  sl_id l' = sl_id l -> is_active l' = false))
  /\ (now rt <= expires_at l ->
      usage_count l >= usage_limit l ->
      validateSignupLink rt input w = (Throw LimitExceeded, w)).
Proof.
  intros Hfound. pose proof (found_link_In _ _ _ Hfound) as Hin. split.
  - intros Hexp. split; [|split; [|split]].
    + unfold validateSignupLink. apply rethrow_TRPCError.
      erewrite bind_run by apply signupLink_findFirst_run.
      rewrite Hfound. apply Z.ltb_lt in Hexp. rewrite Hexp.
      erewrite bind_run by (now apply signupLink_update_inactive_run).
      reflexivity.
    + now apply deactivated_In.
    + reflexivity.
    + intros l'. apply deactivated_inactive.
  - intros Hnot Hlim. unfold validateSignupLink. apply rethrow_TRPCError.
    erewrite bind_run by apply signupLink_findFirst_run.
    rewrite Hfound.
    replace (expires_at l <? now rt) with false by (symmetry; apply Z.ltb_ge; lia).
    replace (usage_count l >=? usage_limit l) with true
      by (symmetry; apply Z.geb_le; lia).
    reflexivity.
Qed.

End SignupLinks.

Section Validation.

Variable rt : Runtime.

(** A successful validation returns the link as it is stored and writes
    nothing. *)
Lemma validateSignupLink_valid (input : ValidateInput) (w : World)
  (l : SignupLink) (c : JSON) :
  found_link (db w) input = Some l ->
  now rt <= expires_at l ->
  usage_count l < usage_limit l ->
  fetched rt (sent w) (GET_Contacts (zoho_id l)) = Ok c ->
  validateSignupLink rt input w =
  (Ok {| vr_signupLink := l; vr_contact := c |}, logged (GET_Contacts (zoho_id l)) w).
Proof.
  intros Hfound Hnot Hlim Hc. unfold validateSignupLink.
  erewrite try_catch_run; [reflexivity|].
  erewrite bind_run by apply signupLink_findFirst_run.
  rewrite Hfound.
  replace (expires_at l <? now rt) with false by (symmetry; apply Z.ltb_ge; lia).
  replace (usage_count l >=? usage_limit l) with false
    by (symmetry; rewrite Z.geb_leb; apply Z.leb_gt; lia).
  erewrite bind_run by (rewrite getZohoContact_run, Hc; reflexivity).
  reflexivity.
Qed.

(** [LimitExceeded] comes from the limit check only. *)
Lemma validateSignupLink_LimitExceeded_inv (input : ValidateInput) (w w' : World) :
  validateSignupLink rt input w = (Throw LimitExceeded, w') ->
  exists l, found_link (db w) input = Some l
            /\ usage_count l >= usage_limit l
            /\ w' = w.
Proof.
  unfold validateSignupLink. intros Hrun.
  unfold try_catch in Hrun.
  erewrite bind_run in Hrun by apply signupLink_findFirst_run.
  destruct (found_link (db w) input) as [l|] eqn:Hfound;
    [|simpl in Hrun; discriminate].
  exists l. split; [reflexivity|].
  pose proof (found_link_In _ _ _ Hfound) as Hin.
  destruct (expires_at l <? now rt) eqn:Hexp.
  { erewrite bind_run in Hrun by (now apply signupLink_update_inactive_run).
    simpl in Hrun. discriminate. }
  destruct (usage_count l >=? usage_limit l) eqn:Hlim.
  { simpl in Hrun. injection Hrun as <-. apply Z.geb_le in Hlim. split; [lia|auto]. }
  unfold bind in Hrun. rewrite getZohoContact_run in Hrun.
  destruct (fetched rt (sent w) (GET_Contacts (zoho_id l))) as [c|[code m|m]] eqn:Hc;
    simpl in Hrun; try discriminate.
  (* a [TRPCError] of the adapter is never a [BAD_REQUEST] *)
  apply fetched_Throw_code in Hc. subst code. discriminate.
Qed.

End Validation.

(** C1 (as amended): for an unexpired link whose usage count is below its
    limit (so for a link issued with usage limit 1 and count 0), a call of
    [validateSignupLink] with the matching remote id and code succeeds when
    the remote contact can be fetched, returns the link and writes nothing:
    [usage_count] stays as it was, and a second call on the same link
    succeeds in the same way.  [LimitExceeded] is raised only when the
    stored [usage_count] has already reached [usage_limit]. *)
Theorem validateSignupLink_keeps_usage_count (rt : Runtime) (input : ValidateInput)
  (w : World) (l : SignupLink) :
  found_link (db w) input = Some l ->
  now rt <= expires_at l ->
  usage_count l < usage_limit l ->
  contact_available rt (zoho_id l) ->
  (exists c1 w1 c2 w2,
      validateSignupLink rt input w =
        (Ok {| vr_signupLink := l; vr_contact := c1 |}, w1)
      /\ db w1 = db w
      /\ found_link (db w1) input = Some l
      /\ validateSignupLink rt input w1 =
           (Ok {| vr_signupLink := l; vr_contact := c2 |}, w2)
      /\ db w2 = db w)
  /\ (forall w0 w', validateSignupLink rt input w0 = (Throw LimitExceeded, w') ->
        exists l0, found_link (db w0) input = Some l0
                   /\ usage_count l0 >= usage_limit l0
                   /\ w' = w0).
Proof.
  intros Hfound Hnot Hlim Hav. split.
  - destruct (Hav (sent w)) as [c1 Hc1].
    destruct (Hav (sent (logged (GET_Contacts (zoho_id l)) w))) as [c2 Hc2].
    exists c1, (logged (GET_Contacts (zoho_id l)) w),
      c2, (logged (GET_Contacts (zoho_id l)) (logged (GET_Contacts (zoho_id l)) w)).
    split; [now apply validateSignupLink_valid|].
    split; [reflexivity|]. split; [exact Hfound|].
    split; [now apply validateSignupLink_valid|reflexivity].
  - intros w0 w'. apply validateSignupLink_LimitExceeded_inv.
Qed.

(** C1 (counterexample): a link issued with usage limit 1 is validated
    twice.  The first call succeeds and leaves [usage_count] at 0, not 1; the
    second call succeeds as well instead of failing with [LimitExceeded]. *)
Lemma validateSignupLink_second_use_succeeds :
  let issued := generateSignupLink steady_runtime issue_zc_1 initial_world in
  let first := validateSignupLink steady_runtime present_zc_1 (snd issued) in
  let second := validateSignupLink steady_runtime present_zc_1 (snd first) in
  fst issued = Ok link_0
  /\ usage_limit link_0 = 1
  /\ fst first = Ok {| vr_signupLink := link_0; vr_contact := contact_zc_1 |}
  /\ List.map usage_count (signupLink (db (snd first))) = [0]
  /\ fst second = Ok {| vr_signupLink := link_0; vr_contact := contact_zc_1 |}
  /\ fst second <> Throw LimitExceeded.
Proof.
  vm_compute. repeat split; discriminate.
Qed.

(** ** Issuing signup links *)

Section Issuer.

Variable rt : Runtime.

Lemma length_append (s t : string) :
  String.length (s ++ t) = (String.length s + String.length t)%nat.
Proof. induction s as [|c s IH]; simpl; [reflexivity | now rewrite IH]. Qed.

Lemma list_ascii_of_string_append (s t : string) :
  list_ascii_of_string (s ++ t)
  = (list_ascii_of_string s ++ list_ascii_of_string t)%list.
Proof. induction s as [|c s IH]; simpl; [reflexivity | now rewrite IH]. Qed.

Lemma get_in_range (s : string) (n : nat) :
  (n < String.length s)%nat ->
  exists c, String.get n s = Some c /\ In c (list_ascii_of_string s).
Proof.
  revert n. induction s as [|a s IH]; simpl; intros n Hn; [lia|].
  destruct n as [|n].
  - exists a. auto.
  - destruct (IH n ltac:(lia)) as (c & Hc & Hin). exists c. auto.
Qed.

(** [charAt] within the range of the string yields one of its characters. *)
Lemma charAt_in_range (s : string) (pos : Number) (i : Z) :
  ToIntegerOrInfinity pos = Some i ->
  0 <= i < Z.of_nat (String.length s) ->
  exists c, charAt s pos = String c "" /\ In c (list_ascii_of_string s).
Proof.
  intros Hpos Hi. unfold charAt. rewrite Hpos.
  replace (i <? 0) with false by (symmetry; apply Z.ltb_ge; lia).
  destruct (get_in_range s (Z.to_nat i) ltac:(lia)) as (c & Hc & Hin).
  exists c. now rewrite Hc.
Qed.

(** *** Rounding the product of a draw *)

Lemma round_half_even_bounds (M s : Z) :
  0 <= M -> 0 < s ->
  M / 2 ^ s <= round_half_even M s <= M / 2 ^ s + 1
  /\ round_half_even M s * 2 ^ s <= M + 2 ^ (s - 1).
Proof.
  intros HM Hs. unfold round_half_even.
  replace (s <=? 0) with false by (symmetry; apply Z.leb_gt; lia).
  assert (Hp : 0 < 2 ^ s) by (apply Z.pow_pos_nonneg; lia).
  assert (Hh : 2 ^ s = 2 * 2 ^ (s - 1)).
  { replace s with (Z.succ (s - 1)) at 1 by lia. apply Z.pow_succ_r. lia. }
  pose proof (Z.div_mod M (2 ^ s) ltac:(lia)) as Hdm.
  pose proof (Z.mod_pos_bound M (2 ^ s) Hp) as Hr.
  set (q := M / 2 ^ s) in *. set (r := M mod 2 ^ s) in *.
  set (h := 2 ^ (s - 1)) in *.
  destruct (r <? h) eqn:E1; [apply Z.ltb_lt in E1 | apply Z.ltb_ge in E1].
  - split; [lia | nia].
  - assert ((q + 1) * 2 ^ s <= M + h) by nia.
    destruct (h <? r) eqn:E2; [split; [lia|assumption]|].
    destruct (Z.even q); [split; [lia | nia] | split; [lia | assumption]].
Qed.

Lemma log2_bounds (M : Z) : 0 < M -> 2 ^ Z.log2 M <= M < 2 ^ (Z.log2 M + 1).
Proof.
  intros H. pose proof (Z.log2_spec M H) as Hs.
  now rewrite <- Z.add_1_r in Hs.
Qed.

Lemma ToInteger_floor (m e : Z) :
  ToIntegerOrInfinity (Math_floor (Finite m e)) = Some (floor_at m e).
Proof.
  unfold Math_floor, floor_at, ToIntegerOrInfinity.
  destruct (0 <=? e) eqn:E; [now rewrite E|].
  change (0 <=? 0) with true. cbv iota. now rewrite Z.pow_0_r, Z.mul_1_r.
Qed.

(** A product of at most 53 bits is exact. *)
Lemma Number_round_small (M e : Z) :
  0 <= M < 2 ^ 53 -> e <= 971 -> Number_round M e = Finite M e.
Proof.
  intros HM He. unfold Number_round. rewrite Z.abs_eq by lia.
  assert (Hl : Z.log2 M <= 52).
  { destruct (Z.eq_dec M 0) as [->|]; [cbn; lia|].
    assert (Z.log2 M < 53); [|lia]. apply Z.log2_lt_pow2; lia. }
  rewrite Z.max_l by lia. unfold round_half_even. change (0 <=? 0) with true.
  cbv iota. rewrite Z.add_0_r.
  replace (1024 <=? Z.log2 M + e) with false by (symmetry; apply Z.leb_gt; lia).
  f_equal. destruct (Z.eq_dec M 0) as [->|]; [reflexivity|].
  rewrite Z.sgn_pos by lia. lia.
Qed.

(** A longer product loses the bits beyond the 53rd. *)
Lemma Number_round_large (M e : Z) :
  2 ^ 53 <= M -> Z.log2 M + e < 1023 ->
  let s := Z.log2 M - 52 in
  Number_round M e = Finite (round_half_even M s) (e + s)
  /\ 0 < s /\ 2 ^ (52 + s) <= M < 2 ^ (53 + s).
Proof.
  intros HM He s.
  assert (H53 : 0 < 2 ^ 53) by (apply Z.pow_pos_nonneg; lia).
  assert (Hl : 53 <= Z.log2 M) by (apply Z.log2_le_pow2; lia).
  assert (Hs : 0 < s) by (unfold s; lia).
  pose proof (log2_bounds M ltac:(lia)) as Hb.
  replace (Z.log2 M) with (52 + s) in Hb at 1 by (unfold s; lia).
  replace (Z.log2 M + 1) with (53 + s) in Hb by (unfold s; lia).
  split; [|split; assumption].
  unfold Number_round. rewrite Z.abs_eq by lia. fold s. rewrite Z.max_r by lia.
  destruct (round_half_even_bounds M s ltac:(lia) Hs) as [[Hlo Hhi] _].
  assert (Hq : M / 2 ^ s < 2 ^ 53).
  { apply Z.div_lt_upper_bound; [apply Z.pow_pos_nonneg; lia|].
    rewrite <- Z.pow_add_r by lia. replace (s + 53) with (53 + s) by lia. lia. }
  assert (Hq0 : 0 < M / 2 ^ s).
  { apply Z.div_str_pos. split; [apply Z.pow_pos_nonneg; lia|].
    apply Z.le_trans with (2 ^ (52 + s)); [|lia].
    apply Z.pow_le_mono_r; lia. }
  assert (Hlog : Z.log2 (round_half_even M s) <= 53).
  { apply Z.le_trans with (Z.log2 (2 ^ 53)); [apply Z.log2_le_mono; lia|].
    rewrite Z.log2_pow2; lia. }
  replace (1024 <=? _) with false by (symmetry; apply Z.leb_gt; unfold s in *; lia).
  rewrite Z.sgn_pos by lia. f_equal. lia.
Qed.

(** The exponent of a draw whose product needs rounding lies far below
    zero. *)
Lemma long_product_exponent (m e s : Z) :
  0 <= m < 2 ^ (- e) -> e <= 0 -> 2 ^ (52 + s) <= m * 36 -> e + s < 0.
Proof.
  intros Hm He Hb.
  assert (Hpe : 0 < 2 ^ (- e)) by (apply Z.pow_pos_nonneg; lia).
  assert (H : 2 ^ (52 + s) < 2 ^ (6 - e)).
  { replace (6 - e) with (6 + - e) by lia. rewrite (Z.pow_add_r 2 6) by lia.
    change (2 ^ 6) with 64. lia. }
  apply Z.pow_lt_mono_r_iff in H; lia.
Qed.

Lemma unit_draw_exponent (m e : Z) : 0 <= m < 2 ^ (- e) -> e <= 0.
Proof.
  intros Hlt. destruct (Z_le_gt_dec e 0); [assumption|].
  rewrite Z.pow_neg_r in Hlt by lia. lia.
Qed.

(** The index [Math.floor(r * 36)] of a draw falls into the alphabet: the
    largest draw below 1 is [1 - 2^-53], and its product rounds to the
    Number just below 36. *)
Lemma random_index_range (r : Number) :
  unit_draw r ->
  exists k, ToIntegerOrInfinity (random_index r) = Some k /\ 0 <= k < 36.
Proof.
  destruct r as [m e|s]; [|intros [_ []]].
  intros [[Hm He] Hlt]. unfold random_index, Number_times.
  change (Z.of_nat (String.length chars)) with 36.
  pose proof (unit_draw_exponent _ _ Hlt) as He0.
  assert (Hpe : 0 < 2 ^ (- e)) by (apply Z.pow_pos_nonneg; lia).
  destruct (Z_lt_le_dec (m * 36) (2 ^ 53)) as [Hsmall|Hlarge].
  - rewrite Number_round_small by lia. rewrite ToInteger_floor.
    eexists. split; [reflexivity|]. unfold floor_at.
    destruct (0 <=? e) eqn:E.
    + apply Z.leb_le in E. assert (e = 0) as -> by lia.
      change (2 ^ (- 0)) with 1 in Hlt. change (2 ^ 0) with 1. lia.
    + split; [apply Z.div_pos; lia|].
      apply Z.div_lt_upper_bound; lia.
  - assert (Hlog : Z.log2 (m * 36) < 59).
    { apply Z.log2_lt_pow2; [lia|]. rewrite Z.abs_eq in Hm by lia.
      change (2 ^ 59) with (2 ^ 53 * 64). lia. }
    destruct (Number_round_large (m * 36) e Hlarge ltac:(lia)) as (-> & Hs & Hb).
    set (s := Z.log2 (m * 36) - 52) in *.
    rewrite ToInteger_floor. eexists. split; [reflexivity|].
    destruct (round_half_even_bounds (m * 36) s ltac:(lia) Hs) as [[Hlo Hhi] Hr].
    assert (Hs6 : s <= 6) by (unfold s; lia).
    assert (Hhalf : 2 ^ (s - 1) <= 32).
    { change 32 with (2 ^ 5). apply Z.pow_le_mono_r; lia. }
    assert (Hes : e + s < 0) by (apply (long_product_exponent m); lia).
    unfold floor_at. replace (0 <=? e + s) with false by (symmetry; apply Z.leb_gt; lia).
    assert (Hq0 : 0 <= (m * 36) / 2 ^ s).
    { apply Z.div_pos; [lia | apply Z.pow_pos_nonneg; lia]. }
    assert (Hp : 0 < 2 ^ (- (e + s))) by (apply Z.pow_pos_nonneg; lia).
    split; [apply Z.div_pos; lia|].
    apply Z.div_lt_upper_bound; [exact Hp|].
    assert (Hsplit : 2 ^ (- e) = 2 ^ (- (e + s)) * 2 ^ s).
    { rewrite <- Z.pow_add_r by lia. f_equal. lia. }
    assert (Hps : 0 < 2 ^ s) by (apply Z.pow_pos_nonneg; lia).
    nia.
Qed.

(** Rounding moves the index up by one at most, and never down. *)
Lemma random_index_near_floor (m e : Z) :
  unit_draw (Finite m e) ->
  exists k, ToIntegerOrInfinity (random_index (Finite m e)) = Some k
            /\ floor_at (m * 36) e <= k <= floor_at (m * 36) e + 1
            /\ (m * 36 < 2 ^ 53 -> k = floor_at (m * 36) e).
Proof.
  intros [[Hm He] Hlt]. unfold random_index, Number_times.
  change (Z.of_nat (String.length chars)) with 36.
  pose proof (unit_draw_exponent _ _ Hlt) as He0.
  destruct (Z_lt_le_dec (m * 36) (2 ^ 53)) as [Hsmall|Hlarge].
  - rewrite Number_round_small by lia. rewrite ToInteger_floor.
    eexists. split; [reflexivity|]. split; [lia | reflexivity].
  - assert (Hlog : Z.log2 (m * 36) < 59).
    { apply Z.log2_lt_pow2; [lia|]. rewrite Z.abs_eq in Hm by lia.
      change (2 ^ 59) with (2 ^ 53 * 64). lia. }
    destruct (Number_round_large (m * 36) e Hlarge ltac:(lia)) as (-> & Hs & Hb).
    set (s := Z.log2 (m * 36) - 52) in *.
    rewrite ToInteger_floor. eexists. split; [reflexivity|].
    destruct (round_half_even_bounds (m * 36) s ltac:(lia) Hs) as [[Hlo Hhi] Hr].
    assert (Hpe : 0 < 2 ^ (- e)) by (apply Z.pow_pos_nonneg; lia).
    assert (Hes : e + s < 0) by (apply (long_product_exponent m); lia).
    split; [|lia].
    unfold floor_at. replace (0 <=? e + s) with false by (symmetry; apply Z.leb_gt; lia).
    replace (0 <=? e) with false by (symmetry; apply Z.leb_gt; lia).
    assert (Hp : 0 < 2 ^ (- (e + s))) by (apply Z.pow_pos_nonneg; lia).
    assert (Hps : 0 < 2 ^ s) by (apply Z.pow_pos_nonneg; lia).
    assert (Hsplit : 2 ^ (- e) = 2 ^ s * 2 ^ (- (e + s))).
    { rewrite <- Z.pow_add_r by lia. f_equal. lia. }
    rewrite Hsplit, <- Z.div_div by lia.
    set (q := m * 36 / 2 ^ s) in *.
    split.
    + apply Z.div_le_mono; lia.
    + apply Z.le_trans with ((q + 1) / 2 ^ (- (e + s))).
      * apply Z.div_le_mono; lia.
      * assert ((q + 1) / 2 ^ (- (e + s)) < q / 2 ^ (- (e + s)) + 2); [|lia].
        apply Z.div_lt_upper_bound; [lia|].
        pose proof (Z.div_mod q (2 ^ (- (e + s))) ltac:(lia)).
        pose proof (Z.mod_pos_bound q (2 ^ (- (e + s))) Hp). nia.
Qed.

Lemma generateSecureLoginCode_loop_run (n : nat) (result : string) (w : World) :
  generateSecureLoginCode_loop rt n result w
  = (Ok (code_from rt (drawn w) n result), drew n w).
Proof.
  revert result w. induction n as [|n IH]; intros result w.
  - unfold drew. cbn [generateSecureLoginCode_loop code_from Nat.add].
    unfold ret. now rewrite World_eta.
  - cbn [generateSecureLoginCode_loop code_from].
    unfold bind, Math_random_next. rewrite IH.
    unfold drew. cbn [db sent drawn created].
    now rewrite Nat.add_succ_r.
Qed.

Lemma generateSecureLoginCode_run (w : World) :
  generateSecureLoginCode rt w = (Ok (next_code rt w), drew 12 w).
Proof.
  unfold generateSecureLoginCode, next_code.
  now rewrite generateSecureLoginCode_loop_run.
Qed.

Lemma code_from_length (k n : nat) (result : string) :
  (forall i, unit_draw (Math_random rt i)) ->
  String.length (code_from rt k n result) = (String.length result + n)%nat.
Proof.
  intros Hr. revert k result.
  induction n as [|n IH]; intros k result; cbn [code_from].
  - lia.
  - rewrite IH, length_append.
    destruct (random_index_range _ (Hr k)) as (i & Hi & Hrange).
    destruct (charAt_in_range chars _ i Hi Hrange) as (c & Hc & _).
    rewrite Hc. simpl. lia.
Qed.

Lemma code_from_alphabet (k n : nat) (result : string) :
  (forall i, unit_draw (Math_random rt i)) ->
  in_alphabet result -> in_alphabet (code_from rt k n result).
Proof.
  intros Hr. revert k result.
  induction n as [|n IH]; intros k result Hres; cbn [code_from].
  - exact Hres.
  - apply IH. unfold in_alphabet. rewrite list_ascii_of_string_append.
    apply Forall_app. split; [exact Hres|].
    destruct (random_index_range _ (Hr k)) as (i & Hi & Hrange).
    destruct (charAt_in_range chars _ i Hi Hrange) as (c & Hc & Hin).
    rewrite Hc. simpl. constructor; [exact Hin | constructor].
Qed.

End Issuer.

Section Issue.

Variable rt : Runtime.


(** Whatever [signupLink.create] refuses leaves the world as it is. *)
Lemma signupLink_create_Throw (zid code : string) (expires : option Z)
  (limit : Number) (w w' : World) (e : exn) :
  signupLink_create rt zid code expires limit w = (Throw e, w') ->
  w' = w /\ instanceof_TRPCError e = false.
Proof.
  unfold signupLink_create.
  destruct (DateTime_column rt expires); [|now intros [= <- <-]].
  destruct (Int_column limit); [|now intros [= <- <-]].
  destruct (existsb _ _); [now intros [= <- <-] | discriminate].
Qed.



(** Whenever the procedure returns a link, the contact was fetched, the
    code was free, the expiry was a date the store takes, and the link is
    the row built around them. *)
Lemma generateSignupLink_Ok_inv (input : SignupLinkInput) (w w' : World)
  (link : SignupLink) :
  generateSignupLink rt input w = (Ok link, w') ->
  code_taken (db w) (next_code rt w) = false
  /\ requested_expiry rt input = Some (expires_at link)
  /\ stores_DateTime rt (expires_at link) = true
  /\ link = issued_link rt input w (expires_at link)
  /\ w' = issued input link w.
Proof.
  unfold generateSignupLink, try_catch, bind. rewrite getZohoContact_run.
  destruct (fetched rt (sent w) (GET_Contacts (gen_zoho_id input)))
    as [c|[code m|m]] eqn:Hc; cbn [contact_or_null]; cbv beta iota.
  2: { intros [=]. }
  2: { unfold throw, rethrow_or_internal. intros [=]. }
  rewrite generateSecureLoginCode_run.
  fold (requested_expiry rt input).
  unfold signupLink_create, DateTime_column.
  destruct (requested_expiry rt input) as [t|]; [|discriminate].
  destruct (stores_DateTime rt t) eqn:Hstore; [|discriminate].
  change (Int_column (Finite 1 0)) with (Some 1).
  cbn [db sent drawn created drew logged].
  change (next_code rt (logged (GET_Contacts (gen_zoho_id input)) w))
    with (next_code rt w).
  fold (code_taken (db w) (next_code rt w)).
  destruct (code_taken (db w) (next_code rt w)); [discriminate|].
  intros [= <- <-]. cbn [expires_at]. auto.
Qed.

End Issue.

Lemma chars_36 : String.length chars = 36%nat /\ NoDup (list_ascii_of_string chars).
Proof.
  split; [reflexivity|].
  apply (bool_decide_unpack _). vm_compute. reflexivity.
Qed.

(** *** Whole days *)







Lemma TimeClip_Some (t t' : Z) : TimeClip t = Some t' -> t' = t.
Proof. unfold TimeClip. destruct (_ <=? _); congruence. Qed.



(** ** The aggregated read *)

Section Aggregate.

Variable rt : Runtime.

Lemma searchZoho_run (endpoint : string -> Request) (q : string) (w : World) :
  searchZoho rt endpoint q w =
  if token_missing rt
  then (Throw (TRPCError INTERNAL_SERVER_ERROR "Zoho access token not configured"), w)
  else (match fetched rt (sent w) (endpoint q) with
        | Ok v => Ok v
        | Throw (TRPCError code m) => Throw (TRPCError code m)
        | Throw (JsError _) => Ok (JArr [])
        end, logged (endpoint q) w).
Proof.
  unfold searchZoho, try_catch.
  destruct (token_missing rt); [reflexivity|].
  rewrite bind_ret_l. rewrite adapter_call_run.
  destruct (fetched rt (sent w) (endpoint q)) as [v|[c m|m]]; reflexivity.
Qed.

(** A requested sub-fetch never throws: it yields what its request returned,
    and the empty collection when anything went wrong. *)
Lemma if_requested_run (flag : bool) (endpoint : string -> Request) (q : string)
  (w : World) :
  if_requested flag (searchZoho rt endpoint q) w =
  (Ok (collected rt flag (endpoint q) (sent w)),
   set_sent w (sent_after rt flag (endpoint q) (sent w))).
Proof.
  unfold if_requested, collected, sent_after, attempted, set_sent.
  destruct flag; simpl.
  - unfold best_effort, try_catch. rewrite searchZoho_run.
    destruct (token_missing rt); simpl; [now rewrite World_eta|].
    destruct (fetched rt (sent w) (endpoint q)) as [v|[c m|m]]; reflexivity.
  - unfold ret. now rewrite World_eta.
Qed.

Lemma best_effort_contact_run (id : string) (w : World) :
  best_effort None (getZohoContact rt id) w =
  (Ok (or_null (fetched rt (sent w) (GET_Contacts id))), logged (GET_Contacts id) w).
Proof.
  unfold best_effort, try_catch. rewrite getZohoContact_run.
  destruct (fetched rt (sent w) (GET_Contacts id)) as [v|[c m|m]]; reflexivity.
Qed.

(** A failed request leaves its category empty; a request that succeeds
    fills it, whatever happened to the others. *)
Lemma collected_failure (flag : bool) (rq : Request) (h : list Request) :
  remote_fails rt h rq -> collected rt flag rq h = JArr [].
Proof.
  intros [e He]. unfold collected. rewrite He. now destruct (attempted rt flag).
Qed.

Lemma collected_success (rq : Request) (h : list Request) (v : JSON) :
  token_missing rt = false ->
  fetched rt h rq = Ok v -> collected rt true rq h = v.
Proof.
  intros Ht Hv. unfold collected, attempted. now rewrite Ht, Hv.
Qed.

(** C8: once the contact id is resolved, [getCRMData] always succeeds, and
    writes nothing.  Each category of the aggregate is decided by its own
    sub-fetch alone: the contact is what the contact request returned, or
    [null] if that failed; each collection is what its own search returned,
    or the empty collection if the search failed (or was not requested, or
    could not be attempted); the sub-fetches after a failed one are still
    carried out. *)
Theorem getCRMData_best_effort (ctx : Ctx) (input : CRMDataInput) (w : World)
  (id : string) :
  resolved_contact (db w) ctx input = Some id ->
  let rq_so := GET_Sales_Orders_search (criteria "Contact_Name" id) in
  let rq_ds := GET_Deals_search (criteria "Contact_Name" id) in
  let rq_ts := GET_Tasks_search (criteria "Who_Id" id) in
  let rq_ns := GET_Notes_search (criteria "Parent_Id" id) in
  let h0 := sent w in
  let h1 := (h0 ++ [GET_Contacts id])%list in
  let h2 := sent_after rt (includeSalesOrders input) rq_so h1 in
  let h3 := sent_after rt (includeDeals input) rq_ds h2 in
  let h4 := sent_after rt (includeTasks input) rq_ts h3 in
  let h5 := sent_after rt (includeNotes input) rq_ns h4 in
  getCRMData rt ctx input w =
  (Ok (Some {| contact := or_null (fetched rt h0 (GET_Contacts id));
               salesOrders := collected rt (includeSalesOrders input) rq_so h1;
               deals := collected rt (includeDeals input) rq_ds h2;
               tasks := collected rt (includeTasks input) rq_ts h3;
               notes := collected rt (includeNotes input) rq_ns h4 |}),
   set_sent w h5)
  /\ (forall flag rq h, remote_fails rt h rq -> collected rt flag rq h = JArr [])
  /\ (remote_fails rt h0 (GET_Contacts id) ->
      or_null (fetched rt h0 (GET_Contacts id)) = None).
Proof.
  intros Hid. cbv zeta. split; [|split].
  - unfold getCRMData.
    erewrite try_catch_run; [reflexivity|].
    assert (Hres :
      (if truthy_str (crm_zohoContactId input)
       then ret (Some (crm_zohoContactId input))
       else bind (zohoAccountLink_findUnique (session_user_id ctx))
              (fun zohoLink => ret (linked_zohoUserId zohoLink))) w
      = (Ok (Some id), w)).
    { unfold resolved_contact in Hid.
      destruct (truthy_str (crm_zohoContactId input)); [now rewrite <- Hid|].
      unfold zohoAccountLink_findUnique, bind, get_db, ret. now rewrite Hid. }
    erewrite bind_run by exact Hres. cbv beta iota.
    erewrite bind_run by apply best_effort_contact_run.
    unfold searchZohoSalesOrders, searchZohoDeals, searchZohoTasks, searchZohoNotes.
    erewrite bind_run by apply if_requested_run.
    erewrite bind_run by apply if_requested_run.
    erewrite bind_run by apply if_requested_run.
    erewrite bind_run by apply if_requested_run.
    reflexivity.
  - intros flag rq h. apply collected_failure.
  - intros [e He]. now rewrite He.
Qed.

End Aggregate.

(** ** Registration *)

Section Registration.

Import Register.

Variable env : Env.

(** The parsed email is the one of the body. *)
Lemma safeParse_email (b : JSON) (data : RegistrationData) :
  safeParse env b = Some data -> get "email" b = Some (JStr (reg_email data)).
Proof.
  unfold safeParse. intros H.
  destruct (get "email" b) as [[| | |e| |]|]; try discriminate.
  destruct (get "password" b) as [[| | |p| |]|]; try discriminate.
  destruct (is_email env e && (8 <=? Z.of_nat (String.length p))); [|discriminate].
  destruct (get "name" b) as [[| | |n| |]|]; try discriminate;
    injection H as <-; reflexivity.
Qed.

(** The handler either leaves the table alone or appends one row. *)
Lemma POST_cases (body : option JSON) (users : list UserRow) :
  snd (POST env body users) = users
  \/ exists b data,
       body = Some b
       /\ safeParse env b = Some data
       /\ user_findUnique (reg_email data) users = None
       /\ POST env body users =
            ({| http_status := 200;
                payload := UserPayload (new_id env (length users)) (reg_email data)
                             (reg_name data) |},
             (users ++ [ {| id := new_id env (length users);
                            email := reg_email data;
                            password := hash env (reg_password data) 12;
                            name := reg_name data |} ])%list).
Proof.
  unfold POST. destruct body as [b|]; [|now left].
  destruct (safeParse env b) as [data|] eqn:Hparse; [|now left].
  destruct (user_findUnique (reg_email data) users) as [u|] eqn:Hfind; [now left|].
  right. exists b, data. auto.
Qed.

(** C10: a registration request whose email belongs to an existing user is
    answered with status 400 and creates no row: with ["User already
    exists"] when the input passes validation, and with ["Invalid input"]
    (also a 400) when it does not.  A row is created only when the input
    passes validation and its email is not in use, and then it is the one
    row appended to the table. *)
Theorem register_existing_user (users : list UserRow) :
  (forall b data u,
      safeParse env b = Some data ->
      user_findUnique (reg_email data) users = Some u ->
      POST env (Some b) users =
        ({| http_status := 400; payload := ErrorPayload "User already exists" |},
         users))
  /\ (forall b e u,
        get "email" b = Some (JStr e) ->
        user_findUnique e users = Some u ->
        http_status (fst (POST env (Some b) users)) = 400
        /\ snd (POST env (Some b) users) = users)
  /\ (forall body resp users',
        POST env body users = (resp, users') ->
        users' <> users ->
        exists b data,
          body = Some b
          /\ safeParse env b = Some data
          /\ user_findUnique (reg_email data) users = None
          /\ http_status resp = 200
          /\ users' = (users ++ [ {| id := new_id env (length users);
                                     email := reg_email data;
                                     password := hash env (reg_password data) 12;
                                     name := reg_name data |} ])%list).
Proof.
  split; [|split].
  - intros b data u Hparse Hfind. unfold POST. now rewrite Hparse, Hfind.
  - intros b e u He Hfind. unfold POST.
    destruct (safeParse env b) as [data|] eqn:Hparse; [|auto].
    apply safeParse_email in Hparse. rewrite He in Hparse.
    injection Hparse as ->. now rewrite Hfind.
  - intros body resp users' Hrun Hne.
    destruct (POST_cases body users) as [Hsame | (b & data & Hb & Hparse & Hfind & Hpost)].
    + rewrite Hrun in Hsame. simpl in Hsame. contradiction.
    + rewrite Hpost in Hrun. injection Hrun as <- <-.
      exists b, data. auto.
Qed.

End Registration.

(** * The properties at concrete inputs *)

Lemma steady_runtime_accepts : remote_accepts steady_runtime.
Proof.
  intros h rq. exists contact_zc_1, "zc_1". repeat split. discriminate.
Qed.

Lemma no_links_wf (cs : CheckoutSession) : links_wf (db (world_of cs ∅)).
Proof. intros u l H. simpl in H. rewrite lookup_empty in H. discriminate. Qed.

Example split_words : split " " "Ada King Lovelace" = ["Ada"; "King"; "Lovelace"].
Proof. reflexivity. Qed.

Example split_empty : split " " "" = [""].
Proof. reflexivity. Qed.

Example slice_last : slice_from ["Ada"; "King"; "Lovelace"] (-1) = ["Lovelace"].
Proof. reflexivity. Qed.

Example slice_init : slice ["Ada"; "King"; "Lovelace"] 0 (-1) = ["Ada"; "King"].
Proof. reflexivity. Qed.

Example slice_single : slice ["Ada"] 0 (-1) = [].
Proof. reflexivity. Qed.

Example charAt_first : charAt chars (Finite 0 0) = "A".
Proof. reflexivity. Qed.

Example charAt_last : charAt chars (Finite 35 0) = "9".
Proof. reflexivity. Qed.

Example charAt_out_of_range : charAt chars (Finite 36 0) = "".
Proof. reflexivity. Qed.

Example charAt_Infinity : charAt chars (Infinity false) = "".
Proof. reflexivity. Qed.

Example random_index_half : random_index (Finite 1 (-1)) = Finite 18 0.
Proof. reflexivity. Qed.

(** The draw [3127499741229511 / 2^52] lies below [25/36], but its product
    with 36 rounds to 25: it selects ["Z"], the symbol number 25. *)
Example random_index_rounds_up :
  let r := Finite 3127499741229511 (-52) in
  3127499741229511 * 36 < 25 * 2 ^ 52
  /\ Number_times r 36 = Finite 7036874417766400 (-48)
  /\ random_index r = Finite 25 0
  /\ charAt chars (random_index r) = "Z".
Proof. vm_compute. repeat split. Qed.

(** The largest draw below 1 selects the last symbol. *)
Example random_index_largest_draw :
  random_index (Finite (2 ^ 53 - 1) (-53)) = Finite 35 0.
Proof. vm_compute. reflexivity. Qed.

(** The products agree with the binary64 multiplication of the Standard
    Library's specification of floating-point numbers. *)
Example Number_times_SFmul :
  Forall (fun r => spec_of (Number_times r 36)
                   = spec_of (Number_of (SFmul 53 1024 (spec_of r)
                                           (spec_of (Finite 36 0)))))
    [Finite 3127499741229511 (-52); Finite (2 ^ 53 - 1) (-53);
     Finite 1 (-1); Finite 1 (-1074); Finite 6004799503160661 (-54);
     Finite 0 0; Finite 250199979298361 (-53)].
Proof. repeat constructor. Qed.

(** So do the sums of a day of the month and a number of days. *)
Example Number_plus_SFadd :
  Forall (fun x => spec_of (Number_plus 15 x)
                   = spec_of (Number_of (SFadd 53 1024 (spec_of (Finite 15 0))
                                           (spec_of x))))
    [Finite (2 ^ 53 - 1) (-53); Finite 7 0; Finite 1 (-1); Finite (-31) (-1);
     Finite 1 (-1074); Finite (2 ^ 53 - 1) 10; Finite (- (2 ^ 53 - 1)) (-49)].
Proof. repeat constructor. Qed.

Example setDate_month_end :
  Date_setDate steady_runtime 2592000000 (Finite 38 0) = Some (37 * msPerDay)
  /\ Date_getDate steady_runtime 2592000000 = 31
  /\ Date_getDate steady_runtime (37 * msPerDay) = 7.
Proof. vm_compute. repeat split. Qed.

Example DateFromTime_leap_day : DateFromTime 1709164800000 = 29.
Proof. reflexivity. Qed.

Example handle_500_structured :
  handleZohoApiResponse steady_runtime
    {| status := 500; statusText := "Internal Server Error";
       body := Some (JObj [("code", JStr "INTERNAL_ERROR");
                           ("message", JStr "try again later");
                           ("status", JStr "error")]) |}
  = Throw (UpstreamError "try again later").
Proof. reflexivity. Qed.

Example handle_502_html :
  handleZohoApiResponse steady_runtime
    {| status := 502; statusText := "Bad Gateway"; body := None |}
  = Throw (UpstreamError "Bad Gateway").
Proof. reflexivity. Qed.

Example handle_200_null :
  handleZohoApiResponse steady_runtime
    {| status := 200; statusText := "OK"; body := Some JNull |}
  = Throw InvalidResponse.
Proof. reflexivity. Qed.

Example handle_200_string :
  handleZohoApiResponse steady_runtime
    {| status := 200; statusText := "OK"; body := Some (JStr "done") |}
  = Throw InvalidResponse.
Proof. reflexivity. Qed.

Example handle_200_object :
  handleZohoApiResponse steady_runtime
    {| status := 200; statusText := "OK"; body := Some contact_zc_1 |}
  = Ok contact_zc_1.
Proof. reflexivity. Qed.

(** What the lookups make of the escaped parse error: no contact, no rows. *)
Example getZohoContact_unparsable_2xx (rt : Runtime) (id : string) (w : World) :
  fetch rt (sent w) (GET_Contacts id) = Resolve html_200 ->
  getZohoContact rt id w = (Ok None, logged (GET_Contacts id) w).
Proof.
  intros H. rewrite getZohoContact_run. unfold fetched. now rewrite H.
Qed.

Example make_contactData_names :
  match cd_data (make_contactData (session_1 "created" (Some acme) signed) acme user_1) with
  | [f] => First_Name f = "Ada King" /\ Last_Name f = "Lovelace"
           /\ Mailing_Country f = "US"
  | _ => False
  end.
Proof. vm_compute. auto. Qed.

(** An unpaid session of the caller: the sales order is refused. *)
Lemma createSalesOrder_unpaid_witness :
  exists e w',
    createSalesOrder steady_runtime ctx_1 order_cs_1 world_unpaid = (Throw e, w')
    /\ PreconditionFailed e
    /\ e = TRPCError BAD_REQUEST "Payment must be confirmed before creating sales order"
    /\ w' = world_unpaid
    /\ (forall so,
          salesOrder (db w') !! "cs_1" = Some so ->
          zohoSalesOrderId so <> None ->
          salesOrder (db world_unpaid) !! "cs_1" = Some so).
Proof.
  apply (createSalesOrder_unpaid steady_runtime ctx_1 order_cs_1 world_unpaid
           (session_1 "created" (Some acme) signed)); reflexivity.
Defined.


(** A first sync that creates the contact, and a second one, eight days
    later, that updates it. *)
Lemma createOrUpdateContact_twice_witness :
  exists c1 w1 c2 w2,
    createOrUpdateContact steady_runtime ctx_1 contact_cs_1 world_paid = (Ok c1, w1)
    /\ createOrUpdateContact late_runtime ctx_1 contact_cs_1 w1 = (Ok c2, w2)
    /\ isUpdate c1 = false
    /\ isUpdate c2 = true
    /\ zohoContactId c2 = zohoContactId c1
    /\ sent w2 = [POST_Contacts contact_data_1; PUT_Contacts "zc_1" contact_data_1]
    /\ size (zohoAccountLink (db w2)) = 1%nat.
Proof.
  destruct (createOrUpdateContact_twice steady_runtime late_runtime ctx_1
              contact_cs_1 world_paid
              (session_1 "payment_completed" (Some acme) signed) acme user_1)
    as (c1 & w1 & c2 & w2 & H1 & H2 & Hfirst & Hlinks & Hid1 & Hupd & Hid2
        & Hsent & Hlook & Hid3 & Hdom & Hsize).
  - repeat split. intros _. exists {| ag_status := "completed" |}. auto.
  - apply no_links_wf.
  - exact steady_runtime_accepts.
  - exact steady_runtime_accepts.
  - exists c1, w1, c2, w2.
    change (zohoAccountLink (db world_paid) !! principal ctx_1 contact_cs_1)
      with (@None ZohoAccountLink) in Hfirst.
    destruct Hfirst as [Hupd1 Hsent1].
    assert (Hc1 : zohoContactId c1 = "zc_1").
    { pose proof H1 as H. vm_compute in H. now injection H as <- _. }
    repeat split; try assumption.
    + rewrite Hsent, Hsent1, Hc1. reflexivity.
    + rewrite Hsize, Hlinks. reflexivity.
Defined.

Lemma pair_eta {A B} (p : A * B) : p = (fst p, snd p).
Proof. now destruct p. Qed.

(** Both advances against a remote service that is down. *)
Lemma remote_failure_leaves_status_witness :
  let contact := createOrUpdateContact offline_runtime ctx_1 contact_cs_1 world_paid in
  let order := createSalesOrder offline_runtime ctx_1 order_cs_1 world_contact_created in
  (sent (snd contact) = [POST_Contacts contact_data_1]
   /\ (exists e, fst contact = Throw e)
   /\ db (snd contact) = db world_paid)
  /\ (sent (snd order) = [POST_Sales_Orders order_data_1]
      /\ (exists e, fst order = Throw e)
      /\ db (snd order) = db world_contact_created).
Proof.
  intros contact order.
  destruct (remote_failure_leaves_status offline_runtime ctx_1) as [Hcontact Horder].
  split.
  - assert (Hsent : sent (snd contact) = (sent world_paid ++ [POST_Contacts contact_data_1])%list)
      by reflexivity.
    destruct (Hcontact contact_cs_1 world_paid (snd contact) (fst contact)
                (POST_Contacts contact_data_1) (pair_eta contact) Hsent)
      as (He & Hdb & _).
    + exists (JsError "fetch failed"). reflexivity.
    + auto.
  - assert (Hsent : sent (snd order)
                    = (sent world_contact_created ++ [POST_Sales_Orders order_data_1])%list)
      by reflexivity.
    destruct (Horder order_cs_1 world_contact_created (snd order) (fst order)
                (POST_Sales_Orders order_data_1) (pair_eta order) Hsent)
      as (He & Hdb & _).
    + exists (JsError "fetch failed"). reflexivity.
    + auto.
Defined.

(** [link_0] presented after its expiry, and a used-up link presented in
    time. *)
Lemma validateSignupLink_expired_or_exhausted_witness :
  (validateSignupLink late_runtime present_zc_1 world_with_link_0 =
     (Throw Expired, set_signupLink world_with_link_0 [deactivate late_runtime link_0])
   /\ is_active (deactivate late_runtime link_0) = false)
  /\ validateSignupLink steady_runtime present_zc_1 world_with_link_used =
       (Throw LimitExceeded, world_with_link_used).
Proof.
  split.
  - destruct (validateSignupLink_expired_or_exhausted late_runtime present_zc_1
                world_with_link_0 link_0 eq_refl) as [Hexpired _].
    destruct (Hexpired ltac:(reflexivity)) as (Hrun & _ & Hoff & _).
    split; [exact Hrun | exact Hoff].
  - destruct (validateSignupLink_expired_or_exhausted steady_runtime present_zc_1
                world_with_link_used link_used eq_refl) as [_ Hlimit].
    apply Hlimit; vm_compute; discriminate.
Defined.

Lemma steady_contact_available : contact_available steady_runtime "zc_1".
Proof. intros h. exists contact_zc_1. reflexivity. Qed.

(** [link_0] presented twice in time. *)
Lemma validateSignupLink_keeps_usage_count_witness :
  exists c1 w1 c2 w2,
    validateSignupLink steady_runtime present_zc_1 world_with_link_0 =
      (Ok {| vr_signupLink := link_0; vr_contact := c1 |}, w1)
    /\ db w1 = db world_with_link_0
    /\ found_link (db w1) present_zc_1 = Some link_0
    /\ validateSignupLink steady_runtime present_zc_1 w1 =
         (Ok {| vr_signupLink := link_0; vr_contact := c2 |}, w2)
    /\ db w2 = db world_with_link_0.
Proof.
  apply (validateSignupLink_keeps_usage_count steady_runtime present_zc_1
           world_with_link_0 link_0).
  - reflexivity.
  - vm_compute. discriminate.
  - reflexivity.
  - exact steady_contact_available.
Defined.

Lemma steady_random_unit (i : nat) : unit_draw (Math_random steady_runtime i).
Proof. vm_compute. repeat split; try reflexivity; intros [=]. Qed.


(** Two of the five sub-fetches fail; the other three fill their
    categories. *)
Lemma getCRMData_best_effort_witness :
  exists w',
    getCRMData flaky_runtime ctx_1 everything_of_zc_1 initial_world =
      (Ok (Some {| contact := Some contact_zc_1;
                   salesOrders := JArr [];
                   deals := JArr [];
                   tasks := JArr [JObj [("id", JStr "t_1")]];
                   notes := JArr [JObj [("id", JStr "t_1")]] |}), w')
    /\ db w' = db initial_world
    /\ length (sent w') = 5%nat.
Proof.
  destruct (getCRMData_best_effort flaky_runtime ctx_1 everything_of_zc_1
              initial_world "zc_1" eq_refl) as (Hrun & _ & _).
  eexists. split; [exact Hrun|]. split; reflexivity.
Defined.

(** Ada registers a second time. *)
Lemma register_existing_user_witness :
  Register.POST plain_env (Some register_ada_again) [ada] =
    ({| Register.http_status := 400;
        Register.payload := Register.ErrorPayload "User already exists" |}, [ada]).
Proof.
  apply (proj1 (register_existing_user plain_env [ada]) register_ada_again
           {| Register.reg_email := "ada@example.org";
              Register.reg_password := "analytical";
              Register.reg_name := None |} ada); reflexivity.
Defined.

(** * Further properties of the adapter and the router *)

(** ** The response handler, completely *)

(** X1: [handleZohoApiResponse] returns a value exactly when the response
    is 2xx and its body parses to a non-null object or array, and the value
    is that parsed body: nothing else ever reaches a caller as data. *)
Theorem handleZohoApiResponse_returns_iff (rt : Runtime) (r : Response)
  (data : JSON) :
  handleZohoApiResponse rt r = Ok data
  <-> ok r = true /\ body r = Some data
      /\ truthy data = true /\ typeof_object data = true.
Proof.
  split.
  - apply handleZohoApiResponse_Ok_inv.
  - intros (Hok & Hb & Ht & Hty).
    apply handleZohoApiResponse_object; [exact Hok | exact Hb |].
    now rewrite Ht, Hty.
Qed.

(** X2: the outcomes of [handleZohoApiResponse] are four: the parsed body;
    an [UpstreamError] on a non-2xx response, whose message is the transport
    status text whenever the body is not a structured error; [InvalidResponse]
    on a 2xx body that parsed; or the parser's own error on a 2xx body that
    did not parse. *)
Theorem handleZohoApiResponse_outcomes (rt : Runtime) (r : Response) :
  (exists data, handleZohoApiResponse rt r = Ok data /\ ok r = true)
  \/ (exists m,
        handleZohoApiResponse rt r = Throw (UpstreamError m)
        /\ ok r = false
        /\ (match body r with
            | Some errorData => isZohoErrorResponse errorData = false
            | None => True
            end -> m = statusText r))
  \/ (handleZohoApiResponse rt r = Throw InvalidResponse
      /\ ok r = true /\ exists data, body r = Some data)
  \/ (handleZohoApiResponse rt r = Throw json_SyntaxError
      /\ ok r = true /\ body r = None).
Proof.
  destruct (ok r) eqn:Hok.
  - destruct (body r) as [data|] eqn:Hb.
    + destruct (truthy data && typeof_object data) eqn:Hd.
      * left. exists data. split; [|reflexivity].
        now apply handleZohoApiResponse_object.
      * right; right; left. split; [|eauto].
        now apply (handleZohoApiResponse_not_object rt r data).
    + right; right; right. split; [|auto].
      unfold handleZohoApiResponse, response_json. now rewrite Hok, Hb.
  - right; left.
    destruct (handleZohoApiResponse_not_ok rt r Hok) as [m Hm].
    exists m. split; [exact Hm|]. split; [reflexivity|].
    intros Hbody.
    rewrite (handleZohoApiResponse_error_statusText rt r Hok Hbody) in Hm.
    unfold UpstreamError in Hm. cbv [String.append] in Hm. congruence.
Qed.

(** ** Read-style lookups *)

Lemma searchZohoContacts_run (rt : Runtime) (q : string) (w : World) :
  searchZohoContacts rt q w =
  (match fetched rt (sent w) (Email_equals q) with
   | Ok v => Ok v
   | Throw (TRPCError code m) => Throw (TRPCError code m)
   | Throw (JsError _) => Ok (JArr [])
   end, logged (Email_equals q) w).
Proof.
  unfold searchZohoContacts, try_catch. rewrite adapter_call_run.
  fold (Email_equals q).
  destruct (fetched rt (sent w) (Email_equals q)) as [v|[c m|m]]; reflexivity.
Qed.

Lemma fetched_Reject (rt : Runtime) (h : list Request) (rq : Request) (msg : string) :
  fetch rt h rq = Reject msg -> fetched rt h rq = Throw (JsError msg).
Proof. intros H. unfold fetched. now rewrite H. Qed.

(** X3: the read-style lookups ([getZohoContact], the entity searches,
    [searchZohoContacts]) never write the database; what they throw is always
    an [INTERNAL_SERVER_ERROR] of the response handler (or the missing-token
    error), never a raw error; and when the network fails they degrade, to
    [null] for the contact and to the empty list for a search. *)
Theorem lookups_degrade (rt : Runtime) (w : World) :
  (forall id res w',
      getZohoContact rt id w = (res, w') ->
      db w' = db w
      /\ (forall e, res = Throw e -> exists m, e = TRPCError INTERNAL_SERVER_ERROR m)
      /\ (forall msg, fetch rt (sent w) (GET_Contacts id) = Reject msg ->
                      res = Ok None))
  /\ (forall endpoint q res w',
        searchZoho rt endpoint q w = (res, w') ->
        db w' = db w
        /\ (forall e, res = Throw e -> exists m, e = TRPCError INTERNAL_SERVER_ERROR m)
        /\ (forall msg, token_missing rt = false ->
                        fetch rt (sent w) (endpoint q) = Reject msg ->
                        res = Ok (JArr [])))
  /\ (forall q res w',
        searchZohoContacts rt q w = (res, w') ->
        db w' = db w
        /\ (forall e, res = Throw e -> exists m, e = TRPCError INTERNAL_SERVER_ERROR m)
        /\ (forall msg,
              fetch rt (sent w) (GET_Contacts_search ("(Email:equals:" ++ q ++ ")"))
              = Reject msg ->
              res = Ok (JArr []))).
Proof.
  split; [|split].
  - intros id res w'. rewrite getZohoContact_run. intros [= <- <-].
    split; [reflexivity|]. split.
    + intros e.
      destruct (fetched rt (sent w) (GET_Contacts id)) as [v|[c m|m]] eqn:Hf;
        simpl; try discriminate.
      intros [= <-]. apply fetched_Throw_code in Hf. subst c. eauto.
    + intros msg Hrej. now rewrite (fetched_Reject _ _ _ _ Hrej).
  - intros endpoint q res w'. rewrite searchZoho_run.
    destruct (token_missing rt).
    + intros [= <- <-]. split; [reflexivity|]. split.
      * intros e [= <-]. eauto.
      * discriminate.
    + intros [= <- <-]. split; [reflexivity|]. split.
      * intros e.
        destruct (fetched rt (sent w) (endpoint q)) as [v|[c m|m]] eqn:Hf;
          try discriminate.
        intros [= <-]. apply fetched_Throw_code in Hf. subst c. eauto.
      * intros msg _ Hrej. now rewrite (fetched_Reject _ _ _ _ Hrej).
  - intros q res w'. rewrite searchZohoContacts_run. intros [= <- <-].
    split; [reflexivity|]. split.
    + intros e.
      destruct (fetched rt (sent w) (Email_equals q)) as [v|[c m|m]] eqn:Hf;
        try discriminate.
      intros [= <-]. apply fetched_Throw_code in Hf. subst c. eauto.
    + intros msg Hrej. fold (Email_equals q) in Hrej.
      now rewrite (fetched_Reject _ _ _ _ Hrej).
Qed.

(** The lookups against a service that is down, and against one that
    answers 503. *)
Lemma lookups_degrade_witness :
  fst (getZohoContact offline_runtime "zc_1" initial_world) = Ok None
  /\ fst (searchZohoDeals offline_runtime "(Contact_Name:equals:zc_1)" initial_world)
     = Ok (JArr [])
  /\ exists m,
       fst (searchZohoContacts failing_runtime "ada@example.org" initial_world)
       = Throw (TRPCError INTERNAL_SERVER_ERROR m).
Proof.
  destruct (lookups_degrade offline_runtime initial_world) as (Hc & Hs & _).
  destruct (lookups_degrade failing_runtime initial_world) as (_ & _ & Hq).
  split; [|split].
  - destruct (Hc "zc_1" _ _ (pair_eta _)) as (_ & _ & H).
    exact (H "fetch failed" eq_refl).
  - destruct (Hs GET_Deals_search "(Contact_Name:equals:zc_1)" _ _ (pair_eta _))
      as (_ & _ & H).
    exact (H "fetch failed" eq_refl eq_refl).
  - destruct (Hq "ada@example.org" _ _ (pair_eta _)) as (_ & H & _).
    assert (Hrun : fst (searchZohoContacts failing_runtime "ada@example.org"
                          initial_world) = Throw (UpstreamError "maintenance"))
      by reflexivity.
    destruct (H _ Hrun) as [m Hm]. exists m. now rewrite Hrun, Hm.
Defined.

(** X4: without an access token the entity searches throw before anything
    is sent; [getCRMData] then sends the contact request only and returns
    every collection empty. *)
Theorem searches_need_token (rt : Runtime) (ctx : Ctx) (input : CRMDataInput)
  (w : World) (id : string) :
  token_missing rt = true ->
  resolved_contact (db w) ctx input = Some id ->
  (forall endpoint q,
      searchZoho rt endpoint q w =
      (Throw (TRPCError INTERNAL_SERVER_ERROR "Zoho access token not configured"), w))
  /\ getCRMData rt ctx input w =
       (Ok (Some {| contact := or_null (fetched rt (sent w) (GET_Contacts id));
                    salesOrders := JArr []; deals := JArr [];
                    tasks := JArr []; notes := JArr [] |}),
        logged (GET_Contacts id) w).
Proof.
  intros Htok Hid. split.
  - intros endpoint q. rewrite searchZoho_run. now rewrite Htok.
  - unfold getCRMData.
    erewrite try_catch_run; [reflexivity|].
    assert (Hres :
      (if truthy_str (crm_zohoContactId input)
       then ret (Some (crm_zohoContactId input))
       else bind (zohoAccountLink_findUnique (session_user_id ctx))
              (fun zohoLink => ret (linked_zohoUserId zohoLink))) w
      = (Ok (Some id), w)).
    { unfold resolved_contact in Hid.
      destruct (truthy_str (crm_zohoContactId input)); [now rewrite <- Hid|].
      unfold zohoAccountLink_findUnique, bind, get_db, ret. now rewrite Hid. }
    erewrite bind_run by exact Hres. cbv beta iota.
    erewrite bind_run by apply best_effort_contact_run.
    unfold searchZohoSalesOrders, searchZohoDeals, searchZohoTasks, searchZohoNotes.
    do 4 (erewrite bind_run by apply if_requested_run).
    unfold collected, sent_after, attempted. rewrite Htok.
    rewrite !andb_false_r. unfold set_sent, ret. reflexivity.
Qed.

Lemma searches_need_token_witness :
  getCRMData tokenless_runtime ctx_1 everything_of_zc_1 initial_world =
    (Ok (Some {| contact := Some contact_zc_1;
                 salesOrders := JArr []; deals := JArr [];
                 tasks := JArr []; notes := JArr [] |}),
     logged (GET_Contacts "zc_1") initial_world).
Proof.
  apply (searches_need_token tokenless_runtime ctx_1 everything_of_zc_1
           initial_world "zc_1"); reflexivity.
Defined.

(** X5: [getCRMData] never throws and never writes the database, whatever
    the remote service does; when the input names no contact and the user has
    no link with a remote id, it answers [data: null] without sending
    anything. *)
Theorem getCRMData_never_throws (rt : Runtime) (ctx : Ctx) (input : CRMDataInput)
  (w : World) :
  exists r w',
    getCRMData rt ctx input w = (Ok r, w')
    /\ db w' = db w
    /\ (resolved_contact (db w) ctx input = None -> r = None /\ w' = w)
    /\ (r = None -> resolved_contact (db w) ctx input = None).
Proof.
  assert (Hres :
    (if truthy_str (crm_zohoContactId input)
     then ret (Some (crm_zohoContactId input))
     else bind (zohoAccountLink_findUnique (session_user_id ctx))
            (fun zohoLink => ret (linked_zohoUserId zohoLink))) w
    = (Ok (resolved_contact (db w) ctx input), w)).
  { unfold resolved_contact.
    destruct (truthy_str (crm_zohoContactId input)); reflexivity. }
  destruct (resolved_contact (db w) ctx input) as [id|] eqn:Hid.
  - do 2 eexists. split.
    + unfold getCRMData. erewrite try_catch_run; [reflexivity|].
      erewrite bind_run by exact Hres. cbv beta iota.
      erewrite bind_run by apply best_effort_contact_run.
      unfold searchZohoSalesOrders, searchZohoDeals, searchZohoTasks, searchZohoNotes.
      do 4 (erewrite bind_run by apply if_requested_run).
      reflexivity.
    + split; [reflexivity|]. split; discriminate.
  - exists None, w. split.
    + unfold getCRMData. erewrite try_catch_run; [reflexivity|].
      erewrite bind_run by exact Hres. reflexivity.
    + auto.
Qed.

Lemma getCRMData_never_throws_witness :
  getCRMData offline_runtime ctx_1 nothing_of_nobody initial_world
  = (Ok None, initial_world).
Proof.
  destruct (getCRMData_never_throws offline_runtime ctx_1 nothing_of_nobody
              initial_world) as (r & w' & Hrun & _ & Hnone & _).
  destruct (Hnone eq_refl) as [-> ->]. exact Hrun.
Defined.

(** ** Login codes *)

Lemma get_lookup (s : string) (n : nat) :
  String.get n s = list_ascii_of_string s !! n.
Proof.
  revert n. induction s as [|a s IH]; intros [|n]; simpl; auto.
Qed.

Lemma charAt_chars_inj (i j : Z) :
  0 <= i < 36 -> 0 <= j < 36 ->
  charAt chars (Finite i 0) = charAt chars (Finite j 0) -> i = j.
Proof.
  intros Hi Hj. unfold charAt, ToIntegerOrInfinity.
  change (0 <=? 0) with true. cbv iota. rewrite !Z.pow_0_r, !Z.mul_1_r.
  replace (i <? 0) with false by (symmetry; apply Z.ltb_ge; lia).
  replace (j <? 0) with false by (symmetry; apply Z.ltb_ge; lia).
  destruct (get_in_range chars (Z.to_nat i)) as (a & Ha & _);
    [change (String.length chars) with 36%nat; lia|].
  destruct (get_in_range chars (Z.to_nat j)) as (b & Hb & _);
    [change (String.length chars) with 36%nat; lia|].
  rewrite Ha, Hb. intros [= <-].
  rewrite get_lookup in Ha, Hb.
  pose proof (NoDup_lookup _ _ _ _ (proj2 chars_36) Ha Hb) as H. lia.
Qed.

Lemma charAt_position (s : string) (pos : Number) (k : Z) :
  ToIntegerOrInfinity pos = Some k -> charAt s pos = charAt s (Finite k 0).
Proof.
  intros H. unfold charAt. rewrite H. unfold ToIntegerOrInfinity.
  change (0 <=? 0) with true. cbv iota. now rewrite Z.pow_0_r, Z.mul_1_r.
Qed.

(** X6: the position [generateSecureLoginCode] computes for a draw
    [m * 2^e] of [0, 1) is always one of the 36 positions of the alphabet,
    and so selects a symbol, a different one for every position.  It is the
    integer part of the exact product of the draw and 36, or one above it:
    the product is rounded to a Number first, and the rounding can reach the
    next integer but never falls below the integer part.  When the product
    has at most 53 bits nothing is rounded and the position is the exact
    integer part. *)
Theorem login_code_symbol_of_draw (m e : Z) :
  unit_draw (Finite m e) ->
  exists k,
    ToIntegerOrInfinity (random_index (Finite m e)) = Some k
    /\ 0 <= k < 36
    /\ (exists c, charAt chars (random_index (Finite m e)) = String c ""
                  /\ In c (list_ascii_of_string chars))
    /\ (forall j, 0 <= j < 36 ->
                  charAt chars (random_index (Finite m e)) = charAt chars (Finite j 0) ->
                  j = k)
    /\ floor_at (m * 36) e <= k <= floor_at (m * 36) e + 1
    /\ (m * 36 < 2 ^ 53 -> k = floor_at (m * 36) e).
Proof.
  intros Hr.
  destruct (random_index_range _ Hr) as (k & Hk & Hrange).
  destruct (random_index_near_floor m e Hr) as (k' & Hk' & Hnear & Hexact).
  assert (k' = k) as -> by congruence.
  exists k. split; [exact Hk|]. split; [exact Hrange|].
  split; [now apply (charAt_in_range chars _ k)|].
  split; [|split; assumption].
  intros j Hj. rewrite (charAt_position _ _ k Hk). intros H.
  symmetry. now apply charAt_chars_inj.
Qed.

(** The draw [3127499741229511 / 2^52]: the integer part of the exact
    product is 24, the position is 25. *)
Lemma login_code_symbol_of_draw_witness :
  exists k,
    ToIntegerOrInfinity (random_index (Finite 3127499741229511 (-52))) = Some k
    /\ k = 25
    /\ floor_at (3127499741229511 * 36) (-52) = 24.
Proof.
  destruct (login_code_symbol_of_draw 3127499741229511 (-52))
    as (k & Hk & _ & _ & _ & Hnear & _).
  - vm_compute. repeat split; try reflexivity; intros [=].
  - exists k. split; [exact Hk|]. split; [|reflexivity].
    vm_compute in Hk. congruence.
Defined.

(** ** [createSignupLink] *)

(** An [Int] column takes the whole numbers of 32 bits, and nothing else. *)
Lemma Int_column_Some (x : Number) (n : Z) :
  Int_column x = Some n <-> whole x n /\ - 2 ^ 31 <= n < 2 ^ 31.
Proof.
  destruct x as [m e|s]; [|split; [discriminate | intros [[] _]]].
  unfold Int_column, whole. destruct (0 <=? e) eqn:E; cbn [orb].
  - destruct (- 2 ^ 31 <=? m * 2 ^ e) eqn:E1; cbn [andb].
    + destruct (m * 2 ^ e <? 2 ^ 31) eqn:E2.
      * apply Z.leb_le in E1. apply Z.ltb_lt in E2.
        split; [intros [= <-]; lia | intros [-> _]; reflexivity].
      * apply Z.ltb_ge in E2. split; [discriminate | intros [-> H]; lia].
    + apply Z.leb_gt in E1. split; [discriminate | intros [-> H]; lia].
  - apply Z.leb_gt in E.
    assert (Hp : 0 < 2 ^ (- e)) by (apply Z.pow_pos_nonneg; lia).
    destruct (m mod 2 ^ (- e) =? 0) eqn:Em.
    + apply Z.eqb_eq in Em.
      pose proof (Z.div_mod m (2 ^ (- e)) ltac:(lia)) as Hdm.
      rewrite Em, Z.add_0_r in Hdm.
      assert (Hn : forall k, m = k * 2 ^ (- e) -> k = m / 2 ^ (- e)).
      { intros k ->. now rewrite Z.div_mul by lia. }
      destruct (- 2 ^ 31 <=? m / 2 ^ (- e)) eqn:E1; cbn [andb].
      * destruct (m / 2 ^ (- e) <? 2 ^ 31) eqn:E2.
        -- apply Z.leb_le in E1. apply Z.ltb_lt in E2.
           split; [intros [= <-]; split; lia
                  | intros [H _]; f_equal; symmetry; now apply Hn].
        -- apply Z.ltb_ge in E2.
           split; [discriminate | intros [H Hr]; apply Hn in H; lia].
      * apply Z.leb_gt in E1.
        split; [discriminate | intros [H Hr]; apply Hn in H; lia].
    + apply Z.eqb_neq in Em. split; [discriminate|].
      intros [-> _]. now rewrite Z.mod_mul in Em by lia.
Qed.

Lemma createSignupLink_run (rt : Runtime) (input : CreateSignupLinkInput) (w : World) :
  createSignupLink rt input w =
  match DateTime_column rt (TimeClip (now rt + 604800000)),
        Int_column (requested_limit input) with
  | Some t, Some n =>
      if code_taken (db w) (next_code rt w)
      then (Throw (TRPCError INTERNAL_SERVER_ERROR "Failed to create signup link"),
            drew 12 w)
      else
        let row := {| sl_id := cuid rt (created w);
                      zoho_id := new_zoho_id input;
                      login_code := next_code rt w;
                      expires_at := t;
                      usage_limit := n;
                      usage_count := 0;
                      is_active := true;
                      created_at := CURRENT_TIMESTAMP rt;
                      updated_at := updatedAt rt |} in
        (Ok row, created_link row w)
  | _, _ =>
      (Throw (TRPCError INTERNAL_SERVER_ERROR "Failed to create signup link"),
       drew 12 w)
  end.
Proof.
  unfold createSignupLink, try_catch, bind.
  rewrite generateSecureLoginCode_run.
  unfold signupLink_create. cbn [db sent drawn created drew].
  fold (code_taken (db w) (next_code rt w)). fold (requested_limit input).
  change (7 * 24 * 60 * 60 * 1000) with 604800000.
  destruct (DateTime_column rt (TimeClip (now rt + 604800000))); [|reflexivity].
  destruct (Int_column (requested_limit input)); [|reflexivity].
  destruct (code_taken (db w) (next_code rt w)); reflexivity.
Qed.

Lemma DateTime_column_Some (rt : Runtime) (d : option Z) (t : Z) :
  DateTime_column rt d = Some t <-> d = Some t /\ stores_DateTime rt t = true.
Proof.
  unfold DateTime_column. destruct d as [t0|]; [|split; [discriminate | now intros [? _]]].
  destruct (stores_DateTime rt t0) eqn:E.
  - split; [intros [= <-]; auto | now intros [[= <-] _]].
  - split; [discriminate | intros [[= <-] H]; congruence].
Qed.

(** X7: [createSignupLink] never contacts the remote service (it does not
    check that the contact exists).  Every link it creates expires exactly
    seven days (604 800 000 ms) after the issuance time, carries the usage
    limit of the input, or 1 when none is given, which is a whole number of
    32 bits, has usage count 0, is active, and has a 12-character code of the
    alphabet that no stored link carried.  The call fails and stores nothing
    when the generated code is already stored, and when the usage limit is
    not a whole number of 32 bits; it creates a link when the code is free,
    the limit is such a number and the expiry is a date the store takes. *)
Theorem createSignupLink_issues (rt : Runtime) (input : CreateSignupLinkInput)
  (w : World) :
  (forall i, unit_draw (Math_random rt i)) ->
  sent (snd (createSignupLink rt input w)) = sent w
  /\ (forall link w',
        createSignupLink rt input w = (Ok link, w') ->
        expires_at link = now rt + 604800000
        /\ whole (requested_limit input) (usage_limit link)
        /\ - 2 ^ 31 <= usage_limit link < 2 ^ 31
        /\ usage_count link = 0
        /\ is_active link = true
        /\ zoho_id link = new_zoho_id input
        /\ String.length (login_code link) = 12%nat
        /\ in_alphabet (login_code link)
        /\ code_taken (db w) (login_code link) = false
        /\ signupLink (db w') = (signupLink (db w) ++ [link])%list)
  /\ (code_taken (db w) (next_code rt w) = true
      \/ (forall n, whole (requested_limit input) n -> n < - 2 ^ 31 \/ 2 ^ 31 <= n) ->
      exists w',
        createSignupLink rt input w =
          (Throw (TRPCError INTERNAL_SERVER_ERROR "Failed to create signup link"), w')
        /\ db w' = db w)
  /\ (forall n,
        code_taken (db w) (next_code rt w) = false ->
        whole (requested_limit input) n -> - 2 ^ 31 <= n < 2 ^ 31 ->
        Z.abs (now rt + 604800000) <= 8640000000000000 ->
        stores_DateTime rt (now rt + 604800000) = true ->
        createSignupLink rt input w =
          (Ok (created_row rt input w n), created_link (created_row rt input w n) w)).
Proof.
  intros Hr. rewrite createSignupLink_run.
  split; [|split; [|split]].
  - destruct (DateTime_column rt _); [|reflexivity].
    destruct (Int_column _); [|reflexivity].
    destruct (code_taken _ _); reflexivity.
  - intros link w'.
    destruct (DateTime_column rt _) as [t|] eqn:Ht; [|discriminate].
    destruct (Int_column _) as [n|] eqn:Hn; [|discriminate].
    destruct (code_taken (db w) (next_code rt w)) eqn:Htaken; [discriminate|].
    intros [= <- <-].
    cbn [login_code zoho_id expires_at usage_limit usage_count is_active].
    apply DateTime_column_Some in Ht as [Ht _]. apply TimeClip_Some in Ht.
    apply Int_column_Some in Hn as [Hwhole Hrange].
    split; [exact Ht|]. split; [exact Hwhole|]. split; [exact Hrange|].
    repeat (split; [reflexivity|]).
    split; [unfold next_code; now rewrite code_from_length|].
    split; [unfold next_code; apply code_from_alphabet; [exact Hr | constructor]|].
    split; [exact Htaken | reflexivity].
  - intros Hfail. exists (drew 12 w). split; [|reflexivity].
    destruct (DateTime_column rt _); [|reflexivity].
    destruct (Int_column _) as [n|] eqn:Hn; [|reflexivity].
    destruct Hfail as [-> | Hnone]; [reflexivity|].
    apply Int_column_Some in Hn as [Hwhole Hrange].
    apply Hnone in Hwhole. lia.
  - intros n Hfree Hwhole Hrange Hclip Hstore.
    replace (DateTime_column rt _) with (Some (now rt + 604800000)).
    + replace (Int_column _) with (Some n)
        by (symmetry; now apply Int_column_Some).
      rewrite Hfree. reflexivity.
    + symmetry. apply DateTime_column_Some. split; [|exact Hstore].
      unfold TimeClip. now apply Z.leb_le in Hclip as ->.
Qed.

Lemma createSignupLink_issues_witness :
  (exists link w',
      createSignupLink steady_runtime create_for_zc_1 initial_world = (Ok link, w')
      /\ expires_at link = 1000 + 604800000
      /\ usage_limit link = 3
      /\ sent w' = [])
  /\ (exists w',
        createSignupLink steady_runtime create_for_zc_1 world_with_link_0 =
          (Throw (TRPCError INTERNAL_SERVER_ERROR "Failed to create signup link"), w')
        /\ db w' = db world_with_link_0)
  /\ (exists w',
        createSignupLink steady_runtime create_too_many initial_world =
          (Throw (TRPCError INTERNAL_SERVER_ERROR "Failed to create signup link"), w')
        /\ db w' = db initial_world)
  /\ (exists w',
        createSignupLink steady_runtime create_fraction initial_world =
          (Throw (TRPCError INTERNAL_SERVER_ERROR "Failed to create signup link"), w')
        /\ db w' = db initial_world).
Proof.
  destruct (createSignupLink_issues steady_runtime create_for_zc_1 initial_world
              steady_random_unit) as (Hsent & _ & _ & Hfree).
  destruct (createSignupLink_issues steady_runtime create_for_zc_1 world_with_link_0
              steady_random_unit) as (_ & _ & Htaken & _).
  destruct (createSignupLink_issues steady_runtime create_too_many initial_world
              steady_random_unit) as (_ & _ & Hmany & _).
  destruct (createSignupLink_issues steady_runtime create_fraction initial_world
              steady_random_unit) as (_ & _ & Hfraction & _).
  split; [|split; [|split]].
  - pose proof (Hfree 3 eq_refl eq_refl
                  ltac:(vm_compute; split; [intros [=] | reflexivity])
                  ltac:(vm_compute; intros [=]) eq_refl) as Hrun.
    do 2 eexists. split; [exact Hrun|]. split; [reflexivity|]. split; [reflexivity|].
    rewrite Hrun in Hsent. exact Hsent.
  - exact (Htaken (or_introl eq_refl)).
  - apply Hmany. right. intros n Hn. right.
    change (n = 1 * 2 ^ 31) in Hn. lia.
  - apply Hfraction. right. intros n Hn.
    change (3 = n * 2 ^ 1) in Hn. lia.
Defined.

(** ** Issuing, then validating *)

Lemma find_snoc {A} (f : A -> bool) (l : list A) (r : A) :
  (forall x, In x l -> f x = false) -> f r = true ->
  List.find f (l ++ [r]) = Some r.
Proof.
  intros Hl Hr. induction l as [|a l IH]; simpl.
  - now rewrite Hr.
  - rewrite (Hl a (or_introl eq_refl)). apply IH.
    intros x Hx. apply Hl. now right.
Qed.

Lemma code_free_In (d : Db) (code : string) (l : SignupLink) :
  code_taken d code = false -> In l (signupLink d) -> login_code l <> code.
Proof.
  unfold code_taken. intros Hfree Hin Heq.
  assert (existsb (fun l0 => String.eqb (login_code l0) code) (signupLink d) = true).
  { apply existsb_exists. exists l. split; [exact Hin|]. now apply String.eqb_eq. }
  congruence.
Qed.

(** A row appended under a free code is the one its remote id and code
    find. *)
Lemma found_link_appended (d : Db) (row : SignupLink) :
  code_taken d (login_code row) = false ->
  found_link (with_signupLink d (signupLink d ++ [row]))
    {| val_zoho_id := zoho_id row; val_login_code := login_code row |}
  = Some row.
Proof.
  intros Hfree. unfold found_link. cbn [signupLink with_signupLink val_zoho_id val_login_code].
  apply find_snoc.
  - intros x Hx. apply andb_false_iff. right. apply String.eqb_neq.
    now apply (code_free_In d).
  - now rewrite !String.eqb_refl.
Qed.

(** X8: a link that [generateSignupLink] or [createSignupLink] has just
    issued is found again by its remote id and code: presented before its
    expiry, with the remote contact available (and, for [createSignupLink],
    a usage limit of at least 1), [validateSignupLink] succeeds, returns
    that very link and writes nothing. *)
Theorem issue_then_validate (rt rt' : Runtime) (w w1 : World) (link : SignupLink) :
  now rt' <= expires_at link ->
  contact_available rt' (zoho_id link) ->
  (forall input,
      generateSignupLink rt input w = (Ok link, w1) ->
      exists c w2,
        validateSignupLink rt'
          {| val_zoho_id := gen_zoho_id input; val_login_code := login_code link |} w1
        = (Ok {| vr_signupLink := link; vr_contact := c |}, w2)
        /\ db w2 = db w1)
  /\ (forall input,
        createSignupLink rt input w = (Ok link, w1) ->
        0 < usage_limit link ->
        exists c w2,
          validateSignupLink rt'
            {| val_zoho_id := new_zoho_id input; val_login_code := login_code link |} w1
          = (Ok {| vr_signupLink := link; vr_contact := c |}, w2)
          /\ db w2 = db w1).
Proof.
  intros Hnow Hav. split.
  - intros input Hrun.
    apply generateSignupLink_Ok_inv in Hrun as (Hfree & _ & _ & Hlink & ->).
    destruct (Hav (sent (issued input link w))) as [c Hc].
    exists c, (logged (GET_Contacts (zoho_id link)) (issued input link w)).
    split; [|reflexivity].
    apply validateSignupLink_valid; try assumption.
    + replace (gen_zoho_id input) with (zoho_id link) by (now rewrite Hlink).
      apply found_link_appended. now rewrite Hlink.
    + rewrite Hlink. simpl. lia.
  - intros input Hrun Hlim. rewrite createSignupLink_run in Hrun.
    destruct (DateTime_column rt _) as [t|]; [|discriminate].
    destruct (Int_column _) as [n|]; [|discriminate].
    destruct (code_taken (db w) (next_code rt w)) eqn:Hfree; [discriminate|].
    cbv zeta in Hrun. injection Hrun as Hlink Hw. rewrite Hlink in Hw. subst w1.
    destruct (Hav (sent (created_link link w))) as [c Hc].
    exists c, (logged (GET_Contacts (zoho_id link)) (created_link link w)).
    split; [|reflexivity].
    apply validateSignupLink_valid; try assumption.
    + replace (new_zoho_id input) with (zoho_id link) by (now subst link).
      apply found_link_appended. now subst link.
    + subst link. exact Hlim.
Qed.

Lemma issue_then_validate_witness :
  exists c w2,
    validateSignupLink steady_runtime present_zc_1
      (issued issue_zc_1 link_0 initial_world)
    = (Ok {| vr_signupLink := link_0; vr_contact := c |}, w2)
    /\ db w2 = db (issued issue_zc_1 link_0 initial_world).
Proof.
  destruct (issue_then_validate steady_runtime steady_runtime initial_world
              (issued issue_zc_1 link_0 initial_world) link_0) as [Hgen _].
  - vm_compute. discriminate.
  - exact steady_contact_available.
  - apply (Hgen issue_zc_1). vm_compute. reflexivity.
Defined.

(** ** What validation touches *)

Lemma deactivated_columns (rt : Runtime) (id : string) (links : list SignupLink) :
  List.map columns (deactivated rt id links) = List.map columns links.
Proof.
  unfold deactivated. rewrite List.map_map. apply List.map_ext.
  intros l. now destruct (String.eqb (sl_id l) id).
Qed.

(** A second update of the same row stamps it again and changes nothing
    else. *)
Lemma deactivated_again (rt rt' : Runtime) (id : string) (links : list SignupLink) :
  deactivated rt' id (deactivated rt id links) = deactivated rt' id links.
Proof.
  unfold deactivated. rewrite List.map_map. apply List.map_ext.
  intros l. destruct (String.eqb (sl_id l) id) eqn:E; simpl; now rewrite E.
Qed.

Lemma deactivated_flags (rt rt' : Runtime) (id : string) (links : list SignupLink) :
  List.map is_active (deactivated rt' id links)
  = List.map is_active (deactivated rt id links).
Proof.
  unfold deactivated. rewrite !List.map_map. apply List.map_ext.
  intros l. now destruct (String.eqb (sl_id l) id).
Qed.

Lemma deactivated_same_stamp (rt rt' : Runtime) (id : string)
  (links : list SignupLink) :
  updatedAt rt' = updatedAt rt -> deactivated rt' id links = deactivated rt id links.
Proof.
  intros H. unfold deactivated. apply List.map_ext.
  intros l. destruct (String.eqb (sl_id l) id); [|reflexivity].
  unfold deactivate. now rewrite H.
Qed.

Lemma deactivated_rows (rt : Runtime) (id : string) (links : list SignupLink) :
  Forall2 (fun l l' => l' = l \/ (sl_id l = id /\ l' = deactivate rt l))
    links (deactivated rt id links).
Proof.
  induction links as [|l links IH]; simpl; constructor; [|exact IH].
  destruct (String.eqb (sl_id l) id) eqn:E; [|now left].
  right. split; [now apply String.eqb_eq | reflexivity].
Qed.

Lemma found_link_deactivated (rt : Runtime) (d : Db) (input : ValidateInput)
  (l : SignupLink) :
  found_link d input = Some l ->
  found_link (with_signupLink d (deactivated rt (sl_id l) (signupLink d))) input
  = Some (deactivate rt l).
Proof.
  unfold found_link. cbn [signupLink with_signupLink].
  induction (signupLink d) as [|a links IH]; simpl; [discriminate|].
  destruct (String.eqb (zoho_id a) (val_zoho_id input)
            && String.eqb (login_code a) (val_login_code input)) eqn:Ha.
  - intros [= ->]. rewrite String.eqb_refl. simpl. now rewrite Ha.
  - intros Hfind.
    destruct (String.eqb (sl_id a) (sl_id l)); simpl; rewrite Ha; now apply IH.
Qed.

(** The worlds a validation can end in. *)
Lemma validateSignupLink_worlds (rt : Runtime) (input : ValidateInput) (w : World) :
  snd (validateSignupLink rt input w) = w
  \/ (exists l, found_link (db w) input = Some l
                /\ expires_at l < now rt
                /\ snd (validateSignupLink rt input w)
                   = set_signupLink w (deactivated rt (sl_id l) (signupLink (db w))))
  \/ (exists l, found_link (db w) input = Some l
                /\ snd (validateSignupLink rt input w)
                   = logged (GET_Contacts (zoho_id l)) w).
Proof.
  unfold validateSignupLink, try_catch.
  erewrite bind_run by apply signupLink_findFirst_run.
  destruct (found_link (db w) input) as [l|] eqn:Hfound; [|now left].
  pose proof (found_link_In _ _ _ Hfound) as Hin.
  destruct (expires_at l <? now rt) eqn:Hexp.
  { right; left. exists l. split; [reflexivity|].
    split; [now apply Z.ltb_lt|].
    erewrite bind_run by (now apply signupLink_update_inactive_run).
    reflexivity. }
  destruct (usage_count l >=? usage_limit l); [now left|].
  right; right. exists l. split; [reflexivity|].
  unfold bind. rewrite getZohoContact_run.
  destruct (fetched rt (sent w) (GET_Contacts (zoho_id l))) as [c|[code m|m]];
    reflexivity.
Qed.

(** X9: whatever its outcome, [validateSignupLink] changes nothing in the
    database but rows of the signup links, and of those only the rows with
    the id of the link it has found, and only when that link is expired: such
    a row gets [is_active] false and the time of the update in [updated_at],
    and keeps every other column (the usage count included).  The other
    tables and the number of links are as before. *)
Theorem validateSignupLink_frame (rt : Runtime) (input : ValidateInput) (w : World) :
  let w' := snd (validateSignupLink rt input w) in
  checkoutSession (db w') = checkoutSession (db w)
  /\ zohoAccountLink (db w') = zohoAccountLink (db w)
  /\ salesOrder (db w') = salesOrder (db w)
  /\ List.map columns (signupLink (db w')) = List.map columns (signupLink (db w))
  /\ Forall2 (fun l l' =>
                l' = l
                \/ (exists found,
                      found_link (db w) input = Some found
                      /\ expires_at found < now rt
                      /\ sl_id l = sl_id found
                      /\ columns l' = columns l
                      /\ is_active l' = false
                      /\ updated_at l' = updatedAt rt))
       (signupLink (db w)) (signupLink (db w')).
Proof.
  cbv zeta.
  assert (Hsame : forall P : SignupLink -> SignupLink -> Prop,
             Forall2 (fun l l' => l' = l \/ P l l')
               (signupLink (db w)) (signupLink (db w))).
  { intros P. induction (signupLink (db w)); constructor; auto. }
  destruct (validateSignupLink_worlds rt input w)
    as [-> | [(l & Hfound & Hexp & ->) | (l & _ & ->)]]; simpl; auto.
  repeat split; [apply deactivated_columns|].
  eapply Forall2_impl; [apply deactivated_rows|].
  intros a a' [-> | [Hid ->]]; [now left|].
  right. exists l. repeat split; assumption.
Qed.

(** X10: a code opens only the remote id it was issued for.  When no stored
    link carries both the remote id and the code of the input (in
    particular when the code belongs to another remote id),
    [validateSignupLink] fails with [NotFound], sends nothing and writes
    nothing. *)
Theorem validateSignupLink_unknown (rt : Runtime) (input : ValidateInput) (w : World) :
  (forall l, In l (signupLink (db w)) ->
             login_code l = val_login_code input ->
             zoho_id l <> val_zoho_id input) ->
  validateSignupLink rt input w =
  (Throw (TRPCError NOT_FOUND "Signup link not found"), w).
Proof.
  intros Hnone. unfold validateSignupLink. apply rethrow_TRPCError.
  erewrite bind_run by apply signupLink_findFirst_run.
  destruct (found_link (db w) input) as [l|] eqn:Hfound; [|reflexivity].
  exfalso. destruct (found_link_matches _ _ _ Hfound) as [Hz Hc].
  exact (Hnone l (found_link_In _ _ _ Hfound) Hc Hz).
Qed.

Lemma validateSignupLink_unknown_witness :
  validateSignupLink steady_runtime present_zc_2 world_with_link_0 =
  (Throw (TRPCError NOT_FOUND "Signup link not found"), world_with_link_0).
Proof.
  apply (validateSignupLink_unknown steady_runtime present_zc_2 world_with_link_0).
  intros l [<- | []] _. discriminate.
Defined.

(** X11: [validateSignupLink] does not consult [is_active]: a link that has
    been deactivated, but is not expired and is below its usage limit, is
    still accepted (and returned with its flag off). *)
Theorem validateSignupLink_inactive_accepted (rt : Runtime) (input : ValidateInput)
  (w : World) (l : SignupLink) (c : JSON) :
  found_link (db w) input = Some l ->
  is_active l = false ->
  now rt <= expires_at l ->
  usage_count l < usage_limit l ->
  fetched rt (sent w) (GET_Contacts (zoho_id l)) = Ok c ->
  exists r w',
    validateSignupLink rt input w = (Ok r, w')
    /\ is_active (vr_signupLink r) = false
    /\ vr_signupLink r = l
    /\ db w' = db w.
Proof.
  intros Hfound Hoff Hnow Hlim Hc.
  exists {| vr_signupLink := l; vr_contact := c |}, (logged (GET_Contacts (zoho_id l)) w).
  split; [now apply validateSignupLink_valid|]. auto.
Qed.

Lemma validateSignupLink_inactive_accepted_witness :
  exists r w',
    validateSignupLink steady_runtime present_zc_1 world_with_link_off = (Ok r, w')
    /\ is_active (vr_signupLink r) = false
    /\ vr_signupLink r = deactivate steady_runtime link_0
    /\ db w' = db world_with_link_off.
Proof.
  apply (validateSignupLink_inactive_accepted steady_runtime present_zc_1
           world_with_link_off (deactivate steady_runtime link_0) contact_zc_1);
    try reflexivity.
  vm_compute. discriminate.
Defined.

(** X12: presenting an expired link again changes nothing more than the
    time of the update: both calls fail with [Expired]; the second one
    updates the row once more, which leaves every column but [updated_at] of
    every link as the first call left it, and the whole world as it was when
    it stamps the same time. *)
Theorem validateSignupLink_expired_twice (rt rt' : Runtime) (input : ValidateInput)
  (w : World) (l : SignupLink) :
  found_link (db w) input = Some l ->
  expires_at l < now rt ->
  expires_at l < now rt' ->
  exists w1 w2,
    validateSignupLink rt input w = (Throw Expired, w1)
    /\ validateSignupLink rt' input w1 = (Throw Expired, w2)
    /\ w2 = set_signupLink w1 (deactivated rt' (sl_id l) (signupLink (db w)))
    /\ List.map columns (signupLink (db w2)) = List.map columns (signupLink (db w1))
    /\ List.map is_active (signupLink (db w2)) = List.map is_active (signupLink (db w1))
    /\ (updatedAt rt' = updatedAt rt -> w2 = w1).
Proof.
  intros Hfound Hexp Hexp'.
  assert (Hrun : forall rt0 w0 l0,
             found_link (db w0) input = Some l0 -> expires_at l0 < now rt0 ->
             validateSignupLink rt0 input w0 =
             (Throw Expired,
              set_signupLink w0 (deactivated rt0 (sl_id l0) (signupLink (db w0))))).
  { intros rt0 w0 l0 Hf He. unfold validateSignupLink. apply rethrow_TRPCError.
    erewrite bind_run by apply signupLink_findFirst_run.
    rewrite Hf. apply Z.ltb_lt in He. rewrite He.
    erewrite bind_run
      by (apply signupLink_update_inactive_run; eapply found_link_In; eassumption).
    reflexivity. }
  do 2 eexists. split; [apply (Hrun rt w l Hfound Hexp)|].
  split.
  { apply (Hrun rt' _ (deactivate rt l)).
    - simpl. now apply found_link_deactivated.
    - exact Hexp'. }
  cbn [set_signupLink db signupLink with_signupLink sl_id deactivate].
  rewrite deactivated_again.
  split; [reflexivity|].
  split; [now rewrite !deactivated_columns|].
  split; [apply deactivated_flags|].
  intros Hstamp. now rewrite (deactivated_same_stamp rt rt').
Qed.

(** [link_0] presented eight days after its issue, and again. *)
Lemma validateSignupLink_expired_twice_witness :
  exists w1 w2,
    validateSignupLink late_runtime present_zc_1 world_with_link_0 = (Throw Expired, w1)
    /\ validateSignupLink late_runtime present_zc_1 w1 = (Throw Expired, w2)
    /\ w2 = w1.
Proof.
  destruct (validateSignupLink_expired_twice late_runtime late_runtime present_zc_1
              world_with_link_0 link_0 eq_refl eq_refl eq_refl)
    as (w1 & w2 & H1 & H2 & _ & _ & _ & Hsame).
  exists w1, w2. split; [exact H1|]. split; [exact H2|]. now apply Hsame.
Defined.

(** ** An unreachable remote service *)

(** X13: when the contact request fails below the handler (the network is
    down, or a 2xx body does not parse), [validateSignupLink] and
    [generateSignupLink] report it as [NOT_FOUND] "Zoho contact not found",
    as if the contact did not exist; an error of the response handler (a
    non-2xx answer) is passed on unchanged.  In both cases nothing is
    written, and [generateSignupLink] has not drawn a code. *)
Theorem unreachable_is_not_found (rt : Runtime) (w : World) :
  (forall input l o,
      found_link (db w) input = Some l ->
      now rt <= expires_at l ->
      usage_count l < usage_limit l ->
      fetched rt (sent w) (GET_Contacts (zoho_id l)) = Throw o ->
      validateSignupLink rt input w =
      (Throw (match o with
              | TRPCError _ _ => o
              | JsError _ => TRPCError NOT_FOUND "Zoho contact not found"
              end), logged (GET_Contacts (zoho_id l)) w))
  /\ (forall input o,
        fetched rt (sent w) (GET_Contacts (gen_zoho_id input)) = Throw o ->
        generateSignupLink rt input w =
        (Throw (match o with
                | TRPCError _ _ => o
                | JsError _ => TRPCError NOT_FOUND "Zoho contact not found"
                end), logged (GET_Contacts (gen_zoho_id input)) w)).
Proof.
  split.
  - intros input l o Hfound Hnow Hlim Hf.
    unfold validateSignupLink, try_catch.
    erewrite bind_run by apply signupLink_findFirst_run.
    rewrite Hfound.
    replace (expires_at l <? now rt) with false by (symmetry; apply Z.ltb_ge; lia).
    replace (usage_count l >=? usage_limit l) with false
      by (symmetry; rewrite Z.geb_leb; apply Z.leb_gt; lia).
    unfold bind. rewrite getZohoContact_run, Hf.
    destruct o as [c m|m]; reflexivity.
  - intros input o Hf. unfold generateSignupLink, try_catch, bind.
    rewrite getZohoContact_run, Hf.
    destruct o as [c m|m]; reflexivity.
Qed.

Lemma unreachable_is_not_found_witness :
  validateSignupLink offline_runtime present_zc_1 world_with_link_0 =
    (Throw (TRPCError NOT_FOUND "Zoho contact not found"),
     logged (GET_Contacts "zc_1") world_with_link_0)
  /\ generateSignupLink offline_runtime issue_zc_1 initial_world =
       (Throw (TRPCError NOT_FOUND "Zoho contact not found"),
        logged (GET_Contacts "zc_1") initial_world)
  /\ generateSignupLink failing_runtime issue_zc_1 initial_world =
       (Throw (UpstreamError "maintenance"),
        logged (GET_Contacts "zc_1") initial_world).
Proof.
  destruct (unreachable_is_not_found offline_runtime world_with_link_0) as [Hv _].
  destruct (unreachable_is_not_found offline_runtime initial_world) as [_ Hg].
  destruct (unreachable_is_not_found failing_runtime initial_world) as [_ Hg'].
  split; [|split].
  - apply (Hv present_zc_1 link_0 (JsError "fetch failed")); try reflexivity.
    vm_compute. discriminate.
  - apply (Hg issue_zc_1 (JsError "fetch failed")). reflexivity.
  - apply (Hg' issue_zc_1 (UpstreamError "maintenance")). reflexivity.
Defined.

(** ** What the procedures throw *)

Lemma rethrow_or_internal_TRPCError {A} (m : M A) (message : string)
  (w w' : World) (e : exn) :
  try_catch m (rethrow_or_internal message) w = (Throw e, w') ->
  instanceof_TRPCError e = true.
Proof.
  unfold try_catch. destruct (m w) as [[a|[c s|s]] w0]; simpl;
    intros [= <- _] || discriminate; reflexivity.
Qed.

(** X14: the procedures that end in the "always throw TRPCError" catch
    clause throw nothing but [TRPCError]s, whatever goes wrong inside;
    [getContactInfo] and [searchContacts] are the opposite: whatever goes
    wrong, a [TRPCError] included, leaves them as a plain [Error] with one
    fixed message. *)
Theorem thrown_errors (rt : Runtime) (ctx : Ctx) (w : World) (e : exn) :
  ((exists input, fst (createOrUpdateContact rt ctx input w) = Throw e)
   \/ (exists input, fst (createSalesOrder rt ctx input w) = Throw e)
   \/ (exists input, fst (createContactAndSalesOrder ctx input w) = Throw e)
   \/ (exists input, fst (generateSignupLink rt input w) = Throw e)
   \/ (exists input, fst (createSignupLink rt input w) = Throw e)
   \/ (exists input, fst (validateSignupLink rt input w) = Throw e)
   \/ (exists input, fst (getCRMData rt ctx input w) = Throw e) ->
   instanceof_TRPCError e = true)
  /\ ((exists userId, fst (getContactInfo rt ctx userId w) = Throw e) ->
      e = JsError "Failed to fetch Zoho contact info")
  /\ ((exists input, fst (searchContacts rt input w) = Throw e) ->
      e = JsError "Failed to search Zoho contacts").
Proof.
  assert (Hfst : forall A (m : M A) message,
             fst (try_catch m (rethrow_or_internal message) w) = Throw e ->
             instanceof_TRPCError e = true).
  { intros A m message H.
    apply (rethrow_or_internal_TRPCError m message w
             (snd (try_catch m (rethrow_or_internal message) w))).
    rewrite <- H. apply pair_eta. }
  split; [|split].
  - intros [[input H]|[[input H]|[[input H]|[[input H]|[[input H]|[[input H]|[input H]]]]]]].
    + unfold createOrUpdateContact, try_catch in H.
      destruct (createOrUpdateContact_body rt ctx input w) as [[a|[c s|s]] w0];
        simpl in H; try discriminate; injection H as <-; reflexivity.
    + now apply Hfst in H.
    + now apply Hfst in H.
    + now apply Hfst in H.
    + now apply Hfst in H.
    + now apply Hfst in H.
    + unfold getCRMData, try_catch in H.
      match type of H with
      | fst (match ?b with _ => _ end) = _ => destruct b as [[a|e0] w0]
      end; simpl in H; try discriminate. injection H as <-. reflexivity.
  - intros [userId H]. unfold getContactInfo, try_catch in H.
    match type of H with
    | fst (match ?b with _ => _ end) = _ => destruct b as [[a|e0] w0]
    end; simpl in H; try discriminate. now injection H as <-.
  - intros [input H]. unfold searchContacts, try_catch in H.
    match type of H with
    | fst (match ?b with _ => _ end) = _ => destruct b as [[a|e0] w0]
    end; simpl in H; try discriminate. now injection H as <-.
Qed.

Lemma thrown_errors_witness :
  (exists e,
      fst (createOrUpdateContact offline_runtime ctx_1 contact_cs_1 world_paid)
      = Throw e
      /\ instanceof_TRPCError e = true)
  /\ fst (getContactInfo failing_runtime ctx_1 None world_contact_created)
     = Throw (JsError "Failed to fetch Zoho contact info").
Proof.
  split.
  - assert (Hrun : fst (createOrUpdateContact offline_runtime ctx_1 contact_cs_1
                          world_paid)
                   = Throw (TRPCError INTERNAL_SERVER_ERROR "fetch failed"))
      by (vm_compute; reflexivity).
    eexists. split; [exact Hrun|].
    apply (proj1 (thrown_errors offline_runtime ctx_1 world_paid _)).
    left. exists contact_cs_1. exact Hrun.
  - assert (Hthrows : exists e,
               fst (getContactInfo failing_runtime ctx_1 None world_contact_created)
               = Throw e) by (eexists; vm_compute; reflexivity).
    destruct Hthrows as [e He]. rewrite He. f_equal.
    apply (proj1 (proj2 (thrown_errors failing_runtime ctx_1 world_contact_created
                           e))).
    exists None. exact He.
Defined.

(** ** The sales order advance *)

(** What a successful [createSalesOrder] has done. *)
Lemma createSalesOrder_Ok_inv (rt : Runtime) (ctx : Ctx) (input : SalesOrderInput)
  (w w1 : World) (r : SalesOrderResult) :
  createSalesOrder rt ctx input w = (Ok r, w1) ->
  exists cs contactId zid,
    checkoutSession (db w) !! so_in_checkoutSessionId input = Some cs
    /\ cs_userId cs = session_user_id ctx
    /\ linked_zohoUserId (zohoAccountLink (db w) !! session_user_id ctx)
       = Some contactId
    /\ sent w1 =
       (sent w ++ [POST_Sales_Orders
                     (make_salesOrderData cs contactId
                        (orderAmount_of (db w) (so_in_checkoutSessionId input)))])%list
    /\ res_zohoSalesOrderId r = JStr zid
    /\ zid <> ""
    /\ res_zohoContactId r = contactId
    /\ checkoutSession (db w1) =
       <[so_in_checkoutSessionId input := set_status "sales_order_created" cs]>
         (checkoutSession (db w))
    /\ salesOrder (db w1) =
       <[so_in_checkoutSessionId input :=
           synced_order (db w) (so_in_checkoutSessionId input) zid]>
         (salesOrder (db w))
    /\ zohoAccountLink (db w1) = zohoAccountLink (db w)
    /\ signupLink (db w1) = signupLink (db w).
Proof.
  intros Hrun.
  unfold createSalesOrder, createSalesOrder_body in Hrun.
  unfold rethrow_or_internal, zohoAccountLink_findUnique,
    checkoutSession_findFirst, salesOrder_findUnique, salesOrder_update,
    salesOrder_create, prisma_String,
    checkoutSession_update_status, put_db in Hrun.
  unfold_proc. simpl in Hrun.
  repeat first
    [ rewrite createZohoSalesOrder_run in Hrun; simpl in Hrun
    | reuse_eq Hrun
    | break_hyp Hrun ].
  all: try discriminate.
  all: injection Hrun as <- <-.
  all: unfold orderAmount_of, synced_order.
  all: repeat match goal with
         | E : (_ =? _)%string = true |- _ => apply String.eqb_eq in E
         | E : negb (truthy (JStr _)) = false |- _ =>
             simpl in E; rewrite negb_involutive in E;
             apply String.eqb_neq in E
         end.
  all: do 3 eexists; simpl.
  all: repeat match goal with
         | E : salesOrder _ !! _ = _ |- _ => rewrite E
         end.
  all: repeat split; eauto.
Qed.

(** X15: whenever [createSalesOrder] succeeds, the session was found for
    the caller and the caller had a link with a remote id; exactly one
    request was sent, a sales order for that remote contact whose totals are
    the locally stored amount, or zero when no [SalesOrder] row existed;
    afterwards the session is at ["sales_order_created"], the [SalesOrder]
    row of the session carries the remote id that was returned (a new row is
    in USD with amount zero), and the link and signup tables are as
    before. *)
Theorem createSalesOrder_success (rt : Runtime) (ctx : Ctx) (input : SalesOrderInput)
  (w w1 : World) (r : SalesOrderResult) :
  createSalesOrder rt ctx input w = (Ok r, w1) ->
  exists cs contactId zid,
    checkoutSession (db w) !! so_in_checkoutSessionId input = Some cs
    /\ cs_userId cs = session_user_id ctx
    /\ linked_zohoUserId (zohoAccountLink (db w) !! session_user_id ctx)
       = Some contactId
    /\ sent w1 =
       (sent w ++ [POST_Sales_Orders
                     (make_salesOrderData cs contactId
                        (orderAmount_of (db w) (so_in_checkoutSessionId input)))])%list
    /\ res_zohoSalesOrderId r = JStr zid
    /\ zid <> ""
    /\ res_zohoContactId r = contactId
    /\ checkoutSession (db w1) =
       <[so_in_checkoutSessionId input := set_status "sales_order_created" cs]>
         (checkoutSession (db w))
    /\ salesOrder (db w1) =
       <[so_in_checkoutSessionId input :=
           synced_order (db w) (so_in_checkoutSessionId input) zid]>
         (salesOrder (db w))
    /\ zohoAccountLink (db w1) = zohoAccountLink (db w)
    /\ signupLink (db w1) = signupLink (db w).
Proof. apply createSalesOrder_Ok_inv. Qed.


Lemma createSalesOrder_success_witness :
  exists r w1,
    createSalesOrder ordering_runtime ctx_1 order_cs_1 world_contact_created
    = (Ok r, w1)
    /\ res_zohoSalesOrderId r = JStr "so_1"
    /\ sent w1 = [POST_Sales_Orders order_data_1]
    /\ salesOrder (db w1) !! "cs_1" =
       Some {| so_checkoutSessionId := "cs_1"; zohoSalesOrderId := Some "so_1";
               amount := 0; currency := "USD" |}.
Proof.
  assert (Hrun : exists r w1,
             createSalesOrder ordering_runtime ctx_1 order_cs_1 world_contact_created
             = (Ok r, w1) /\ res_zohoSalesOrderId r = JStr "so_1")
    by (do 2 eexists; split; vm_compute; reflexivity).
  destruct Hrun as (r & w1 & Hrun & Hr).
  destruct (createSalesOrder_success _ _ _ _ _ _ Hrun)
    as (cs & contactId & zid & Hcs & _ & Hlink & Hsent & Hid & _ & _ & _ & Hso & _).
  exists r, w1. split; [exact Hrun|]. split; [exact Hr|].
  rewrite Hr in Hid. injection Hid as <-.
  change (checkoutSession (db world_contact_created) !! "cs_1")
    with (Some (session_1 "contact_created" (Some acme) signed)) in Hcs.
  injection Hcs as <-.
  change (linked_zohoUserId
            (zohoAccountLink (db world_contact_created) !! session_user_id ctx_1))
    with (Some "zc_1") in Hlink.
  injection Hlink as <-.
  split; [exact Hsent|].
  rewrite Hso. apply lookup_insert_eq.
Defined.

(** X16: a sales order is not created twice while a gate is on.  After a
    successful [createSalesOrder] the session is at ["sales_order_created"],
    which passes neither the payment gate nor the contact gate: a second
    call with [requirePaymentConfirmed] or [requireContactCreated] set is
    refused with [PreconditionFailed] before anything is sent or written. *)
Theorem createSalesOrder_not_twice (rt rt' : Runtime) (ctx : Ctx)
  (input : SalesOrderInput) (w w1 : World) (r : SalesOrderResult) :
  createSalesOrder rt ctx input w = (Ok r, w1) ->
  requirePaymentConfirmed input = true \/ requireContactCreated input = true ->
  exists m, createSalesOrder rt' ctx input w1 = (Throw (TRPCError BAD_REQUEST m), w1).
Proof.
  intros Hrun Hflag.
  destruct (createSalesOrder_Ok_inv _ _ _ _ _ _ Hrun)
    as (cs & contactId & zid & Hcs & Hu & _ & _ & _ & _ & _ & Hsessions & _).
  assert (Hfound : checkoutSession_findFirst (so_in_checkoutSessionId input)
                     (session_user_id ctx) w1
                   = (Ok (Some (set_status "sales_order_created" cs)), w1)).
  { apply checkoutSession_findFirst_owned; [|exact Hu].
    rewrite Hsessions. apply lookup_insert_eq. }
  unfold createSalesOrder.
  destruct (requirePaymentConfirmed input) eqn:Hpay.
  - eexists. apply rethrow_TRPCError. unfold createSalesOrder_body.
    erewrite bind_run by exact Hfound. cbv beta iota.
    rewrite Hpay. reflexivity.
  - destruct Hflag as [Hflag | Hflag]; [discriminate|].
    eexists. apply rethrow_TRPCError. unfold createSalesOrder_body.
    erewrite bind_run by exact Hfound. cbv beta iota.
    rewrite Hpay, Hflag. reflexivity.
Qed.

Lemma createSalesOrder_not_twice_witness :
  exists r w1 m,
    createSalesOrder ordering_runtime ctx_1 order_cs_1 world_contact_created
    = (Ok r, w1)
    /\ createSalesOrder ordering_runtime ctx_1 order_cs_1 w1
       = (Throw (TRPCError BAD_REQUEST m), w1).
Proof.
  assert (Hrun : exists r w1,
             createSalesOrder ordering_runtime ctx_1 order_cs_1 world_contact_created
             = (Ok r, w1))
    by (do 2 eexists; vm_compute; reflexivity).
  destruct Hrun as (r & w1 & Hrun).
  destruct (createSalesOrder_not_twice ordering_runtime ordering_runtime ctx_1
              order_cs_1 world_contact_created w1 r Hrun (or_introl eq_refl))
    as [m Hm].
  exists r, w1, m. split; [exact Hrun | exact Hm].
Defined.

(** X17: the later gates of [createSalesOrder].  For a session of the
    caller that passes the payment gate: with [requireContactCreated] set
    and a status other than ["contact_created"] (a session that is only
    paid, say) the call fails with [BAD_REQUEST] "Contact must be created
    before creating sales order"; with the gates passed but no identity link
    holding a remote id it fails with [NOT_FOUND] "Zoho contact not found".
    In both cases nothing is sent and nothing is written. *)
Theorem createSalesOrder_later_gates (rt : Runtime) (ctx : Ctx)
  (input : SalesOrderInput) (w : World) (cs : CheckoutSession) :
  checkoutSession (db w) !! so_in_checkoutSessionId input = Some cs ->
  cs_userId cs = session_user_id ctx ->
  requirePaymentConfirmed input && payment_not_confirmed cs = false ->
  (requireContactCreated input = true ->
   cs_status cs <> "contact_created" ->
   createSalesOrder rt ctx input w =
   (Throw (TRPCError BAD_REQUEST
             "Contact must be created before creating sales order"), w))
  /\ ((requireContactCreated input = true -> cs_status cs = "contact_created") ->
      linked_zohoUserId (zohoAccountLink (db w) !! session_user_id ctx) = None ->
      createSalesOrder rt ctx input w =
      (Throw (TRPCError NOT_FOUND "Zoho contact not found"), w)).
Proof.
  intros Hcs Hu Hpay. split.
  - intros Hreq Hst. unfold createSalesOrder. apply rethrow_TRPCError.
    unfold createSalesOrder_body.
    erewrite bind_run by (apply checkoutSession_findFirst_owned; eassumption).
    cbv beta iota. rewrite Hpay, Hreq.
    apply String.eqb_neq in Hst. rewrite Hst. reflexivity.
  - intros Hst Hlink. unfold createSalesOrder. apply rethrow_TRPCError.
    unfold createSalesOrder_body.
    erewrite bind_run by (apply checkoutSession_findFirst_owned; eassumption).
    cbv beta iota. rewrite Hpay.
    replace (requireContactCreated input
             && negb (String.eqb (cs_status cs) "contact_created")) with false.
    + erewrite bind_run by reflexivity. cbv beta iota. now rewrite Hlink.
    + destruct (requireContactCreated input); [|reflexivity].
      rewrite (Hst eq_refl). reflexivity.
Qed.

Lemma createSalesOrder_later_gates_witness :
  createSalesOrder steady_runtime ctx_1 order_cs_1 world_paid =
    (Throw (TRPCError BAD_REQUEST
              "Contact must be created before creating sales order"), world_paid)
  /\ createSalesOrder steady_runtime ctx_1 order_cs_1
       (world_of (session_1 "contact_created" (Some acme) signed) ∅) =
     (Throw (TRPCError NOT_FOUND "Zoho contact not found"),
      world_of (session_1 "contact_created" (Some acme) signed) ∅).
Proof.
  split.
  - apply (createSalesOrder_later_gates steady_runtime ctx_1 order_cs_1 world_paid
             (session_1 "payment_completed" (Some acme) signed));
      try reflexivity. discriminate.
  - apply (createSalesOrder_later_gates steady_runtime ctx_1 order_cs_1
             (world_of (session_1 "contact_created" (Some acme) signed) ∅)
             (session_1 "contact_created" (Some acme) signed));
      reflexivity.
Defined.

(** ** The contact advance *)

(** What a successful [createOrUpdateContact] has done. *)
Lemma createOrUpdateContact_Ok_inv (rt : Runtime) (ctx : Ctx) (input : ContactInput)
  (w w1 : World) (c : ContactResult) :
  createOrUpdateContact rt ctx input w = (Ok c, w1) ->
  exists cs ci u,
    checkoutSession (db w) !! in_checkoutSessionId input = Some cs
    /\ cs_userId cs = principal ctx input
    /\ cs_companyInfo cs = Some ci
    /\ cs_user cs = Some u
    /\ zohoContactId c <> ""
    /\ zohoLink c = {| zal_userId := principal ctx input;
                       zohoUserId := zohoContactId c;
                       zal_updatedAt := now rt |}
    /\ sent w1 =
       (sent w ++ [if isUpdate c
                   then PUT_Contacts (zohoContactId c) (make_contactData cs ci u)
                   else POST_Contacts (make_contactData cs ci u)])%list
    /\ linked_zohoUserId (zohoAccountLink (db w) !! principal ctx input)
       = (if isUpdate c then Some (zohoContactId c) else None)
    /\ checkoutSession (db w1) =
       <[in_checkoutSessionId input := set_status "contact_created" cs]>
         (checkoutSession (db w))
    /\ zohoAccountLink (db w1) =
       <[principal ctx input := zohoLink c]> (zohoAccountLink (db w))
    /\ salesOrder (db w1) = salesOrder (db w)
    /\ signupLink (db w1) = signupLink (db w).
Proof.
  intros Hrun.
  unfold createOrUpdateContact, createOrUpdateContact_body in Hrun.
  unfold createOrUpdateContact_catch, zohoAccountLink_findUnique,
    checkoutSession_findFirst, zohoAccountLink_upsert, prisma_String,
    checkoutSession_update_status, put_db in Hrun.
  unfold_proc. simpl in Hrun.
  repeat first
    [ rewrite updateZohoContact_run in Hrun; simpl in Hrun
    | rewrite createZohoContact_run in Hrun; simpl in Hrun
    | reuse_eq Hrun
    | break_hyp Hrun ].
  all: try discriminate.
  all: injection Hrun as <- <-.
  all: repeat match goal with
         | E : (_ =? _)%string = true |- _ => apply String.eqb_eq in E
         | E : truthy (JStr _) = true |- _ =>
             simpl in E; apply negb_true_iff, String.eqb_neq in E
         | E : linked_zohoUserId _ = Some _ |- _ =>
             pose proof (linked_zohoUserId_inv _ _ E); revert E
         end; intros.
  all: do 3 eexists; simpl; repeat split; eauto.
Qed.

(** X18: whenever [createOrUpdateContact] succeeds, exactly one request
    was sent (a [PUT] keyed by the stored remote id when it reports an
    update, a [POST] otherwise), the link of the principal holds the
    non-empty remote id that is returned, and the session is at
    ["contact_created"] whatever its status was before: the procedure does
    not consult the status, so a session that had reached
    ["sales_order_created"] is moved back.  The sales orders and the signup
    links are untouched. *)
Theorem createOrUpdateContact_success (rt : Runtime) (ctx : Ctx)
  (input : ContactInput) (w w1 : World) (c : ContactResult) :
  createOrUpdateContact rt ctx input w = (Ok c, w1) ->
  exists cs ci u,
    checkoutSession (db w) !! in_checkoutSessionId input = Some cs
    /\ cs_userId cs = principal ctx input
    /\ cs_companyInfo cs = Some ci
    /\ cs_user cs = Some u
    /\ zohoContactId c <> ""
    /\ zohoLink c = {| zal_userId := principal ctx input;
                       zohoUserId := zohoContactId c;
                       zal_updatedAt := now rt |}
    /\ sent w1 =
       (sent w ++ [if isUpdate c
                   then PUT_Contacts (zohoContactId c) (make_contactData cs ci u)
                   else POST_Contacts (make_contactData cs ci u)])%list
    /\ linked_zohoUserId (zohoAccountLink (db w) !! principal ctx input)
       = (if isUpdate c then Some (zohoContactId c) else None)
    /\ checkoutSession (db w1) =
       <[in_checkoutSessionId input := set_status "contact_created" cs]>
         (checkoutSession (db w))
    /\ zohoAccountLink (db w1) =
       <[principal ctx input := zohoLink c]> (zohoAccountLink (db w))
    /\ salesOrder (db w1) = salesOrder (db w)
    /\ signupLink (db w1) = signupLink (db w).
Proof. apply createOrUpdateContact_Ok_inv. Qed.

(** A session that had reached ["sales_order_created"] is synced again. *)
Lemma createOrUpdateContact_success_witness :
  exists c w1,
    createOrUpdateContact steady_runtime ctx_1 contact_cs_1
      (world_of (session_1 "sales_order_created" (Some acme) signed)
         {[ "user_1" := link_user_1 ]})
    = (Ok c, w1)
    /\ isUpdate c = true
    /\ checkoutSession (db w1) !! "cs_1"
       = Some (session_1 "contact_created" (Some acme) signed).
Proof.
  assert (Hrun : exists c w1,
             createOrUpdateContact steady_runtime ctx_1 contact_cs_1
               (world_of (session_1 "sales_order_created" (Some acme) signed)
                  {[ "user_1" := link_user_1 ]})
             = (Ok c, w1) /\ isUpdate c = true)
    by (do 2 eexists; split; vm_compute; reflexivity).
  destruct Hrun as (c & w1 & Hrun & Hupd).
  destruct (createOrUpdateContact_success _ _ _ _ _ _ Hrun)
    as (cs & ci & u & Hcs & _ & _ & _ & _ & _ & _ & _ & Hsessions & _).
  exists c, w1. split; [exact Hrun|]. split; [exact Hupd|].
  rewrite Hsessions.
  change (checkoutSession
            (db (world_of (session_1 "sales_order_created" (Some acme) signed)
                   {[ "user_1" := link_user_1 ]})) !! in_checkoutSessionId contact_cs_1)
    with (Some (session_1 "sales_order_created" (Some acme) signed)) in Hcs.
  injection Hcs as <-. apply lookup_insert_eq.
Defined.

(** X19: [createOrUpdateContact] commits nothing unless it succeeds:
    whenever it throws, for whatever reason (a gate, a failed remote call, a
    remote answer without an id), the database is exactly as before the
    call. *)
Theorem createOrUpdateContact_failure_commits_nothing (rt : Runtime) (ctx : Ctx)
  (input : ContactInput) (w w' : World) (e : exn) :
  createOrUpdateContact rt ctx input w = (Throw e, w') -> db w' = db w.
Proof.
  intros Hrun.
  unfold createOrUpdateContact, createOrUpdateContact_body in Hrun.
  unfold createOrUpdateContact_catch, zohoAccountLink_findUnique,
    checkoutSession_findFirst, zohoAccountLink_upsert, prisma_String,
    checkoutSession_update_status, put_db in Hrun.
  unfold_proc. simpl in Hrun.
  repeat first
    [ rewrite updateZohoContact_run in Hrun; simpl in Hrun
    | rewrite createZohoContact_run in Hrun; simpl in Hrun
    | reuse_eq Hrun
    | break_hyp Hrun ].
  all: try discriminate.
  all: injection Hrun as <- <-; reflexivity.
Qed.

(** The remote service creates the contact but answers without an id. *)
Lemma createOrUpdateContact_failure_commits_nothing_witness :
  exists e w',
    createOrUpdateContact flaky_runtime ctx_1 contact_cs_1 world_paid = (Throw e, w')
    /\ e = TRPCError INTERNAL_SERVER_ERROR "Failed to get contact ID from Zoho response"
    /\ db w' = db world_paid.
Proof.
  assert (Hrun : exists e w',
             createOrUpdateContact flaky_runtime ctx_1 contact_cs_1 world_paid
             = (Throw e, w')
             /\ e = TRPCError INTERNAL_SERVER_ERROR
                      "Failed to get contact ID from Zoho response")
    by (do 2 eexists; split; vm_compute; reflexivity).
  destruct Hrun as (e & w' & Hrun & He).
  exists e, w'. split; [exact Hrun|]. split; [exact He|].
  exact (createOrUpdateContact_failure_commits_nothing _ _ _ _ _ _ Hrun).
Defined.

(** ** [createContactAndSalesOrder] *)

(** X20: [createContactAndSalesOrder] only checks the gates.  Whatever its
    outcome it sends nothing to the remote service and writes nothing, the
    session status included; when the session of the caller has company
    info and passes the agreement and payment gates it reports success with
    the two placeholder ids, and a success never carries anything else. *)
Theorem createContactAndSalesOrder_checks_only (ctx : Ctx) (input : CombinedInput)
  (w : World) :
  snd (createContactAndSalesOrder ctx input w) = w
  /\ (forall r, fst (createContactAndSalesOrder ctx input w) = Ok r ->
                r = {| contactResult_contactId := "temp_contact_id";
                       salesOrderResult_salesOrderId := "temp_sales_order_id" |})
  /\ (forall cs ci,
        checkoutSession (db w) !! both_checkoutSessionId input = Some cs ->
        cs_userId cs = session_user_id ctx ->
        cs_companyInfo cs = Some ci ->
        both_requireAgreementSigned input && agreement_not_completed cs = false ->
        both_requirePaymentConfirmed input && payment_not_confirmed cs = false ->
        fst (createContactAndSalesOrder ctx input w) =
        Ok {| contactResult_contactId := "temp_contact_id";
              salesOrderResult_salesOrderId := "temp_sales_order_id" |}).
Proof.
  unfold createContactAndSalesOrder, transaction, checkoutSession_findFirst,
    rethrow_or_internal.
  unfold try_catch, bind, ret, throw, get_db. simpl.
  destruct (checkoutSession (db w) !! both_checkoutSessionId input) as [cs|] eqn:Hcs;
    simpl.
  2: { rewrite World_eta. repeat split; discriminate. }
  destruct (String.eqb (cs_userId cs) (session_user_id ctx)) eqn:Hu; simpl.
  2: { rewrite World_eta. repeat split; try discriminate.
       intros cs0 ci [= <-] Hu0. apply String.eqb_neq in Hu. contradiction. }
  destruct (cs_companyInfo cs) as [ci|] eqn:Hci; simpl.
  2: { rewrite World_eta. repeat split; try discriminate.
       intros cs0 ci [= <-]. congruence. }
  destruct (both_requireAgreementSigned input && agreement_not_completed cs) eqn:Hag;
    simpl.
  { rewrite World_eta. repeat split; try discriminate.
    intros cs0 ci0 [= <-]. congruence. }
  rewrite ?Hcs; simpl; rewrite ?Hu; simpl.
  destruct (both_requirePaymentConfirmed input && payment_not_confirmed cs) eqn:Hpay;
    simpl.
  { rewrite World_eta. repeat split; try discriminate.
    intros cs0 ci0 [= <-]. congruence. }
  repeat split.
  now intros r [= <-].
Qed.

(** A session that is ready for both advances: success is reported, and
    the world is as before. *)
Lemma createContactAndSalesOrder_checks_only_witness :
  createContactAndSalesOrder ctx_1 both_cs_1 world_paid =
  (Ok {| contactResult_contactId := "temp_contact_id";
         salesOrderResult_salesOrderId := "temp_sales_order_id" |}, world_paid).
Proof.
  destruct (createContactAndSalesOrder_checks_only ctx_1 both_cs_1 world_paid)
    as (Hw & _ & Hok).
  pose proof (Hok (session_1 "payment_completed" (Some acme) signed) acme
                eq_refl eq_refl eq_refl eq_refl eq_refl) as Hfst.
  rewrite (pair_eta (createContactAndSalesOrder ctx_1 both_cs_1 world_paid)).
  now rewrite Hw, Hfst.
Defined.

(** ** [getContactInfo] and [searchContacts] *)

(** X21: [getContactInfo] never writes.  Without an identity link it
    answers [data: null] and sends nothing; with a link it sends one contact
    request keyed by the stored remote id and returns the link together
    with the contact, or with [null] when the network failed. *)
Theorem getContactInfo_reads (rt : Runtime) (ctx : Ctx) (userId : option string)
  (w : World) :
  db (snd (getContactInfo rt ctx userId w)) = db w
  /\ (zohoAccountLink (db w) !! default (session_user_id ctx) userId = None ->
      getContactInfo rt ctx userId w = (Ok None, w))
  /\ (forall link,
        zohoAccountLink (db w) !! default (session_user_id ctx) userId = Some link ->
        sent (snd (getContactInfo rt ctx userId w))
        = (sent w ++ [GET_Contacts (zohoUserId link)])%list
        /\ (forall c,
              fetched rt (sent w) (GET_Contacts (zohoUserId link)) = Ok c ->
              fst (getContactInfo rt ctx userId w)
              = Ok (Some {| info_zohoLink := link; contactDetails := Some c |}))
        /\ (forall msg,
              fetched rt (sent w) (GET_Contacts (zohoUserId link)) = Throw (JsError msg) ->
              fst (getContactInfo rt ctx userId w)
              = Ok (Some {| info_zohoLink := link; contactDetails := None |}))).
Proof.
  unfold getContactInfo, try_catch.
  erewrite bind_run by reflexivity. cbv beta iota.
  destruct (zohoAccountLink (db w) !! default (session_user_id ctx) userId)
    as [link|] eqn:Hlink.
  - unfold bind. rewrite getZohoContact_run.
    split; [|split; [discriminate|]].
    + destruct (fetched rt (sent w) (GET_Contacts (zohoUserId link)))
        as [c|[code m|m]]; reflexivity.
    + intros l [= <-]. split; [|split].
      * destruct (fetched rt (sent w) (GET_Contacts (zohoUserId link)))
          as [c|[code m|m]]; reflexivity.
      * intros c Hf. now rewrite Hf.
      * intros msg Hf. now rewrite Hf.
  - simpl. split; [reflexivity|]. split; [reflexivity|discriminate].
Qed.

Lemma getContactInfo_reads_witness :
  getContactInfo steady_runtime ctx_1 None initial_world = (Ok None, initial_world)
  /\ fst (getContactInfo offline_runtime ctx_1 None world_contact_created)
     = Ok (Some {| info_zohoLink := link_user_1; contactDetails := None |}).
Proof.
  destruct (getContactInfo_reads steady_runtime ctx_1 None initial_world)
    as (_ & Hnone & _).
  destruct (getContactInfo_reads offline_runtime ctx_1 None world_contact_created)
    as (_ & _ & Hsome).
  split; [exact (Hnone eq_refl)|].
  destruct (Hsome link_user_1 eq_refl) as (_ & _ & Hdown).
  exact (Hdown "fetch failed" eq_refl).
Defined.

Lemma criterion_nil (field : string) (value : option string) :
  criterion field value = [] <-> value = None \/ value = Some "".
Proof.
  unfold criterion, truthy_str. destruct value as [v|]; [|tauto].
  destruct (String.eqb v "") eqn:E; simpl.
  - apply String.eqb_eq in E. subst v. tauto.
  - apply String.eqb_neq in E. split; [discriminate|].
    intros [H|[= H]]; [discriminate | contradiction].
Qed.

(** X22: [searchContacts] needs a criterion.  When the email is absent
    (the input schema admits no empty email) and the phone and the company
    are absent or empty, it fails without sending anything.  Otherwise it
    sends exactly one search: the criteria of the non-empty inputs, in the
    order email, phone, company, joined by [" or "], go as one string to
    [searchZohoContacts], which sends them as the value of an [Email]
    criterion, so that a search by phone alone asks for the contacts whose
    email equals ["(Phone:equals:...)"].  It returns what the search
    returned, or the empty list when the network failed; an error of the
    remote service is not passed on but replaced by the fixed "Failed to
    search Zoho contacts". *)
Theorem searchContacts_criteria (rt : Runtime) (input : SearchContactsInput)
  (w : World) :
  search_email input <> Some "" ->
  (searchCriteria input = []
   <-> search_email input = None
       /\ (search_phone input = None \/ search_phone input = Some "")
       /\ (search_company input = None \/ search_company input = Some ""))
  /\ (searchCriteria input = [] ->
      searchContacts rt input w = (Throw (JsError "Failed to search Zoho contacts"), w))
  /\ (searchCriteria input <> [] ->
      let rq := GET_Contacts_search
                  ("(Email:equals:" ++ join " or " (searchCriteria input) ++ ")") in
      snd (searchContacts rt input w) = logged rq w
      /\ (forall v, fetched rt (sent w) rq = Ok v ->
                    fst (searchContacts rt input w) = Ok v)
      /\ (forall msg, fetched rt (sent w) rq = Throw (JsError msg) ->
                      fst (searchContacts rt input w) = Ok (JArr []))
      /\ (forall code m, fetched rt (sent w) rq = Throw (TRPCError code m) ->
                         fst (searchContacts rt input w)
                         = Throw (JsError "Failed to search Zoho contacts")))
  /\ (forall phone,
        search_email input = None -> search_phone input = Some phone ->
        phone <> "" -> search_company input = None ->
        sent (snd (searchContacts rt input w))
        = (sent w ++ [GET_Contacts_search
                        ("(Email:equals:" ++ ("(Phone:equals:" ++ phone ++ ")")
                           ++ ")")])%list).
Proof.
  intros Hemail.
  assert (Hsome : searchCriteria input <> [] ->
            let rq := Email_equals (join " or " (searchCriteria input)) in
            snd (searchContacts rt input w) = logged rq w
            /\ (forall v, fetched rt (sent w) rq = Ok v ->
                          fst (searchContacts rt input w) = Ok v)
            /\ (forall msg, fetched rt (sent w) rq = Throw (JsError msg) ->
                            fst (searchContacts rt input w) = Ok (JArr []))
            /\ (forall code m, fetched rt (sent w) rq = Throw (TRPCError code m) ->
                               fst (searchContacts rt input w)
                               = Throw (JsError "Failed to search Zoho contacts"))).
  { intros Hne. cbv zeta. unfold searchContacts, try_catch.
    destruct (searchCriteria input) as [|c0 cs] eqn:Hc; [contradiction|].
    rewrite searchZohoContacts_run.
    destruct (fetched rt (sent w) (Email_equals (join " or " (c0 :: cs))))
      as [v|[code m|m]]; simpl; repeat split; try discriminate.
    intros v0 Hv0. congruence. }
  split; [|split; [|split]].
  - unfold searchCriteria.
    rewrite <- (criterion_nil "Phone"), <- (criterion_nil "Company").
    split.
    + intros H. apply app_eq_nil in H as [H1 H]. apply app_eq_nil in H as [H2 H3].
      apply criterion_nil in H1 as [H1|H1]; [|contradiction].
      repeat split; assumption.
    + intros (-> & -> & ->). reflexivity.
  - intros Hnil. unfold searchContacts, try_catch. now rewrite Hnil.
  - exact Hsome.
  - intros phone He Hp Hphone Hc.
    assert (Hcrit : searchCriteria input = ["(Phone:equals:" ++ phone ++ ")"]).
    { unfold searchCriteria, criterion, truthy_str. rewrite He, Hp, Hc.
      apply String.eqb_neq in Hphone. now rewrite Hphone. }
    destruct (Hsome ltac:(rewrite Hcrit; discriminate)) as (Hsent & _).
    rewrite Hsent, Hcrit. reflexivity.
Qed.

Example searchCriteria_ada :
  join " or " (searchCriteria search_ada)
  = "(Email:equals:ada@example.org) or (Company:equals:Analytical Engines)".
Proof. reflexivity. Qed.

Lemma searchContacts_criteria_witness :
  searchContacts steady_runtime search_nothing initial_world =
    (Throw (JsError "Failed to search Zoho contacts"), initial_world)
  /\ snd (searchContacts failing_runtime search_ada initial_world) =
       logged (GET_Contacts_search
                 "(Email:equals:(Email:equals:ada@example.org) or (Company:equals:Analytical Engines))")
         initial_world
  /\ fst (searchContacts failing_runtime search_ada initial_world) =
       Throw (JsError "Failed to search Zoho contacts")
  /\ sent (snd (searchContacts steady_runtime search_phone_only initial_world))
     = [GET_Contacts_search "(Email:equals:(Phone:equals:+44 20 7946 0000))"].
Proof.
  destruct (searchContacts_criteria steady_runtime search_nothing initial_world
              ltac:(discriminate)) as (_ & Hnil & _).
  destruct (searchContacts_criteria failing_runtime search_ada initial_world
              ltac:(discriminate)) as (_ & _ & Hsome & _).
  destruct (searchContacts_criteria steady_runtime search_phone_only initial_world
              ltac:(discriminate)) as (_ & _ & _ & Hphone).
  split; [exact (Hnil eq_refl)|].
  destruct (Hsome ltac:(discriminate)) as (Hsent & _ & _ & Herr).
  split; [exact Hsent|].
  split; [exact (Herr INTERNAL_SERVER_ERROR "Zoho API error: maintenance" eq_refl)|].
  exact (Hphone "+44 20 7946 0000" eq_refl eq_refl ltac:(discriminate) eq_refl).
Defined.

(** ** Splitting a contact name *)

Lemma split_nonempty (sep : ascii) (s : string) : split sep s <> [].
Proof.
  destruct s as [|c s]; simpl; [discriminate|].
  destruct (Ascii.eqb c sep); [discriminate|].
  destruct (split sep s); discriminate.
Qed.

Lemma join_cons (sep w : string) (ws : list string) :
  ws <> [] -> join sep (w :: ws) = w ++ sep ++ join sep ws.
Proof. destruct ws; [contradiction | reflexivity]. Qed.

Lemma join_cons_char (sep : string) (c : ascii) (w : string) (ws : list string) :
  join sep (String c w :: ws) = String c (join sep (w :: ws)).
Proof. destruct ws; reflexivity. Qed.

Lemma join_split (sep : ascii) (s : string) :
  join (String sep "") (split sep s) = s.
Proof.
  induction s as [|c s IH]; [reflexivity|]. simpl.
  destruct (Ascii.eqb c sep) eqn:E.
  - apply Ascii.eqb_eq in E. subst c.
    rewrite join_cons by apply split_nonempty. simpl. now rewrite IH.
  - destruct (split sep s) as [|w ws] eqn:Hs; [now apply split_nonempty in Hs|].
    rewrite join_cons_char. now rewrite IH.
Qed.

Lemma split_parts_clean (sep : ascii) (s : string) :
  Forall (fun p => ~ occurs sep p) (split sep s).
Proof.
  unfold occurs. induction s as [|c s IH]; simpl.
  - constructor; [tauto | constructor].
  - destruct (Ascii.eqb c sep) eqn:E.
    + constructor; [tauto | exact IH].
    + apply Ascii.eqb_neq in E.
      destruct (split sep s) as [|w ws]; [repeat constructor; simpl; tauto|].
      inversion IH as [|? ? Hw Hws]; subst.
      constructor; [|exact Hws]. simpl. intros [H|H]; [congruence | tauto].
Qed.

Lemma split_without_sep (sep : ascii) (s : string) :
  ~ occurs sep s -> split sep s = [s].
Proof.
  unfold occurs. induction s as [|c s IH]; simpl; [reflexivity|].
  intros H. destruct (Ascii.eqb c sep) eqn:E.
  - apply Ascii.eqb_eq in E. tauto.
  - rewrite IH by tauto. reflexivity.
Qed.

Lemma split_with_sep (sep : ascii) (s : string) :
  occurs sep s -> exists a b rest, split sep s = a :: b :: rest.
Proof.
  unfold occurs. induction s as [|c s IH]; simpl; [tauto|].
  intros H. destruct (Ascii.eqb c sep) eqn:E.
  - destruct (split sep s) as [|w ws] eqn:Hs; [now apply split_nonempty in Hs|].
    eauto.
  - apply Ascii.eqb_neq in E. destruct H as [H|H]; [congruence|].
    destruct (IH H) as (a & b & rest & ->). eauto.
Qed.

(** X23: [split] and [join] are inverse to each other on a string:
    joining the parts of [s.split(sep)] with the separator gives [s] back;
    the parts are never an empty array, and no part contains the
    separator. *)
Theorem join_split_round_trip (sep : ascii) (s : string) :
  join (String sep "") (split sep s) = s
  /\ split sep s <> []
  /\ Forall (fun p => ~ occurs sep p) (split sep s).
Proof.
  split; [apply join_split|]. split; [apply split_nonempty | apply split_parts_clean].
Qed.

Lemma slice_snoc {A} (init : list A) (x : A) :
  slice_from (init ++ [x]) (-1) = [x] /\ slice (init ++ [x]) 0 (-1) = init.
Proof.
  unfold slice_from, slice, slice_index. rewrite length_app. simpl.
  replace (-1 <? 0) with true by reflexivity.
  replace (0 <? 0) with false by reflexivity.
  replace (Z.of_nat (length init + 1) <? 0) with false
    by (symmetry; apply Z.ltb_ge; lia).
  split.
  - replace (Z.to_nat (Z.max (Z.of_nat (length init + 1) + -1) 0))
      with (length init) by lia.
    rewrite drop_app_length.
    replace (Z.to_nat _) with 1%nat by lia. reflexivity.
  - replace (Z.to_nat (Z.min 0 (Z.of_nat (length init + 1)))) with 0%nat by lia.
    rewrite drop_0.
    replace (Z.to_nat _) with (length init) by lia.
    apply take_app_length.
Qed.

Lemma append_assoc (s t u : string) : (s ++ t) ++ u = s ++ (t ++ u).
Proof.
  induction s as [|c s IH]; [reflexivity|].
  change (String c ((s ++ t) ++ u) = String c (s ++ (t ++ u))). now rewrite IH.
Qed.

Lemma join_snoc (sep : string) (init : list string) (x : string) :
  init <> [] -> join sep (init ++ [x]) = join sep init ++ sep ++ x.
Proof.
  induction init as [|w ws IH]; [contradiction|]. intros _.
  destruct ws as [|w' ws].
  - reflexivity.
  - change ((w :: w' :: ws) ++ [x])%list with (w :: ((w' :: ws) ++ [x]))%list.
    rewrite join_cons by (simpl; discriminate).
    rewrite IH by discriminate.
    rewrite (join_cons sep w (w' :: ws)) by discriminate.
    now rewrite !append_assoc.
Qed.

(** X24: how [createOrUpdateContact] divides the contact name.  The last
    name is the part after the last space and contains no space; when the
    name contains a space, first name, a space and last name give the name
    back; when it contains none (the empty name included), the first name is
    empty and the last name is the whole name. *)
Theorem contact_name_split (cs : CheckoutSession) (ci : CompanyInfo) (u : User) :
  exists f,
    cd_data (make_contactData cs ci u) = [f]
    /\ ~ occurs " " (Last_Name f)
    /\ (occurs " " (default "" (contactName ci)) ->
        First_Name f ++ " " ++ Last_Name f = default "" (contactName ci))
    /\ (~ occurs " " (default "" (contactName ci)) ->
        First_Name f = "" /\ Last_Name f = default "" (contactName ci)).
Proof.
  eexists. split; [reflexivity|]. cbn [Last_Name First_Name].
  set (n := default "" (contactName ci)).
  pose proof (join_split " " n) as Hjoin.
  pose proof (split_parts_clean " " n) as Hclean.
  destruct (exists_last (split_nonempty " " n)) as (init & x & Hparts).
  rewrite Hparts in *.
  destruct (slice_snoc init x) as [-> ->].
  apply Forall_app in Hclean as [_ Hx]. inversion Hx as [|? ? Hlast _]; subst.
  split; [exact Hlast|]. split.
  - intros Hocc. destruct (split_with_sep " " n Hocc) as (a & b & rest & Hab).
    assert (Hinit : init <> []).
    { intros ->. rewrite Hparts in Hab. discriminate. }
    rewrite (join_snoc " " init x Hinit) in Hjoin. exact Hjoin.
  - intros Hnone. rewrite (split_without_sep " " n Hnone) in Hparts.
    destruct init as [|i0 init]; [|destruct init; discriminate].
    injection Hparts as <-. auto.
Qed.

Lemma contact_name_split_witness :
  exists f,
    cd_data contact_data_1 = [f]
    /\ First_Name f ++ " " ++ Last_Name f = "Ada King Lovelace"
    /\ Last_Name f = "Lovelace".
Proof.
  destruct (contact_name_split (session_1 "payment_completed" (Some acme) signed)
              acme user_1) as (f & Hf & _ & Hspace & _).
  exists f. split; [exact Hf|]. split.
  - apply Hspace. unfold occurs. simpl. tauto.
  - change (cd_data (make_contactData
                       (session_1 "payment_completed" (Some acme) signed) acme user_1))
      with (cd_data contact_data_1) in Hf.
    vm_compute in Hf. now injection Hf as <-.
Defined.

(** ** Registration, continued *)

Section RegistrationInvariants.

Import Register.

Variable env : Env.

Lemma user_findUnique_None (e : string) (users : list UserRow) :
  user_findUnique e users = None -> ~ In e (List.map email users).
Proof.
  unfold user_findUnique. intros Hnone Hin.
  apply in_map_iff in Hin as (u & Hu & Hin).
  apply (find_none _ _ Hnone) in Hin. apply String.eqb_neq in Hin. contradiction.
Qed.

(** X25: registration keeps the emails of the user table pairwise
    distinct, never changes or removes a stored row, and stores the bcrypt
    hash of the password, not the password it received. *)
Theorem POST_keeps_emails_unique (body : option JSON) (users : list UserRow) :
  NoDup (List.map email users) ->
  NoDup (List.map email (snd (POST env body users)))
  /\ (exists added, snd (POST env body users) = (users ++ added)%list
                    /\ (length added <= 1)%nat
                    /\ forall row data b,
                         In row added -> body = Some b ->
                         safeParse env b = Some data ->
                         password row = hash env (reg_password data) 12).
Proof.
  intros Hnodup.
  destruct (POST_cases env body users)
    as [Hsame | (b & data & Hb & Hparse & Hfind & Hpost)].
  - rewrite Hsame. split; [exact Hnodup|].
    exists []. rewrite app_nil_r. split; [reflexivity|]. split; [simpl; lia|].
    intros row data b [].
  - rewrite Hpost. cbn [snd]. split.
    + rewrite List.map_app. apply NoDup_app. split; [exact Hnodup|]. split.
      * intros e He Hin. apply list_elem_of_singleton in Hin. subst e.
        apply user_findUnique_None in Hfind. apply Hfind.
        now apply list_elem_of_In.
      * apply NoDup_singleton.
    + eexists. split; [reflexivity|]. split; [simpl; lia|].
      intros row data0 b0 [<-|[]] Hb0 Hparse0. simpl.
      rewrite Hb in Hb0. injection Hb0 as <-. congruence.
Qed.

(** X26: a registration that succeeded cannot be repeated: after a valid
    request for an unused email has been answered with 200 and one row has
    been added, the same request is answered with 400 "User already exists"
    and adds nothing. *)
Theorem register_then_again (b : JSON) (data : RegistrationData)
  (users : list UserRow) :
  safeParse env b = Some data ->
  user_findUnique (reg_email data) users = None ->
  exists id users1,
    POST env (Some b) users =
      ({| http_status := 200;
          payload := UserPayload id (reg_email data) (reg_name data) |}, users1)
    /\ length users1 = S (length users)
    /\ POST env (Some b) users1 =
         ({| http_status := 400; payload := ErrorPayload "User already exists" |},
          users1).
Proof.
  intros Hparse Hfind. do 2 eexists. split; [|split].
  - unfold POST. rewrite Hparse, Hfind. reflexivity.
  - rewrite length_app. simpl. lia.
  - unfold POST. rewrite Hparse.
    replace (user_findUnique (reg_email data) _)
      with (Some {| id := new_id env (length users);
                    email := reg_email data;
                    password := hash env (reg_password data) 12;
                    name := reg_name data |}); [reflexivity|].
    symmetry. unfold user_findUnique. apply find_snoc.
    + intros x Hx. apply (find_none _ _ Hfind) in Hx. exact Hx.
    + apply String.eqb_refl.
Qed.

End RegistrationInvariants.

Lemma POST_keeps_emails_unique_witness :
  NoDup (List.map Register.email
           (snd (Register.POST plain_env (Some register_grace) [ada])))
  /\ length (snd (Register.POST plain_env (Some register_grace) [ada])) = 2%nat.
Proof.
  destruct (POST_keeps_emails_unique plain_env (Some register_grace) [ada])
    as [Hnodup _].
  - apply NoDup_singleton.
  - split; [exact Hnodup | reflexivity].
Defined.

Lemma register_then_again_witness :
  exists id users1,
    Register.POST plain_env (Some register_grace) [ada] =
      ({| Register.http_status := 200;
          Register.payload := Register.UserPayload id "grace@example.org" (Some "Grace") |},
       users1)
    /\ length users1 = 2%nat
    /\ Register.POST plain_env (Some register_grace) users1 =
         ({| Register.http_status := 400;
             Register.payload := Register.ErrorPayload "User already exists" |},
          users1).
Proof.
  apply (register_then_again plain_env register_grace
           {| Register.reg_email := "grace@example.org";
              Register.reg_password := "compilers";
              Register.reg_name := Some "Grace" |} [ada]); reflexivity.
Defined.
